(** * Browser clients of the MSCF-16 and MHV-4 control panels

    A shallow embedding of [static/js/mscf16_app.js] (the pulse-shaping
    client) and [static/js/app.js] (the high-voltage client): the scripts'
    global state ([modules], [currentModuleId]), the part of the document
    they build and query, the requests they issue, and the handlers they
    attach to the page.

    Scope of the model.
    - Strings are sequences of ASCII characters.
    - Device identifiers are the endpoint names the server hands out
      (["COM3"], ["/dev/ttyUSB0"]).  They are taken to be free of
      quotes, angle brackets, ampersands and backslashes, so that the
      markup of a panel parses to the tree written in the template.
    - [modules] is a plain object: a lookup [modules[deviceId]] finds
      the properties of the object itself and, failing that, those it
      inherits from [Object.prototype].
    - A selector text built from an identifier is parsed; texts outside
      the part of the selector grammar that is parsed here end a run
      with the outcome [Unmodelled].
    - A Number is an integer, NaN, an infinity, or another finite value
      kept as the rational it denotes; the two zeros are one.  An
      integer that [parseInt] or a subtraction produces is rounded to
      the nearest double.  The three built-ins whose result depends on
      the binary representation of a fractional value are parameters of
      the development ([Builtins]).
    - Labels are written in ASCII. *)

From Stdlib Require Import String Ascii ZArith QArith Qround Qabs List Bool Lia DecimalString
  Permutation.
Import ListNotations.

Set Warnings "-register-all".

Local Open Scope string_scope.
Local Open Scope Z_scope.

(** ** Numbers and values of the scripting language *)

Inductive number : Type :=
| Int (z : Z)
| NaN
| Infinity (negative : bool)
| Real (q : Q).

Inductive jsval : Type :=
| JUndefined
| JNull
| JBool (b : bool)
| JNum (x : number)
| JStr (s : string).

(** Built-ins of the host taken as parameters: [Number.prototype.toFixed],
    [Number::toString] on a non-integral value, and [parseFloat]. *)
Class Builtins : Type := {
  Number_toFixed : number -> nat -> string;
  Real_toString : Q -> string;
  parseFloat : string -> number
}.

(** Decimal numeral of an integer, as [Number::toString] prints integers
    below 10^21 in magnitude. *)
Definition decimal (z : Z) : string := NilZero.string_of_int (Z.to_int z).

(** [ch.toString().padStart(2, '0')] *)
Definition padStart2 (s : string) : string :=
  match s with
  | String c EmptyString => String "0" (String c EmptyString)
  | EmptyString => "00"
  | _ => s
  end.

Definition is_white (c : ascii) : bool :=
  match nat_of_ascii c with
  | 9%nat | 10%nat | 11%nat | 12%nat | 13%nat | 32%nat => true
  | _ => false
  end.

Fixpoint trim_start (s : string) : string :=
  match s with
  | String c r => if is_white c then trim_start r else s
  | EmptyString => s
  end.

(** Value of a character as a digit, for radices up to 36. *)
Definition digit_value (c : ascii) : option Z :=
  let n := Z.of_nat (nat_of_ascii c) in
  if (48 <=? n) && (n <=? 57) then Some (n - 48)
  else if (97 <=? n) && (n <=? 122) then Some (n - 87)
  else if (65 <=? n) && (n <=? 90) then Some (n - 55)
  else None.

(** The longest prefix of radix-[R] digits, as an integer; [acc] is the
    value of the digits read so far, [None] while there is none. *)
Fixpoint read_digits (R : Z) (s : string) (acc : option Z) : option Z :=
  match s with
  | String c r =>
      match digit_value c with
      | Some v =>
          if v <? R
          then read_digits R r (Some (R * match acc with Some a => a | None => 0 end + v))
          else acc
      | None => acc
      end
  | EmptyString => acc
  end.

(** The Number nearest to an integer: up to 2^53 in magnitude every
    integer is a Number; a larger one is rounded to 53 significant
    bits, a tie to the even neighbour, and the result is an infinity
    from 2^1024 on. *)
Definition round_to_double (z : Z) : number :=
  let a := Z.abs z in
  if a <=? 2 ^ 53 then Int z
  else
    let e := Z.log2 a - 52 in
    let q := Z.shiftr a e in
    let r := a - Z.shiftl q e in
    let half := Z.shiftl 1 (e - 1) in
    let q' := if (half <? r) || ((r =? half) && Z.odd q) then q + 1 else q in
    let m := Z.shiftl q' e in
    if 2 ^ 1024 <=? m then Infinity (z <? 0) else Int (if z <? 0 then - m else m).

(** [parseInt(s)] with no radix argument; the integer that the digits
    denote is rounded to a Number, as the engines do (the standard lets
    them read decimal digits after the twentieth as [0]). *)
Definition parseInt (s : string) : number :=
  let s1 := trim_start s in
  let '(neg, s2) :=
    match s1 with
    | String "-" r => (true, r)
    | String "+" r => (false, r)
    | _ => (false, s1)
    end in
  let '(R, s3) :=
    match s2 with
    | String "0" (String "x" r) => (16, r)
    | String "0" (String "X" r) => (16, r)
    | _ => (10, s2)
    end in
  match read_digits R s3 None with
  | None => NaN
  | Some n => round_to_double (if neg then - n else n)
  end.

(** [x - 1] on Numbers. *)
Definition minus_one (x : number) : number :=
  match x with
  | Int z => round_to_double (z - 1)
  | NaN => NaN
  | Infinity n => Infinity n
  | Real q => Real (q - 1)%Q
  end.

(** [x === k] for an integer literal [k]. *)
Definition number_is (x : number) (k : Z) : bool :=
  match x with
  | Int z => z =? k
  | NaN | Infinity _ => false
  | Real q => Qeq_bool q (inject_Z k)
  end.

Section Conversions.
Context {B : Builtins}.

Definition Number_toString (x : number) : string :=
  match x with
  | Int z => if Z.abs z <=? 2 ^ 53 then decimal z else Real_toString (inject_Z z)
  | NaN => "NaN"
  | Infinity false => "Infinity"
  | Infinity true => "-Infinity"
  | Real q => Real_toString q
  end.

(** ToString, as applied by a template literal. *)
Definition ToString (v : jsval) : string :=
  match v with
  | JUndefined => "undefined"
  | JNull => "null"
  | JBool true => "true"
  | JBool false => "false"
  | JNum x => Number_toString x
  | JStr s => s
  end.

(** Conversion of a value assigned to [input.value]: [null] becomes
    the empty string. *)
Definition ToDOMString (v : jsval) : string :=
  match v with
  | JNull => ""
  | _ => ToString v
  end.

(** Conversion of a value assigned to [textContent], a string that may
    be [null]: [null] and [undefined] both give the empty text. *)
Definition ToTextContent (v : jsval) : string :=
  match v with
  | JNull | JUndefined => ""
  | _ => ToString v
  end.
End Conversions.

Definition ToBoolean (v : jsval) : bool :=
  match v with
  | JUndefined | JNull => false
  | JBool b => b
  | JNum (Int z) => negb (z =? 0)
  | JNum NaN => false
  | JNum (Infinity _) => true
  | JNum (Real q) => negb (Qeq_bool q 0)
  | JStr s => negb (s =? "")%string
  end.

(** ** Plain objects used as maps

    Own properties in creation order.  [Object_keys] lists array-index keys
    first, in ascending order, then the other keys in creation order.
    [obj_get] reads an own property; [inherited] tells the names that a
    lookup finds in [Object.prototype] when the object has no such
    property of its own. *)

Section Objects.
Context {V : Type}.

Definition object : Type := list (string * V).

Fixpoint obj_get (o : object) (k : string) : option V :=
  match o with
  | [] => None
  | (k', v) :: r => if (k' =? k)%string then Some v else obj_get r k
  end.

Fixpoint obj_set (o : object) (k : string) (v : V) : object :=
  match o with
  | [] => [(k, v)]
  | (k', v') :: r =>
      if (k' =? k)%string then (k', v) :: r else (k', v') :: obj_set r k v
  end.

Definition obj_delete (o : object) (k : string) : object :=
  filter (fun kv => negb (fst kv =? k)%string) o.

Definition own_keys (o : object) : list string := map fst o.
End Objects.

Arguments object V : clear implicits.

(** The properties of [Object.prototype].  Each holds a function or,
    for [__proto__], the prototype itself: a value that counts as true
    and that has no property [tabButton] or [tabContent]. *)
Definition Object_prototype_names : list string :=
  [ "constructor"; "__defineGetter__"; "__defineSetter__"; "hasOwnProperty";
    "__lookupGetter__"; "__lookupSetter__"; "isPrototypeOf"; "propertyIsEnumerable";
    "toString"; "valueOf"; "__proto__"; "toLocaleString" ].

Definition inherited (k : string) : bool := existsb (String.eqb k) Object_prototype_names.

(** A canonical numeric string below 2^32 - 1 is an array index. *)
Definition array_index (k : string) : option N :=
  match NilZero.uint_of_string k with
  | Some u =>
      let n := N.of_uint u in
      if (NilZero.string_of_uint (N.to_uint n) =? k)%string && (n <? 4294967295)%N
      then Some n else None
  | None => None
  end.

Fixpoint insert_index (n : N) (k : string) (l : list (N * string)) : list (N * string) :=
  match l with
  | [] => [(n, k)]
  | (m, k') :: r => if (n <=? m)%N then (n, k) :: l else (m, k') :: insert_index n k r
  end.

Fixpoint partition_keys (ks : list string) : list (N * string) * list string :=
  match ks with
  | [] => ([], [])
  | k :: r =>
      let '(ix, others) := partition_keys r in
      match array_index k with
      | Some n => (insert_index n k ix, others)
      | None => (ix, k :: others)
      end
  end.

Definition Object_keys {V : Type} (o : object V) : list string :=
  let '(ix, others) := partition_keys (own_keys o) in
  (map snd ix ++ others)%list.

(** ** The document *)

Inductive kind : Type :=
| DIV | SPAN | LABEL | HEADING | BUTTON | NUMBER_INPUT | CHECKBOX | SELECT.

(** Handlers attached to elements, inline ([onclick], [onchange]) or with
    [addEventListener]; a constructor stands for one function expression
    of the scripts and carries the variables it captures. *)
Inductive handler : Type :=
| H_switchModule (deviceId : string)
| H_disconnectDevice (deviceId : string)
| H_viewSettings (deviceId : string)
| H_loadRCSettings (deviceId : string)
| H_copyRCToPanel (deviceId : string)
| H_copyPanelToRC (deviceId : string)
| H_setThreshold (deviceId : string) (channel : Z)
| H_setPZ (deviceId : string) (channel : Z)
| H_setMonitorChannel (deviceId : string)
| H_setAutomaticPZ (deviceId : string)
| H_setShapingTime (deviceId : string) (group : Z)
| H_setGain (deviceId : string) (group : Z)
| H_setCoincidenceWindow (deviceId : string)
| H_setShaperOffset (deviceId : string)
| H_setThresholdOffset (deviceId : string)
| H_setBLRThreshold (deviceId : string)
| H_setMultiplicity (deviceId : string)
| H_setTimingFilter (deviceId : string)
| H_mode (deviceId : string)
| H_rampSpeed (deviceId : string)
| H_polarity (deviceId : string) (ch : Z)
| H_setVoltage (deviceId : string) (ch : Z)
| H_setVoltageLimit (deviceId : string) (ch : Z)
| H_setCurrentLimit (deviceId : string) (ch : Z)
| H_turnOn (deviceId : string) (ch : Z)
| H_turnOff (deviceId : string) (ch : Z)
| H_autoShutdown (deviceId : string) (ch : Z)
| H_ntc (deviceId : string) (ch : Z)
| H_refTemp (deviceId : string) (ch : Z)
| H_slope (deviceId : string) (ch : Z).

(** An element: what the scripts read or write of it.  [ref] is the
    identity of an element made with [createElement], by which the
    script keeps hold of it; elements parsed from markup are reached by
    queries only. *)
Record element : Type := mkElement {
  tag : kind;
  el_id : string;
  classList : list string;
  attributes : list (string * string);
  value : string;
  checked : bool;
  textContent : string;
  options : list string;
  listeners : list (string * handler);
  ref : option nat
}.

Definition with_id (i : string) (e : element) : element :=
  let '(mkElement k _ c a v ch t o l r) := e in mkElement k i c a v ch t o l r.
Definition with_classList (c : list string) (e : element) : element :=
  let '(mkElement k i _ a v ch t o l r) := e in mkElement k i c a v ch t o l r.
Definition with_value (v : string) (e : element) : element :=
  let '(mkElement k i c a _ ch t o l r) := e in mkElement k i c a v ch t o l r.
Definition with_checked (ch : bool) (e : element) : element :=
  let '(mkElement k i c a v _ t o l r) := e in mkElement k i c a v ch t o l r.
Definition with_textContent (t : string) (e : element) : element :=
  let '(mkElement k i c a v ch _ o l r) := e in mkElement k i c a v ch t o l r.
Definition with_listeners (l : list (string * handler)) (e : element) : element :=
  let '(mkElement k i c a v ch t o _ r) := e in mkElement k i c a v ch t o l r.
Definition with_ref (r : option nat) (e : element) : element :=
  let '(mkElement k i c a v ch t o l _) := e in mkElement k i c a v ch t o l r.

Definition has_class (c : string) (e : element) : bool :=
  existsb (String.eqb c) (classList e).
Definition has_id (i : string) (e : element) : bool := (el_id e =? i)%string.
Definition has_ref (r : nat) (e : element) : bool :=
  match ref e with Some r' => (r' =? r)%nat | None => false end.
Definition getAttribute (k : string) (e : element) : option string :=
  obj_get (attributes e) k.
Definition has_attribute (k v : string) (e : element) : bool :=
  match getAttribute k e with Some v' => (v' =? v)%string | None => false end.

(** [classList.add] and [classList.remove] *)
Definition classList_add (c : string) (e : element) : element :=
  if has_class c e then e else with_classList (classList e ++ [c]) e.
Definition classList_remove (c : string) (e : element) : element :=
  with_classList (filter (fun c' => negb (c' =? c)%string) (classList e)) e.

Definition addEventListener (type : string) (h : handler) (e : element) : element :=
  with_listeners (listeners e ++ [(type, h)]) e.

(** The [value] setter.  A select takes the value only if one of its
    options carries it, a number input only a valid floating-point
    numeral; both fall back to the empty string. *)
Fixpoint skip_digits (s : string) : nat * string :=
  match s with
  | String c r =>
      let n := nat_of_ascii c in
      if ((48 <=? n) && (n <=? 57))%nat
      then let '(k, r') := skip_digits r in (S k, r')
      else (0%nat, s)
  | EmptyString => (0%nat, s)
  end.

Definition valid_float (s : string) : bool :=
  let s1 := match s with String "-" r => r | _ => s end in
  let '(n1, s2) := skip_digits s1 in
  let '(ok, s3) :=
    match s2 with
    | String "." r => let '(n2, r') := skip_digits r in ((0 <? n2)%nat, r')
    | _ => ((0 <? n1)%nat, s2)
    end in
  ok &&
  match s3 with
  | EmptyString => true
  | String c r =>
      if ((c =? "e") || (c =? "E"))%char then
        let r1 := match r with String "-" r' => r' | String "+" r' => r' | _ => r end in
        let '(n3, r2) := skip_digits r1 in
        (0 <? n3)%nat && (r2 =? "")%string
      else false
  end.

Definition assign_value (v : string) (e : element) : element :=
  match tag e with
  | SELECT => with_value (if existsb (String.eqb v) (options e) then v else "") e
  | NUMBER_INPUT => with_value (if valid_float v then v else "") e
  | _ => with_value v e
  end.

(** A node of the document tree. *)
Inductive node : Type := Node (e : element) (children : list node).

Definition node_element (n : node) : element := let 'Node e _ := n in e.
Definition node_children (n : node) : list node := let 'Node _ ks := n in ks.

(** The elements of a subtree, in document order. *)
Fixpoint subtree (n : node) : list node :=
  match n with Node _ ks => n :: flat_map subtree ks end.

Definition nodes (doc : list node) : list node := flat_map subtree doc.
Definition elements (doc : list node) : list element := map node_element (nodes doc).

(** [querySelector]: the first element, in document order, that a
    selector matches.  A selector is given by the test it makes. *)
Definition querySelector (p : element -> bool) (doc : list node) : option node :=
  find (fun n => p (node_element n)) (nodes doc).

Definition getElementById (i : string) (doc : list node) : option element :=
  option_map node_element (querySelector (has_id i) doc).

(** Rewriting of the first element that satisfies [p], the element a
    query for [p] returns.  [None] when there is none. *)
Definition first_some {A : Type} (g : A -> option A) : list A -> option (list A) :=
  fix go (l : list A) : option (list A) :=
    match l with
    | [] => None
    | k :: r =>
        match g k with
        | Some k' => Some (k' :: r)
        | None => option_map (cons k) (go r)
        end
    end.

Fixpoint update_first_node (p : element -> bool) (f : node -> node) (n : node) : option node :=
  match n with
  | Node e ks =>
      if p e then Some (f n)
      else option_map (Node e) (first_some (update_first_node p f) ks)
  end.

Definition update_first (p : element -> bool) (f : node -> node) (doc : list node)
  : option (list node) :=
  first_some (update_first_node p f) doc.

(** The same when the result of the query is guarded by [if (x)]. *)
Definition modify_first (p : element -> bool) (f : node -> node) (doc : list node)
  : list node :=
  match update_first p f doc with Some doc' => doc' | None => doc end.

Definition on_element (g : element -> element) (n : node) : node :=
  let 'Node e ks := n in Node (g e) ks.

Definition on_children (g : list node -> list node) (n : node) : node :=
  let 'Node e ks := n in Node e (g ks).

(** [querySelectorAll(p).forEach(x => ...)] with an update of the element
    itself. *)
Fixpoint update_all_node (p : element -> bool) (g : element -> element) (n : node) : node :=
  match n with
  | Node e ks => Node (if p e then g e else e) (map (update_all_node p g) ks)
  end.

Definition update_all (p : element -> bool) (g : element -> element) (doc : list node)
  : list node :=
  map (update_all_node p g) doc.

(** [x.remove()] for the element of identity [r]. *)
Fixpoint prune (r : nat) (n : node) : list node :=
  match n with
  | Node e ks => if has_ref r e then [] else [Node e (flat_map (prune r) ks)]
  end.

Definition remove_ref (r : nat) (doc : list node) : list node := flat_map (prune r) doc.

(** ** State of a client and the effects it has outside the page *)

(** [modules[deviceId] = {deviceId, port, tabButton, tabContent}] *)
Record module_entry : Type := mkModule {
  deviceId : string;
  port : string;
  tabButton : nat;
  tabContent : nat
}.

(** Requests issued with [fetch], and dialogs. *)
Inductive effect : Type :=
| POST_command (device : string) (command : string) (params : list (string * jsval))
| POST_disconnect (device : string)
| alert (message : string).

Record state : Type := mkState {
  document : list node;
  modules : object module_entry;
  currentModuleId : option string;
  next_ref : nat;
  trace : list effect
}.

(** [Unmodelled] is not an exception of the scripts: it ends a run that
    has reached a selector text outside the part of the grammar that is
    parsed here, and says nothing about what the scripts do from there. *)
Inductive error : Type := TypeError | SyntaxError | Unmodelled.

Inductive outcome (A : Type) : Type :=
| Ok (a : A)
| Throw (e : error).
Arguments Ok {A} a.
Arguments Throw {A} e.

(** A statement: it may change the state and may throw; what it did
    before throwing stays done. *)
Definition M (A : Type) : Type := state -> outcome A * state.

Definition ret {A : Type} (a : A) : M A := fun s => (Ok a, s).
Definition throw {A : Type} (e : error) : M A := fun s => (Throw e, s).
Definition bind {A B : Type} (m : M A) (k : A -> M B) : M B :=
  fun s => match m s with
           | (Ok a, s') => k a s'
           | (Throw e, s') => (Throw e, s')
           end.

Notation "x <- m ;; k" := (bind m (fun x => k))
  (at level 61, m at next level, right associativity).
Notation "m ;; k" := (bind m (fun _ => k))
  (at level 61, right associativity).

Definition get_document : M (list node) := fun s => (Ok (document s), s).
Definition get_modules : M (object module_entry) := fun s => (Ok (modules s), s).

Definition set_document (doc : list node) : M unit :=
  fun s => (Ok tt, mkState doc (modules s) (currentModuleId s) (next_ref s) (trace s)).
Definition set_modules (ms : object module_entry) : M unit :=
  fun s => (Ok tt, mkState (document s) ms (currentModuleId s) (next_ref s) (trace s)).
Definition set_currentModuleId (c : option string) : M unit :=
  fun s => (Ok tt, mkState (document s) (modules s) c (next_ref s) (trace s)).
Definition emit (x : effect) : M unit :=
  fun s => (Ok tt, mkState (document s) (modules s) (currentModuleId s) (next_ref s)
                           (trace s ++ [x])).
Definition fresh_ref : M nat :=
  fun s => (Ok (next_ref s),
            mkState (document s) (modules s) (currentModuleId s) (S (next_ref s)) (trace s)).

Definition update_document (f : list node -> list node) : M unit :=
  doc <- get_document ;; set_document (f doc).

(** [sendCommand(deviceId, command, params)]: the request leaves when the
    function is called; the reply is not part of the model. *)
Definition sendCommand (device command : string) (params : list (string * jsval)) : M unit :=
  emit (POST_command device command params).

(** The two scripts. *)
Inductive client : Type := MHV4 | MSCF16.

(** ** Markup of the panels

    The template strings of the [create...] functions, as the trees they
    parse to.  [type], [class] and [id] are fields of the element, the
    other attributes are kept in [attributes]. *)

Definition E (k : kind) (cls : list string) (i : string) (attrs : list (string * string))
  : element :=
  mkElement k i cls attrs "" false "" [] [] None.

Definition leaf (e : element) : node := Node e [].
Definition box (cls : list string) (ks : list node) : node := Node (E DIV cls "" []) ks.
Definition txt (k : kind) (cls : list string) (t : string) : node :=
  leaf (with_textContent t (E k cls "" [])).
Definition input_number (cls : list string) (i : string) (attrs : list (string * string))
  (v : string) : node :=
  leaf (with_value v (E NUMBER_INPUT cls i attrs)).
Definition input_checkbox (cls : list string) (i : string) (attrs : list (string * string))
  (c : bool) : node :=
  leaf (with_checked c (E CHECKBOX cls i attrs)).
Definition btn (cls : list string) (attrs : list (string * string)) (t : string)
  (ls : list (string * handler)) : node :=
  leaf (with_listeners ls (with_textContent t (E BUTTON cls "" attrs))).
Definition sel (cls : list string) (i : string) (attrs : list (string * string))
  (opts : list string) (v : string) (ls : list (string * handler)) : node :=
  leaf (mkElement SELECT i cls attrs v false "" opts ls None).

(** [for (let x = from; x <= to; x++)] *)
Definition range (from to : Z) : list Z :=
  map (fun k => from + Z.of_nat k) (seq 0 (Z.to_nat (to - from + 1))).

Module Markup_MSCF16.

Definition createThresholdSection (d : string) : node :=
  box ["control-section"]
    [ txt DIV ["section-title"] "Threshold Settings";
      box ["threshold-grid"]
        (map (fun ch =>
                box ["threshold-item"]
                  [ txt SPAN ["threshold-label"] ("CH" ++ padStart2 (decimal ch));
                    input_number ["threshold-input"] ("thresh-" ++ d ++ "-" ++ decimal ch)
                      [("min", "0"); ("max", "255"); ("data-channel", decimal ch)] "128";
                    btn ["threshold-btn"] [] "Set" [("click", H_setThreshold d ch)] ])
             (range 1 16));
      box ["common-threshold"]
        [ txt LABEL [] "Common:";
          input_number ["threshold-input"] ("thresh-common-" ++ d)
            [("min", "0"); ("max", "255")] "128";
          btn ["common-threshold-btn"] [] "Apply to All Channels"
            [("click", H_setThreshold d 17)] ] ].

Definition createPZSection (d : string) : node :=
  box ["control-section"]
    [ txt DIV ["section-title"] "PZ Value Settings";
      box ["pz-grid"]
        (map (fun ch =>
                box ["pz-item"]
                  [ txt SPAN ["pz-label"] ("CH" ++ padStart2 (decimal ch));
                    input_number ["pz-input"] ("pz-" ++ d ++ "-" ++ decimal ch)
                      [("min", "0"); ("max", "255"); ("data-channel", decimal ch)] "100";
                    btn ["pz-btn"] [] "Set" [("click", H_setPZ d ch)] ])
             (range 1 16));
      box ["common-pz"]
        [ txt LABEL [] "Common:";
          input_number ["pz-input"] ("pz-common-" ++ d) [("min", "0"); ("max", "255")] "100";
          btn ["common-pz-btn"] [] "Apply to All Channels" [("click", H_setPZ d 17)] ] ].

Definition createMonitorSection (d : string) : node :=
  box ["control-section"]
    [ box ["monitor-group"]
        [ txt DIV ["section-title"] "Monitor Channel Settings";
          box ["monitor-row"]
            [ txt LABEL [] "Monitor Channel:";
              sel ["monitor-select"] ("monitor-" ++ d) [] (map decimal (range 1 16)) "1"
                [("change", H_setMonitorChannel d)] ] ] ].

Definition createAutoPZSection (d : string) : node :=
  box ["control-section"]
    [ box ["auto-pz-group"]
        [ txt DIV ["section-title"] "Automatic PZ Settings";
          box ["auto-pz-row"]
            [ txt LABEL [] "Channel:";
              sel ["auto-pz-select"] ("auto-pz-" ++ d) []
                ("0" :: map decimal (range 1 16)) "0" [];
              btn ["auto-pz-btn"] [] "Set" [("click", H_setAutomaticPZ d)] ] ] ].

Definition createShapingTimeSection (d : string) : node :=
  box ["group-settings"]
    [ box ["shaping-group"]
        (txt DIV ["section-title"] "Shaping Time Settings"
         :: map (fun g =>
                   box ["shaping-row"]
                     [ txt LABEL [] ("G" ++ decimal g ++ ":");
                       input_number ["shaping-input"] ("shaping-" ++ d ++ "-" ++ decimal g)
                         [("min", "0"); ("max", "15"); ("data-group", decimal g)] "8";
                       btn ["shaping-btn"] [] "Set" [("click", H_setShapingTime d g)] ])
                (range 1 4)
         ++ [ box ["common-shaping"]
                [ txt LABEL [] "Common:";
                  input_number ["shaping-input"] ("shaping-common-" ++ d)
                    [("min", "0"); ("max", "15")] "8";
                  btn ["common-shaping-btn"] [] "Apply to All Groups"
                    [("click", H_setShapingTime d 5)] ] ])%list ].

Definition createGainSection (d : string) : node :=
  box ["gain-group"]
    (txt DIV ["section-title"] "Gain Settings"
     :: map (fun g =>
               box ["gain-row"]
                 [ txt LABEL [] ("G" ++ decimal g ++ ":");
                   input_number ["gain-input"] ("gain-" ++ d ++ "-" ++ decimal g)
                     [("min", "0"); ("max", "15"); ("data-group", decimal g)] "8";
                   btn ["gain-btn"] [] "Set" [("click", H_setGain d g)] ])
            (range 1 4)
     ++ [ box ["common-gain"]
            [ txt LABEL [] "Common:";
              input_number ["gain-input"] ("gain-common-" ++ d)
                [("min", "0"); ("max", "15")] "8";
              btn ["common-gain-btn"] [] "Apply to All Groups" [("click", H_setGain d 5)] ] ])%list.

Definition createGeneralSettings (d : string) : node :=
  box ["general-settings"]
    [ txt DIV ["section-title"] "General Settings";
      box ["general-row"]
        [ txt LABEL [] "Coincidence Window:";
          input_number ["general-input"] ("coincidence-" ++ d)
            [("min", "0"); ("max", "255")] "128";
          btn ["general-btn"] [] "Set" [("click", H_setCoincidenceWindow d)];
          txt LABEL [] "Shaper Offset:";
          input_number ["general-input"] ("shaper-offset-" ++ d)
            [("min", "0"); ("max", "200")] "100";
          btn ["general-btn"] [] "Set" [("click", H_setShaperOffset d)];
          txt LABEL [] "Threshold Offset:";
          input_number ["general-input"] ("threshold-offset-" ++ d)
            [("min", "0"); ("max", "200")] "100";
          btn ["general-btn"] [] "Set" [("click", H_setThresholdOffset d)];
          txt LABEL [] "BLR Threshold:";
          input_number ["general-input"] ("blr-threshold-" ++ d)
            [("min", "0"); ("max", "255")] "128";
          btn ["general-btn"] [] "Set" [("click", H_setBLRThreshold d)] ];
      box ["general-row"]
        [ txt LABEL [] "Multiplicity High:";
          input_number ["general-input"] ("mult-hi-" ++ d) [("min", "1"); ("max", "9")] "5";
          txt LABEL [] "Low:";
          input_number ["general-input"] ("mult-lo-" ++ d) [("min", "1"); ("max", "8")] "2";
          btn ["general-btn"] [] "Set" [("click", H_setMultiplicity d)];
          txt LABEL [] "Timing Filter Int. Time:";
          sel ["general-select"] ("timing-filter-" ++ d) [] ["0"; "1"; "2"; "3"] "0"
            [("change", H_setTimingFilter d)] ] ].

Definition mode_checkbox (i mode label : string) (c : bool) : node :=
  Node (with_textContent label (E LABEL ["mode-checkbox"] "" []))
    [ input_checkbox ["mode-checkbox-input"] i [("data-mode", mode)] c ].

Definition createModulePanel (d : string) : node :=
  Node (E DIV ["device-tab"] "" [("data-device-id", d)])
    [ box ["device-header"]
        [ box ["version-info"]
            [ txt SPAN ["version-label"] "Version:";
              leaf (with_textContent "Loading..." (E SPAN ["version-value"] ("version-" ++ d) []));
              btn ["disconnect-btn"] [] "Disconnect" [("click", H_disconnectDevice d)] ];
          box ["action-buttons"]
            [ btn ["action-btn"] [] "View Setting" [("click", H_viewSettings d)];
              btn ["action-btn"] [] "Load RC Setting" [("click", H_loadRCSettings d)];
              btn ["action-btn"] [] "RC>Panel" [("click", H_copyRCToPanel d)];
              btn ["action-btn"] [] "Panel>RC" [("click", H_copyPanelToRC d)] ];
          box ["mode-controls"]
            [ mode_checkbox ("single-mode-" ++ d) "single_mode" "Single Mode" false;
              mode_checkbox ("ecl-delay-" ++ d) "ecl_delay" "ECL Delay" false;
              mode_checkbox ("blr-mode-" ++ d) "blr_mode" "BLR Mode" true;
              mode_checkbox ("rc-mode-" ++ d) "rc_mode" "RC Mode" false ] ];
      box ["control-panel"]
        [ box ["channel-control"]
            [ createThresholdSection d;
              createPZSection d;
              createMonitorSection d;
              createAutoPZSection d ];
          box ["group-control"]
            [ createShapingTimeSection d;
              createGainSection d ] ];
      createGeneralSettings d ].

End Markup_MSCF16.

Module Markup_MHV4.

Definition createChannelPanel (d : string) (channelNum : Z) : node :=
  let ch := decimal channelNum in
  let dc := [("data-channel", ch)] in
  Node (E DIV ["channel-panel"] "" [("data-device-id", d); ("data-channel", ch)])
    [ box ["channel-header"]
        [ txt SPAN ["channel-label"] ("HV " ++ ch);
          box ["polarity-controls"]
            [ box ["polarity-select"]
                [ txt LABEL [] "Polarity:";
                  sel ["polarity-combo"] "" dc ["p"; "n"] "p" [] ];
              box ["polarity-indicators"]
                [ leaf (with_textContent "+"
                          (E DIV ["polarity-indicator"; "polarity-positive"; "active"] ""
                             [("data-pole", "+")]));
                  leaf (with_textContent "-"
                          (E DIV ["polarity-indicator"; "polarity-negative"; "inactive"] ""
                             [("data-pole", "-")])) ];
              leaf (with_textContent "OFF" (E DIV ["power-indicator"; "power-off"] "" dc)) ] ];
      box ["display-container"]
        [ box ["display-item"]
            [ txt DIV ["display-label"] "Voltage (V)";
              leaf (with_textContent "000.0"
                      (E DIV ["lcd-display"] ("voltage-" ++ d ++ "-" ++ ch) [])) ];
          box ["display-item"]
            [ txt DIV ["display-label"] "Current (uA)";
              leaf (with_textContent "0.000"
                      (E DIV ["lcd-display"] ("current-" ++ d ++ "-" ++ ch) [])) ] ];
      box ["control-group"]
        [ box ["control-row"]
            [ txt LABEL [] "Preset V:";
              input_number ["voltage-preset-input"] ""
                (dc ++ [("min", "0"); ("max", "800"); ("step", "0.1")])%list "0";
              txt SPAN [] "V";
              btn ["set-voltage-btn"] dc "Set" [] ];
          box ["control-row"]
            [ txt LABEL [] "Limit V:";
              input_number ["voltage-limit-input"] ""
                (dc ++ [("min", "0"); ("max", "800"); ("step", "0.1")])%list "800";
              txt SPAN [] "V";
              btn ["set-voltage-limit-btn"] dc "Set" [] ];
          box ["control-row"]
            [ txt LABEL [] "Limit I:";
              input_number ["current-limit-input"] ""
                (dc ++ [("min", "0"); ("max", "20000"); ("step", "0.1")])%list "0";
              txt SPAN [] "uA";
              btn ["set-current-limit-btn"] dc "Set" [] ] ];
      box ["ramp-group"]
        [ txt HEADING [] "Custom Ramping";
          box ["ramp-checkbox"]
            [ input_checkbox ["custom-ramp-checkbox"] ("ramp-" ++ d ++ "-" ++ ch) dc false;
              leaf (with_textContent "Enable Custom Ramping"
                      (E LABEL [] "" [("for", "ramp-" ++ d ++ "-" ++ ch)])) ];
          box ["step-interval-row"]
            [ txt LABEL [] "Step:";
              input_number ["voltage-step-input"] ""
                (dc ++ [("min", "0.1"); ("max", "100"); ("step", "0.1")])%list "1.0";
              txt SPAN [] "V";
              txt LABEL [] "Interval:";
              input_number ["time-interval-input"] ""
                (dc ++ [("min", "1"); ("max", "60"); ("step", "1")])%list "1";
              txt SPAN [] "s" ];
          box ["ramp-status"]
            [ leaf (E DIV ["ramp-status-indicator"] "" dc);
              leaf (with_textContent "Stopped" (E SPAN ["ramp-status-label"] "" dc));
              btn ["stop-ramp-btn"] dc "Stop Ramping" [] ] ];
      box ["auto-shutdown"]
        [ input_checkbox ["auto-shutdown-checkbox"] ("auto-" ++ d ++ "-" ++ ch) dc false;
          leaf (with_textContent "Auto Shutdown"
                  (E LABEL [] "" [("for", "auto-" ++ d ++ "-" ++ ch)])) ];
      box ["power-controls"]
        [ btn ["power-btn"; "power-on-btn"] dc "ON" [];
          btn ["power-btn"; "power-off-btn"] dc "OFF" [] ];
      box ["temp-comp-group"]
        [ txt HEADING [] "Temperature Compensation";
          box ["temp-comp-row"]
            [ txt LABEL [] "NTC:";
              sel ["ntc-combo"] "" dc ["0"; "1"; "2"; "3"; "4"] "0" [] ];
          box ["temp-comp-row"]
            [ txt LABEL [] "Ref Temp:";
              input_number ["ref-temp-input"] ""
                (dc ++ [("min", "-50"); ("max", "150"); ("step", "0.1")])%list "28.5";
              txt SPAN [] "(0.1 C)" ];
          box ["temp-comp-row"]
            [ txt LABEL [] "Slope:";
              input_number ["slope-input"] ""
                (dc ++ [("min", "-10000"); ("max", "10000"); ("step", "1")])%list "800";
              txt SPAN [] "(mV/C)" ] ] ].

Definition createModulePanel (d : string) : node :=
  Node (E DIV ["module-panel"] "" [("data-device-id", d)])
    [ box ["module-header"]
        [ box ["ramp-speed-control"]
            [ txt LABEL [] "Ramp Speed:";
              sel ["ramp-speed-select"] ("ramp-speed-" ++ d) [] ["0"; "1"; "2"; "3"] "1" [] ] ];
      box ["channels-grid"]
        [ createChannelPanel d 0;
          createChannelPanel d 1;
          createChannelPanel d 2;
          createChannelPanel d 3 ] ].

End Markup_MHV4.

Definition createModulePanel (c : client) (d : string) : node :=
  match c with
  | MHV4 => Markup_MHV4.createModulePanel d
  | MSCF16 => Markup_MSCF16.createModulePanel d
  end.

(** ** Selectors written with a device identifier

    [#ramp-speed-${deviceId}] and the like are selector text, and the
    identifier is read as part of it.  The [#] takes the name
    characters that follow it as an id; after them the text may go on
    with [.class] and [#id] parts, which the element has to satisfy as
    well.  A character that no selector can hold outside a pseudo-class,
    an attribute test, a string or an escape makes the text ill-formed,
    and [querySelector] throws a [SyntaxError]: the [/] of an endpoint
    path is one.  Texts with a pseudo-class, an attribute test, a
    combinator, a comma, [*], a quote, an escape or a character outside
    ASCII are not parsed.  Ids and classes are compared exactly, as in
    a document that is not in quirks mode. *)

Definition css_name_char (c : ascii) : bool :=
  let n := nat_of_ascii c in
  ((48 <=? n) && (n <=? 57) || (65 <=? n) && (n <=? 90) || (97 <=? n) && (n <=? 122)
   || (n =? 45) || (n =? 95))%nat.

Fixpoint css_name (s : string) : bool :=
  match s with
  | EmptyString => true
  | String c r => css_name_char c && css_name r
  end.

(** A character that may start an identifier. *)
Definition css_name_start (c : ascii) : bool :=
  let n := nat_of_ascii c in
  ((65 <=? n) && (n <=? 90) || (97 <=? n) && (n <=? 122) || (n =? 95))%nat.

(** Whether name characters [s] make an identifier: they start with a
    letter or [_], or with [-] followed by one of these or by [-]. *)
Definition css_identifier (s : string) : bool :=
  match s with
  | EmptyString => false
  | String c r =>
      css_name_start c
      || (c =? "-")%char
         && match r with
            | String c2 _ => css_name_start c2 || (c2 =? "-")%char
            | EmptyString => false
            end
  end.

(** A compound selector [#id0#id1...cls1.cls2...]; [first_name] is what
    follows the prefix of the first id in the text. *)
Record compound : Type := mkCompound {
  first_name : string;
  more_ids : list string;
  classes : list string
}.

Inductive part : Type := In_first | In_id | In_class.

(** The end of a part: the name that was read joins the selector.  The
    first id starts with the prefix and is an identifier; another id
    or a class has to be one. *)
Definition close_part (k : part) (name : string) (c : compound) : option compound :=
  match k with
  | In_first => Some (mkCompound name (more_ids c) (classes c))
  | In_id =>
      if css_identifier name
      then Some (mkCompound (first_name c) (more_ids c ++ [name]) (classes c))
      else None
  | In_class =>
      if css_identifier name
      then Some (mkCompound (first_name c) (more_ids c) (classes c ++ [name]))
      else None
  end.

(** The parts of a text of name characters, [.] and [#]; [name] is what
    has been read of the part [k]. *)
Fixpoint scan_parts (s : string) (k : part) (name : string) (c : compound) : option compound :=
  match s with
  | EmptyString => close_part k name c
  | String x r =>
      if css_name_char x then scan_parts r k (name ++ String x "") c
      else if (x =? ".")%char then
        match close_part k name c with
        | Some c' => scan_parts r In_class "" c'
        | None => None
        end
      else if (x =? "#")%char then
        match close_part k name c with
        | Some c' => scan_parts r In_id "" c'
        | None => None
        end
      else None
  end.

Fixpoint string_exists (p : ascii -> bool) (s : string) : bool :=
  match s with
  | EmptyString => false
  | String c r => p c || string_exists p r
  end.

Definition one_of (codes : list nat) (c : ascii) : bool :=
  existsb (Nat.eqb (nat_of_ascii c)) codes.

(** [! $ % ( ) / ; = ? @ ] ^ ` { }]: next to name characters, [.] and
    [#], each of them makes a token that no selector holds outside a
    pseudo-class or an attribute test. *)
Definition never_in_selector (c : ascii) : bool :=
  one_of [33; 36; 37; 40; 41; 47; 59; 61; 63; 64; 93; 94; 96; 123; 125]%nat c.

Definition in_compound (c : ascii) : bool :=
  css_name_char c || (c =? ".")%char || (c =? "#")%char.

(** The characters of the texts that are parsed.  The others are
    whitespace, [* + , < > & | ~], [:], [[], the quotes, the backslash,
    the control characters and the characters outside ASCII: with one
    of them a text may hold a combinator, a list, a comment, a
    pseudo-class, an attribute test, a string or an escape. *)
Definition parsed_char (c : ascii) : bool := in_compound c || never_in_selector c.

Inductive selector : Type :=
| Selects (c : compound)
| Ill_formed
| Unparsed.

(** The selector [#<prefix><d>], for a prefix such as [ramp-speed-]. *)
Definition id_selector (d : string) : selector :=
  if string_exists (fun c => negb (parsed_char c)) d then Unparsed
  else if string_exists never_in_selector d then Ill_formed
  else match scan_parts d In_first "" (mkCompound "" [] []) with
       | Some c => Selects c
       | None => Ill_formed
       end.

(** Whether an element matches [#<prefix><d>] as parsed to [c]. *)
Definition selects (prefix : string) (c : compound) (e : element) : bool :=
  (el_id e =? prefix ++ first_name c)%string
  && forallb (String.eqb (el_id e)) (more_ids c)
  && forallb (fun k => has_class k e) (classes c).

(** [.module-panel[data-device-id="d"]], [.device-tab[data-device-id="d"]],
    [.channel-panel[data-channel="ch"]] *)
Definition module_panel_of (d : string) (e : element) : bool :=
  has_class "module-panel" e && has_attribute "data-device-id" d e.
Definition device_tab_of (d : string) (e : element) : bool :=
  has_class "device-tab" e && has_attribute "data-device-id" d e.
Definition channel_panel_of (ch : string) (e : element) : bool :=
  has_class "channel-panel" e && has_attribute "data-channel" ch e.

(** ** Tabs *)

(** [modules[deviceId] && modules[deviceId].tabButton] holds for an own
    entry only: what [Object.prototype] holds has no [tabButton]. *)
Definition switchModule (d : string) : M unit :=
  update_document (update_all (has_class "tab-content") (classList_remove "active")) ;;
  update_document (update_all (has_class "tab-button") (classList_remove "active")) ;;
  update_document (modify_first (has_id ("module-" ++ d)) (on_element (classList_add "active"))) ;;
  ms <- get_modules ;;
  match obj_get ms d with
  | Some m =>
      update_document (modify_first (has_ref (tabButton m)) (on_element (classList_add "active")))
  | None => ret tt
  end ;;
  set_currentModuleId (Some d).

Definition removeModule (d : string) : M unit :=
  ms <- get_modules ;;
  match obj_get ms d with
  | Some m =>
      update_document (remove_ref (tabButton m)) ;;
      update_document (remove_ref (tabContent m)) ;;
      set_modules (obj_delete ms d) ;;
      remainingIds <- (ms' <- get_modules ;; ret (Object_keys ms')) ;;
      match remainingIds with
      | k :: _ => switchModule k
      | [] => set_currentModuleId None
      end
  | None =>
      (* an inherited property passes the test [if (modules[deviceId])];
         it has no [tabButton] and no [tabContent] *)
      if inherited d then
        set_modules (obj_delete ms d) ;;
        remainingIds <- (ms' <- get_modules ;; ret (Object_keys ms')) ;;
        match remainingIds with
        | k :: _ => switchModule k
        | [] => set_currentModuleId None
        end
      else ret tt
  end.

(** ** Controls of a panel *)

(** [const x = scope.querySelector(p); if (x) x.addEventListener(type, h)],
    [ks] being the children of [scope]. *)
Definition listen (p : element -> bool) (type : string) (h : handler) (ks : list node)
  : list node :=
  modify_first p (on_element (addEventListener type h)) ks.

(** [#single-mode-<d>, #ecl-delay-<d>, #blr-mode-<d>, #rc-mode-<d>], the
    identifier parsed to [c]. *)
Definition mode_checkboxes (c : compound) (e : element) : bool :=
  selects "single-mode-" c e || selects "ecl-delay-" c e
  || selects "blr-mode-" c e || selects "rc-mode-" c e.

(** [mscf16_app.js], [initializeControls] *)
Definition initializeControls (d : string) : M unit :=
  match id_selector d with
  | Selects c =>
      update_document (update_all (mode_checkboxes c) (addEventListener "change" (H_mode d)))
  | Ill_formed => throw SyntaxError
  | Unparsed => throw Unmodelled
  end.

(** [app.js], the body of the loop of [initializeChannelControls] on the
    children [ks] of the channel panel. *)
Definition channel_controls (d : string) (ch : Z) (ks : list node) : list node :=
  let ks := listen (has_class "polarity-combo") "change" (H_polarity d ch) ks in
  let ks := listen (has_class "set-voltage-btn") "click" (H_setVoltage d ch) ks in
  let ks := listen (has_class "set-voltage-limit-btn") "click" (H_setVoltageLimit d ch) ks in
  let ks := listen (has_class "set-current-limit-btn") "click" (H_setCurrentLimit d ch) ks in
  let ks := listen (has_class "power-on-btn") "click" (H_turnOn d ch) ks in
  let ks := listen (has_class "power-off-btn") "click" (H_turnOff d ch) ks in
  let ks := listen (has_class "auto-shutdown-checkbox") "change" (H_autoShutdown d ch) ks in
  let ks := listen (has_class "ntc-combo") "change" (H_ntc d ch) ks in
  let ks := listen (has_class "ref-temp-input") "change" (H_refTemp d ch) ks in
  listen (has_class "slope-input") "change" (H_slope d ch) ks.

(** [app.js], [initializeChannelControls] from the ramp speed select
    on, [ks] being the children of the module panel and [c] the parsed
    [#ramp-speed-<d>]. *)
Definition module_controls (d : string) (c : compound) (ks : list node) : list node :=
  let ks := listen (selects "ramp-speed-" c) "change" (H_rampSpeed d) ks in
  fold_left
    (fun ks ch =>
       modify_first (channel_panel_of (decimal ch)) (on_children (channel_controls d ch)) ks)
    (range 0 3) ks.

(** [app.js], [initializeChannelControls] *)
Definition initializeChannelControls (d : string) : M unit :=
  doc <- get_document ;;
  match querySelector (module_panel_of d) doc with
  | None => ret tt
  | Some _ =>
      match id_selector d with
      | Selects c =>
          set_document
            (modify_first (module_panel_of d) (on_children (module_controls d c)) doc)
      | Ill_formed => throw SyntaxError
      | Unparsed => throw Unmodelled
      end
  end.

(** ** [addModule] *)

Definition tab_label (c : client) : string :=
  match c with MHV4 => "Module " | MSCF16 => "Device " end.

Definition addModule (c : client) (d p : string) : M unit :=
  ms <- get_modules ;;
  match obj_get ms d with
  | Some _ => ret tt
  | None =>
      (* [if (modules[deviceId]) return] also for an inherited property *)
      if inherited d then ret tt else
      tabsContainer <- (doc <- get_document ;; ret (getElementById "module-tabs" doc)) ;;
      (doc <- get_document ;;
       match querySelector (has_class "tab-header") doc with
       | Some _ => ret tt
       | None =>
           r <- fresh_ref ;;
           let tabHeader := Node (with_ref (Some r) (E DIV ["tab-header"] "" [])) [] in
           match tabsContainer with
           | Some _ =>
               update_document
                 (modify_first (has_id "module-tabs") (on_children (cons tabHeader)))
           | None => throw TypeError
           end
       end) ;;
      b <- fresh_ref ;;
      let button :=
        Node (mkElement BUTTON "" ["tab-button"] [] "" false
                (tab_label c ++ decimal (Z.of_nat (length (Object_keys ms)) + 1))
                [] [("click", H_switchModule d)] (Some b)) [] in
      update_document
        (modify_first (has_class "tab-header") (on_children (fun ks => ks ++ [button])%list)) ;;
      t <- fresh_ref ;;
      let content :=
        Node (with_ref (Some t) (E DIV ["tab-content"] ("module-" ++ d) []))
             [createModulePanel c d] in
      match tabsContainer with
      | Some _ =>
          update_document
            (modify_first (has_id "module-tabs") (on_children (fun ks => ks ++ [content])%list))
      | None => throw TypeError
      end ;;
      set_modules (obj_set ms d (mkModule d p b t)) ;;
      switchModule d ;;
      match c with
      | MHV4 => initializeChannelControls d
      | MSCF16 => initializeControls d ;; sendCommand d "get_version" []
      end
  end.

(** ** Command functions of [mscf16_app.js] *)

(** [document.getElementById(i).value] *)
Definition value_of (i : string) : M string :=
  doc <- get_document ;;
  match getElementById i doc with
  | Some e => ret (value e)
  | None => throw TypeError
  end.

Definition setThreshold (d : string) (channel : Z) : M unit :=
  v <- value_of (if channel =? 17 then "thresh-common-" ++ d
                 else "thresh-" ++ d ++ "-" ++ decimal channel) ;;
  sendCommand d "set_threshold" [("channel", JNum (Int channel)); ("value", JNum (parseInt v))].

Definition setPZ (d : string) (channel : Z) : M unit :=
  v <- value_of (if channel =? 17 then "pz-common-" ++ d
                 else "pz-" ++ d ++ "-" ++ decimal channel) ;;
  sendCommand d "set_pz_value" [("channel", JNum (Int channel)); ("value", JNum (parseInt v))].

Definition setMonitorChannel (d : string) (channel : string) : M unit :=
  sendCommand d "set_monitor_channel" [("channel", JNum (parseInt channel))].

Definition setAutomaticPZ (d : string) : M unit :=
  v <- value_of ("auto-pz-" ++ d) ;;
  let channel := parseInt v in
  sendCommand d "set_automatic_pz"
    [("channel", if number_is channel 0 then JNull else JNum channel)].

Definition setShapingTime (d : string) (group : Z) : M unit :=
  v <- value_of (if group =? 5 then "shaping-common-" ++ d
                 else "shaping-" ++ d ++ "-" ++ decimal group) ;;
  sendCommand d "set_shaping_time" [("group", JNum (Int group)); ("value", JNum (parseInt v))].

Definition setGain (d : string) (group : Z) : M unit :=
  v <- value_of (if group =? 5 then "gain-common-" ++ d
                 else "gain-" ++ d ++ "-" ++ decimal group) ;;
  sendCommand d "set_gain" [("group", JNum (Int group)); ("value", JNum (parseInt v))].

Definition setCoincidenceWindow (d : string) : M unit :=
  v <- value_of ("coincidence-" ++ d) ;;
  sendCommand d "set_coincidence_window" [("value", JNum (parseInt v))].

Definition setShaperOffset (d : string) : M unit :=
  v <- value_of ("shaper-offset-" ++ d) ;;
  sendCommand d "set_shaper_offset" [("value", JNum (parseInt v))].

Definition setThresholdOffset (d : string) : M unit :=
  v <- value_of ("threshold-offset-" ++ d) ;;
  sendCommand d "set_threshold_offset" [("value", JNum (parseInt v))].

Definition setBLRThreshold (d : string) : M unit :=
  v <- value_of ("blr-threshold-" ++ d) ;;
  sendCommand d "set_blr_threshold" [("value", JNum (parseInt v))].

Definition setMultiplicity (d : string) : M unit :=
  hi <- value_of ("mult-hi-" ++ d) ;;
  lo <- value_of ("mult-lo-" ++ d) ;;
  sendCommand d "set_multiplicity_borders"
    [("hi", JNum (parseInt hi)); ("lo", JNum (parseInt lo))].

Definition setTimingFilter (d : string) (v : string) : M unit :=
  sendCommand d "set_timing_filter" [("value", JNum (parseInt v))].

Definition viewSettings (d : string) : M unit :=
  emit (alert "View Settings feature - to be implemented").

Definition loadRCSettings (d : string) : M unit :=
  emit (alert "Load RC Settings - settings will be loaded automatically on connection").

Definition copyRCToPanel (d : string) : M unit := sendCommand d "copy_rc_to_panel" [].
Definition copyPanelToRC (d : string) : M unit := sendCommand d "copy_panel_to_rc" [].

(** [disconnectDevice]: the request; what follows the reply is not part
    of the model. *)
Definition disconnectDevice (d : string) : M unit := emit (POST_disconnect d).

(** ** Handlers *)

(** [channelPanel.querySelector(p).value] in a handler of [app.js] that
    captured the channel panel [ch] of device [d]. *)
Definition channel_input (d : string) (ch : Z) (p : element -> bool) : M string :=
  doc <- get_document ;;
  match querySelector (module_panel_of d) doc with
  | Some modulePanel =>
      match querySelector (channel_panel_of (decimal ch)) (node_children modulePanel) with
      | Some channelPanel =>
          match querySelector p (node_children channelPanel) with
          | Some input => ret (value (node_element input))
          | None => throw TypeError
          end
      | None => throw TypeError
      end
  | None => throw TypeError
  end.

Section Handlers.
Context {B : Builtins}.

(** The body of a handler, [this] being the element it is attached to. *)
Definition run_handler (h : handler) (this : element) : M unit :=
  match h with
  | H_switchModule d => switchModule d
  | H_disconnectDevice d => disconnectDevice d
  | H_viewSettings d => viewSettings d
  | H_loadRCSettings d => loadRCSettings d
  | H_copyRCToPanel d => copyRCToPanel d
  | H_copyPanelToRC d => copyPanelToRC d
  | H_setThreshold d ch => setThreshold d ch
  | H_setPZ d ch => setPZ d ch
  | H_setMonitorChannel d => setMonitorChannel d (value this)
  | H_setAutomaticPZ d => setAutomaticPZ d
  | H_setShapingTime d g => setShapingTime d g
  | H_setGain d g => setGain d g
  | H_setCoincidenceWindow d => setCoincidenceWindow d
  | H_setShaperOffset d => setShaperOffset d
  | H_setThresholdOffset d => setThresholdOffset d
  | H_setBLRThreshold d => setBLRThreshold d
  | H_setMultiplicity d => setMultiplicity d
  | H_setTimingFilter d => setTimingFilter d (value this)
  | H_mode d =>
      let mode := match getAttribute "data-mode" this with
                  | Some m => m
                  | None => "undefined"
                  end in
      sendCommand d ("set_" ++ mode) [("enable", JBool (checked this))]
  | H_rampSpeed d =>
      sendCommand d "set_ramp_speed" [("ramp_speed_index", JNum (parseInt (value this)))]
  | H_polarity d ch =>
      sendCommand d "set_polarity"
        [("channel", JNum (Int ch)); ("polarity", JStr (value this))]
  | H_setVoltage d ch =>
      v <- channel_input d ch (has_class "voltage-preset-input") ;;
      sendCommand d "set_voltage"
        [("channel", JNum (Int ch)); ("voltage", JNum (parseFloat v))]
  | H_setVoltageLimit d ch =>
      v <- channel_input d ch (has_class "voltage-limit-input") ;;
      sendCommand d "set_voltage_limit"
        [("channel", JNum (Int ch)); ("voltage_limit", JNum (parseFloat v))]
  | H_setCurrentLimit d ch =>
      v <- channel_input d ch (has_class "current-limit-input") ;;
      sendCommand d "set_current_limit"
        [("channel", JNum (Int ch)); ("current_limit", JNum (parseFloat v))]
  | H_turnOn d ch => sendCommand d "turn_on" [("channel", JNum (Int ch))]
  | H_turnOff d ch => sendCommand d "turn_off" [("channel", JNum (Int ch))]
  | H_autoShutdown d ch =>
      sendCommand d "set_auto_shutdown"
        [("channel", JNum (Int ch)); ("enable", JBool (checked this))]
  | H_ntc d ch =>
      let ntcChannel :=
        if (value this =? "0")%string then JNull
        else JNum (minus_one (parseInt (value this))) in
      sendCommand d "set_temperature_compensation"
        [("channel", JNum (Int ch)); ("ntc_channel", ntcChannel)]
  | H_refTemp d ch =>
      sendCommand d "set_reference_temperature"
        [("channel", JNum (Int ch)); ("temperature", JNum (parseFloat (value this)))]
  | H_slope d ch =>
      sendCommand d "set_temperature_slope"
        [("channel", JNum (Int ch)); ("slope", JNum (parseInt (value this)))]
  end.

(** An event of type [type] on the element [this]: its listeners of
    that type run in the order of registration; an exception in one
    of them does not reach the others. *)
Fixpoint run_listeners (type : string) (ls : list (string * handler)) (this : element)
  : M unit :=
  match ls with
  | [] => ret tt
  | (t, h) :: r =>
      (if (t =? type)%string
       then fun s => (Ok tt, snd (run_handler h this s))
       else ret tt) ;;
      run_listeners type r this
  end.

Definition dispatchEvent (type : string) (this : element) : M unit :=
  run_listeners type (listeners this) this.

(** The user changes a control of the page, the first that satisfies
    [p], to what [g] makes of it; then the [change] event fires on it. *)
Definition user_change (p : element -> bool) (g : element -> element) : M unit :=
  doc <- get_document ;;
  match querySelector p doc with
  | Some n =>
      set_document (modify_first p (on_element g) doc) ;;
      dispatchEvent "change" (g (node_element n))
  | None => ret tt
  end.

Definition user_click (p : element -> bool) : M unit :=
  doc <- get_document ;;
  match querySelector p doc with
  | Some n => dispatchEvent "click" (node_element n)
  | None => ret tt
  end.
End Handlers.

(** ** Events from the server *)

(** [data.k]; a missing property reads as [undefined]. *)
Definition field (data : object jsval) (k : string) : jsval :=
  match obj_get data k with
  | Some v => v
  | None => JUndefined
  end.

Definition for_each {A : Type} (l : list A) (body : A -> M unit) : M unit :=
  fold_right (fun x k => body x ;; k) (ret tt) l.

Section Events.
Context {B : Builtins}.

(** [x.value = v] *)
Definition set_value_of (v : jsval) (e : element) : element :=
  match tag e with
  | SELECT => assign_value (ToString v) e
  | _ => assign_value (ToDOMString v) e
  end.

(** [const x = document.getElementById(i); if (x) x.value = v] *)
Definition set_input (i : string) (v : jsval) : M unit :=
  update_document (modify_first (has_id i) (on_element (set_value_of v))).

(** [const x = document.getElementById(i); if (x) x.checked = v] *)
Definition set_check (i : string) (v : jsval) : M unit :=
  update_document (modify_first (has_id i) (on_element (with_checked (ToBoolean v)))).

(** [document.getElementById(i).textContent = v] *)
Definition set_text (i : string) (v : jsval) : M unit :=
  doc <- get_document ;;
  match update_first (has_id i) (on_element (with_textContent (ToTextContent v))) doc with
  | Some doc' => set_document doc'
  | None => throw TypeError
  end.

End Events.

Module MSCF16_events.
Section Events.
Context {B : Builtins}.

(** [mscf16_app.js], [updateInitialValues] *)
Definition updateInitialValues (d : string) (data : object jsval) : M unit :=
  doc <- get_document ;;
  match querySelector (device_tab_of d) doc with
  | None => ret tt
  | Some _ =>
      match field data "type" with
      | JStr type =>
          let case := String.eqb type in
          if case "version" then set_text ("version-" ++ d) (field data "value")
          else if case "threshold" then
            set_input ("thresh-" ++ d ++ "-" ++ ToString (field data "channel"))
              (field data "value")
          else if case "threshold_common" then
            set_input ("thresh-common-" ++ d) (field data "value")
          else if case "pz" then
            set_input ("pz-" ++ d ++ "-" ++ ToString (field data "channel"))
              (field data "value")
          else if case "pz_common" then
            set_input ("pz-common-" ++ d) (field data "value")
          else if case "shaping_time" then
            set_input ("shaping-" ++ d ++ "-" ++ ToString (field data "group"))
              (field data "value")
          else if case "shaping_time_common" then
            set_input ("shaping-common-" ++ d) (field data "value")
          else if case "gain" then
            set_input ("gain-" ++ d ++ "-" ++ ToString (field data "group"))
              (field data "value")
          else if case "gain_common" then
            set_input ("gain-common-" ++ d) (field data "value")
          else if case "monitor" then
            set_input ("monitor-" ++ d) (field data "value")
          else if case "multiplicity" then
            (* the two lookups precede the writes; a write of [value]
               does not change what a lookup by id finds *)
            set_input ("mult-hi-" ++ d) (field data "hi") ;;
            set_input ("mult-lo-" ++ d) (field data "lo")
          else if case "coincidence_window" then
            set_input ("coincidence-" ++ d) (field data "value")
          else if case "threshold_offset" then
            set_input ("threshold-offset-" ++ d) (field data "value")
          else if case "shaper_offset" then
            set_input ("shaper-offset-" ++ d) (field data "value")
          else if case "blr_threshold" then
            set_input ("blr-threshold-" ++ d) (field data "value")
          else if case "timing_filter" then
            set_input ("timing-filter-" ++ d) (field data "value")
          else if case "single_mode" then
            set_check ("single-mode-" ++ d) (field data "value")
          else if case "ecl_delay" then
            set_check ("ecl-delay-" ++ d) (field data "value")
          else if case "blr_mode" then
            set_check ("blr-mode-" ++ d) (field data "value")
          else if case "rc_mode" then
            set_check ("rc-mode-" ++ d) (field data "value")
          else ret tt
      | _ => ret tt
      end
  end.

End Events.
End MSCF16_events.

Module MHV4_events.
Section Events.
Context {B : Builtins}.

(** [const x = document.getElementById(i); if (x) x.textContent = v.toFixed(n)]
    under the guard [v !== undefined]. *)
Definition show (i : string) (v : jsval) (n : nat) : M unit :=
  match v with
  | JUndefined => ret tt
  | _ =>
      doc <- get_document ;;
      match getElementById i doc with
      | None => ret tt
      | Some _ =>
          match v with
          | JNum x =>
              set_document
                (modify_first (has_id i) (on_element (with_textContent (Number_toFixed x n)))
                   doc)
          | _ => throw TypeError
          end
      end
  end.

(** [app.js], [updateModuleReadings] *)
Definition updateModuleReadings (d : string) (readings : object jsval) : M unit :=
  for_each (range 0 3)
    (fun ch =>
       let voltage := field readings ("voltage_" ++ decimal ch) in
       let current := field readings ("current_" ++ decimal ch) in
       show ("voltage-" ++ d ++ "-" ++ decimal ch) voltage 1 ;;
       show ("current-" ++ d ++ "-" ++ decimal ch) current 3).

(** A change [f] of the children of the channel panel that [sel]
    finds in the module panel of [d]. *)
Definition in_channel (d : string) (sel : element -> bool)
  (f : list node -> list node) : M unit :=
  update_document
    (modify_first (module_panel_of d) (on_children (modify_first sel (on_children f)))).

(** [const x = channelPanel.querySelector(cls); if (x) x.value = v] *)
Definition put (d : string) (sel : element -> bool) (cls : string) (v : jsval) : M unit :=
  in_channel d sel (modify_first (has_class cls) (on_element (set_value_of v))).

(** [app.js], [updatePolarityIndicators]; [ks] are the children of the
    channel panel on entry. *)
Definition updatePolarityIndicators (d : string) (sel : element -> bool)
  (ks : list node) (polarity : jsval) : M unit :=
  let activate e := classList_remove "inactive" (classList_add "active" e) in
  let deactivate e := classList_remove "active" (classList_add "inactive" e) in
  let change cls g :=
    match querySelector (has_class cls) ks with
    | Some _ => in_channel d sel (modify_first (has_class cls) (on_element g))
    | None => throw TypeError
    end in
  match polarity with
  | JStr "p" =>
      change "polarity-positive" activate ;; change "polarity-negative" deactivate
  | _ =>
      change "polarity-negative" activate ;; change "polarity-positive" deactivate
  end.

(** [app.js], [updateInitialValues] *)
Definition updateInitialValues (d : string) (data : object jsval) : M unit :=
  doc <- get_document ;;
  match querySelector (module_panel_of d) doc with
  | None => ret tt
  | Some modulePanel =>
      match field data "type", field data "channel" with
      | JStr "ramp_speed", _ =>
          match id_selector d with
          | Selects c =>
              update_document
                (modify_first (module_panel_of d)
                   (on_children
                      (modify_first (selects "ramp-speed-" c)
                         (on_element (set_value_of (field data "value"))))))
          | Ill_formed => throw SyntaxError
          | Unparsed => throw Unmodelled
          end
      | _, JUndefined => ret tt
      | JStr type, channel =>
          let sel := channel_panel_of (ToString channel) in
          match querySelector sel (node_children modulePanel) with
          | None => ret tt
          | Some channelPanel =>
              let v := field data "value" in
              let case := String.eqb type in
              if case "voltage_preset" then put d sel "voltage-preset-input" v
              else if case "voltage_limit" then put d sel "voltage-limit-input" v
              else if case "current_limit" then put d sel "current-limit-input" v
              else if case "polarity" then
                match querySelector (has_class "polarity-combo")
                        (node_children channelPanel) with
                | Some _ =>
                    put d sel "polarity-combo" v ;;
                    updatePolarityIndicators d sel (node_children channelPanel) v
                | None => ret tt
                end
              else if case "ntc" then put d sel "ntc-combo" v
              else if case "ref_temp" then put d sel "ref-temp-input" v
              else if case "slope" then put d sel "slope-input" v
              else ret tt
          end
      | _, _ => ret tt
      end
  end.

End Events.
End MHV4_events.

(** ** Dispatch of the socket events, [initializeSocket] *)

Inductive server_event : Type :=
| connected (message : string)
| readings_update (device_id : string) (readings : object jsval)
| initial_values (device_id : string) (data : object jsval)
| device_disconnected (device_id : string).

Definition on_event {B : Builtins} (c : client) (ev : server_event) : M unit :=
  match ev, c with
  | connected _, _ => ret tt
  | readings_update d readings, MHV4 => MHV4_events.updateModuleReadings d readings
  | readings_update _ _, MSCF16 => ret tt
  | initial_values d data, MHV4 => MHV4_events.updateInitialValues d data
  | initial_values d data, MSCF16 => MSCF16_events.updateInitialValues d data
  | device_disconnected d, _ => removeModule d
  end.

(** The state of a client when its page has loaded. *)
Definition initial_state (page : list node) : state :=
  mkState page [] None 0 [].

(** * Notions used in the statements *)

(** The effect of [modify_first] on the elements in document order. *)
Fixpoint replace_first {A : Type} (p : A -> bool) (g : A -> A) (l : list A) : list A :=
  match l with
  | [] => []
  | x :: r => if p x then g x :: r else x :: replace_first p g r
  end.

(** What [update_first] does to the elements, when only the element
    itself is rewritten. *)
Definition update_first_spec (p : element -> bool) (g : element -> element)
  (l : list node) (res : option (list node)) : Prop :=
  match res with
  | Some l' =>
      existsb p (elements l) = true /\ elements l' = replace_first p g (elements l)
  | None => existsb p (elements l) = false
  end.

(** Two elements that differ at most in their classes. *)
Definition class_change (e e' : element) : Prop := exists c, e' = with_classList c e.

(** A sequence of calls of [addModule] and [removeModule]. *)
Inductive call : Type :=
| Add (d p : string)
| Remove (d : string).

Definition do_call (c : client) (x : call) (s : state) : state :=
  match x with
  | Add d p => snd (addModule c d p s)
  | Remove d => snd (removeModule d s)
  end.

Definition do_calls (c : client) (xs : list call) (s : state) : state :=
  fold_left (fun s x => do_call c x s) xs s.

(** A page for the examples: the elements that the scripts look up in
    the static part of the document. *)
Definition sample_page : list node :=
  [ Node (E DIV ["connection-panel"] "" [])
      [ leaf (E SELECT [] "port-select" []);
        leaf (with_textContent "Refresh" (E BUTTON [] "refresh-btn" []));
        leaf (with_textContent "Connect" (E BUTTON [] "connect-btn" [])) ];
    Node (E DIV [] "module-tabs" []) [] ].

(** An interpretation of the built-ins for the examples, in which a
    Number is its exact value: [toFixed] rounds the magnitude half up,
    [parseFloat] reads the longest decimal literal. *)
Definition digits_of (n : nat) (z : Z) : string :=
  let s := decimal z in
  (fix pad (k : nat) (s : string) : string :=
     match k with
     | O => s
     | S k' => pad k' (String "0" s)
     end) (n - String.length s)%nat s.

Definition toFixed_exact (x : number) (n : nat) : string :=
  match x with
  | NaN => "NaN"
  | Infinity false => "Infinity"
  | Infinity true => "-Infinity"
  | Int _ | Real _ =>
      let q := match x with Int z => inject_Z z | Real q => q | _ => 0%Q end in
      let scale := 10 ^ Z.of_nat n in
      let m := Qfloor (Qabs q * inject_Z scale + (1 # 2))%Q in
      ((if Qlt_le_dec q 0 then "-" else "")
       ++ decimal (m / scale)
       ++ match n with O => "" | _ => "." ++ digits_of n (m mod scale) end)%string
  end.

(** The decimal digits at the head of [s]: their value after [acc],
    their number, and the rest of [s]. *)
Fixpoint read_decimal (s : string) (acc : Z) : Z * nat * string :=
  match s with
  | String c r =>
      match digit_value c with
      | Some v =>
          if v <? 10
          then let '(z, n, r') := read_decimal r (10 * acc + v) in (z, S n, r')
          else (acc, 0%nat, s)
      | None => (acc, 0%nat, s)
      end
  | EmptyString => (acc, 0%nat, s)
  end.

Definition signed (s : string) : bool * string :=
  match s with
  | String "-" r => (true, r)
  | String "+" r => (false, r)
  | _ => (false, s)
  end.

Definition parseFloat_exact (s : string) : number :=
  let '(neg, s1) := signed (trim_start s) in
  if prefix "Infinity" s1 then Infinity neg
  else
    let '(ip, n1, s2) := read_decimal s1 0 in
    let '(fp, n2, s3) :=
      match s2 with
      | String "." r => read_decimal r 0
      | _ => (0, 0%nat, s2)
      end in
    if (n1 + n2 =? 0)%nat then NaN
    else
      let ex :=
        match s3 with
        | String c r =>
            if ((c =? "e") || (c =? "E"))%char then
              let '(eneg, r1) := signed r in
              let '(e, n3, _) := read_decimal r1 0 in
              if (n3 =? 0)%nat then 0 else if eneg then - e else e
            else 0
        | EmptyString => 0
        end in
      let q := ((inject_Z ip + inject_Z fp / inject_Z (10 ^ Z.of_nat n2))
                * (if ex <? 0 then / inject_Z (10 ^ (- ex)) else inject_Z (10 ^ ex)))%Q in
      let q := Qred (if neg then - q else q)%Q in
      if (Zpos (Qden q) =? 1) then Int (Qnum q) else Real q.

Definition sample_builtins : Builtins :=
  {| Number_toFixed := toFixed_exact;
     Real_toString := fun q => toFixed_exact (Real q) 6;
     parseFloat := parseFloat_exact |}.


(** The [initial_values] events as the claim C4 words them: the field
    that each type names, by its id, with what is written to it; a
    [multiplicity] event names two.  A type that is not listed names
    none. *)
Definition initial_value_types : list string :=
  [ "version"; "threshold"; "threshold_common"; "pz"; "pz_common"; "shaping_time";
    "shaping_time_common"; "gain"; "gain_common"; "monitor"; "multiplicity";
    "coincidence_window"; "threshold_offset"; "shaper_offset"; "blr_threshold";
    "timing_filter"; "single_mode"; "ecl_delay"; "blr_mode"; "rc_mode" ].

Definition write_fields (us : list (string * (element -> element))) (l : list element)
  : list element :=
  fold_left (fun l '(i, g) => replace_first (has_id i) g l) us l.

Definition named_fields {B : Builtins} (d : string) (data : object jsval)
  : list (string * (element -> element)) :=
  let v := field data "value" in
  let input i := [(i, set_value_of v)] in
  let check i := [(i, with_checked (ToBoolean v))] in
  match field data "type" with
  | JStr type =>
      match obj_get
              [ ("version", [("version-" ++ d, with_textContent (ToTextContent v))]);
                ("threshold", input ("thresh-" ++ d ++ "-" ++ ToString (field data "channel")));
                ("threshold_common", input ("thresh-common-" ++ d));
                ("pz", input ("pz-" ++ d ++ "-" ++ ToString (field data "channel")));
                ("pz_common", input ("pz-common-" ++ d));
                ("shaping_time", input ("shaping-" ++ d ++ "-" ++ ToString (field data "group")));
                ("shaping_time_common", input ("shaping-common-" ++ d));
                ("gain", input ("gain-" ++ d ++ "-" ++ ToString (field data "group")));
                ("gain_common", input ("gain-common-" ++ d));
                ("monitor", input ("monitor-" ++ d));
                ("multiplicity", [ ("mult-hi-" ++ d, set_value_of (field data "hi"));
                                   ("mult-lo-" ++ d, set_value_of (field data "lo")) ]);
                ("coincidence_window", input ("coincidence-" ++ d));
                ("threshold_offset", input ("threshold-offset-" ++ d));
                ("shaper_offset", input ("shaper-offset-" ++ d));
                ("blr_threshold", input ("blr-threshold-" ++ d));
                ("timing_filter", input ("timing-filter-" ++ d));
                ("single_mode", check ("single-mode-" ++ d));
                ("ecl_delay", check ("ecl-delay-" ++ d));
                ("blr_mode", check ("blr-mode-" ++ d));
                ("rc_mode", check ("rc-mode-" ++ d)) ]
              type with
      | Some us => us
      | None => []
      end
  | _ => []
  end.

(** The readings as the claim C5 words them: the displays of a device,
    each with the field of the readings it shows, its id and the number
    of decimals; and, for the displays whose field holds a number, the
    text to show. *)
Definition displays (d : string) : list (string * string * nat) :=
  flat_map
    (fun ch =>
       [ ("voltage_" ++ decimal ch, "voltage-" ++ d ++ "-" ++ decimal ch, 1%nat);
         ("current_" ++ decimal ch, "current-" ++ d ++ "-" ++ decimal ch, 3%nat) ])
    (range 0 3).

Definition slot_id (slot : string * string * nat) : string := snd (fst slot).

Definition displayed_of {B : Builtins} (readings : object jsval)
  (slots : list (string * string * nat)) : list (string * string) :=
  flat_map
    (fun '(key, i, n) =>
       match field readings key with
       | JNum x => [(i, Number_toFixed x n)]
       | _ => []
       end)
    slots.

Definition write_texts (us : list (string * string)) (l : list element) : list element :=
  fold_left (fun l '(i, t) => replace_first (has_id i) (with_textContent t) l) us l.

Definition absent_or_number (v : jsval) : Prop :=
  v = JUndefined \/ exists x, v = JNum x.

(** The document after [show i v n]. *)
Definition shown {B : Builtins} (i : string) (v : jsval) (n : nat) (doc : list node)
  : list node :=
  match v with
  | JNum x => modify_first (has_id i) (on_element (with_textContent (Number_toFixed x n))) doc
  | _ => doc
  end.

(** The ids of the elements whose value, checked state or text differs
    between two lists of elements of the same shape. *)
Definition same_content (e e' : element) : bool :=
  (value e =? value e')%string && Bool.eqb (checked e) (checked e')
  && (textContent e =? textContent e')%string.

Definition changed_fields (l l' : list element) : list string :=
  map (fun p => el_id (fst p))
    (filter (fun p => negb (same_content (fst p) (snd p))) (combine l l')).

(** The state after one more effect. *)
Definition after (s : state) (x : effect) : state :=
  mkState (document s) (modules s) (currentModuleId s) (next_ref s) (trace s ++ [x]).

(** The sample page after [addModule("COM3", "COM3")]. *)
Definition sample_state (c : client) : state :=
  snd (addModule c "COM3" "COM3" (initial_state sample_page)).

(** * Notions used in the further properties *)



(** The handler of the first button among [ks]. *)
Fixpoint next_button (ks : list node) : option handler :=
  match ks with
  | [] => None
  | Node e _ :: r =>
      match tag e, listeners e with
      | BUTTON, (_, h) :: _ => Some h
      | _, _ => next_button r
      end
  end.

(** The number inputs among [ks], each by its id, with the handler of
    the button that follows it. *)
Fixpoint inputs_with_buttons (ks : list node) : list (string * handler) :=
  match ks with
  | [] => []
  | Node e _ :: r =>
      match tag e, next_button r with
      | NUMBER_INPUT, Some h => (el_id e, h) :: inputs_with_buttons r
      | _, _ => inputs_with_buttons r
      end
  end.

Definition set_buttons (panel : node) : list (string * handler) :=
  flat_map (fun k => inputs_with_buttons (node_children k)) (subtree panel).

Definition is_number_input (e : element) : bool :=
  match tag e with NUMBER_INPUT => true | _ => false end.


(** What [update_first] does when the query finds [n]: the elements
    before and after [n] stay, [n] becomes [f n], and the same query
    then finds [f n] if it still matches. *)
Definition rewrites_at (p : element -> bool) (f : node -> node) (doc : list node) : Prop :=
  match querySelector p doc with
  | Some n =>
      exists a b doc',
        elements doc = (a ++ elements [n] ++ b)%list
        /\ existsb p a = false
        /\ update_first p f doc = Some doc'
        /\ elements doc' = (a ++ elements [f n] ++ b)%list
        /\ (p (node_element (f n)) = true -> querySelector p doc' = Some (f n))
  | None => update_first p f doc = None
  end.

(** A display that the readings cannot fill: its field is there and is
    not a number, and the document holds an element under its id. *)
Definition unusable (readings : object jsval) (doc : list node)
  (slot : string * string * nat) : Prop :=
  ~ absent_or_number (field readings (fst (fst slot)))
  /\ In (slot_id slot) (map el_id (elements doc)).

(** A statement that touches nothing but texts of the document, and
    throws, with a [TypeError], exactly when one of [slots] is unusable. *)
Definition fills (readings : object jsval) (slots : list (string * string * nat))
  (m : M unit) : Prop :=
  forall s,
    modules (snd (m s)) = modules s
    /\ currentModuleId (snd (m s)) = currentModuleId s
    /\ next_ref (snd (m s)) = next_ref s
    /\ trace (snd (m s)) = trace s
    /\ map el_id (elements (document (snd (m s)))) = map el_id (elements (document s))
    /\ ((fst (m s) = Ok tt /\ Forall (fun slot => ~ unusable readings (document s) slot) slots)
        \/ (fst (m s) = Throw TypeError
            /\ Exists (unusable readings (document s)) slots)).


(** Two elements that differ at most in their classes and listeners. *)
Definition restyled (e e' : element) : Prop :=
  exists c l, e' = with_listeners l (with_classList c e).

(** Two elements that differ at most in having the class [active]. *)
Definition reactivated (e e' : element) : Prop :=
  class_change e e' /\ forall k, k <> "active" -> has_class k e' = has_class k e.

(** [grown R l l']: the elements [l'] are the elements [l], each changed
    at most as [R] allows, with new elements put in between. *)
Inductive grown (R : element -> element -> Prop) : list element -> list element -> Prop :=
| grown_nil : grown R [] []
| grown_keep (e e' : element) (l l' : list element) :
    R e e' -> grown R l l' -> grown R (e :: l) (e' :: l')
| grown_new (x : element) (l l' : list element) :
    grown R l l' -> grown R l (x :: l').


(** The entries of [modules]: each is stored under its own identifier,
    its tab button and tab content were made before the next element
    to come, and the entries of two identifiers were made one after
    the other. *)
Definition entries_ok (s : state) : Prop :=
  (forall k m, obj_get (modules s) k = Some m ->
     deviceId m = k /\ (tabButton m < tabContent m < next_ref s)%nat)
  /\ (forall k k' m m', k <> k' ->
        obj_get (modules s) k = Some m -> obj_get (modules s) k' = Some m' ->
        (tabContent m < tabButton m' \/ tabContent m' < tabButton m)%nat).


(** How a lookup by [#<prefix><d>] ends. *)
Definition selector_outcome (d : string) : outcome unit :=
  match id_selector d with
  | Selects _ => Ok tt
  | Ill_formed => Throw SyntaxError
  | Unparsed => Throw Unmodelled
  end.




(** * Properties *)

(** ** Lists of elements *)

Lemma replace_first_none {A : Type} (p : A -> bool) (g : A -> A) (l : list A) :
  existsb p l = false -> replace_first p g l = l.
Proof.
  induction l as [|x r IH]; simpl; intros H; [reflexivity|].
  apply orb_false_iff in H as [Hx Hr]. rewrite Hx, IH by assumption. reflexivity.
Qed.

Lemma replace_first_app {A : Type} (p : A -> bool) (g : A -> A) (l1 l2 : list A) :
  replace_first p g (l1 ++ l2)%list =
  (if existsb p l1 then replace_first p g l1 ++ l2 else l1 ++ replace_first p g l2)%list.
Proof.
  induction l1 as [|x r IH]; simpl; [reflexivity|].
  destruct (p x); simpl; [reflexivity|].
  rewrite IH. destruct (existsb p r); reflexivity.
Qed.

(** ** The document tree *)

Lemma node_forest_ind (P : node -> Prop) :
  (forall e ks, Forall P ks -> P (Node e ks)) -> forall n, P n.
Proof.
  intros H. fix IH 1. intros [e ks]. apply H.
  induction ks as [|k ks IHks]; constructor; [apply IH | exact IHks].
Qed.

Lemma elements_cons (e : element) (ks r : list node) :
  elements (Node e ks :: r) = e :: (elements ks ++ elements r)%list.
Proof.
  unfold elements, nodes. simpl. rewrite map_app. reflexivity.
Qed.

Lemma elements_app (l1 l2 : list node) :
  elements (l1 ++ l2)%list = (elements l1 ++ elements l2)%list.
Proof.
  unfold elements, nodes. rewrite flat_map_app, map_app. reflexivity.
Qed.

Lemma querySelector_elements (p : element -> bool) (doc : list node) :
  option_map node_element (querySelector p doc) = find p (elements doc).
Proof.
  unfold querySelector, elements.
  induction (nodes doc) as [|n r IH]; simpl; [reflexivity|].
  destruct (p (node_element n)); [reflexivity | exact IH].
Qed.

Lemma getElementById_elements (i : string) (doc : list node) :
  getElementById i doc = find (has_id i) (elements doc).
Proof. apply querySelector_elements. Qed.

Arguments elements : simpl never.

Lemma elements_split (k : node) (r : list node) :
  elements (k :: r) = (elements [k] ++ elements r)%list.
Proof. apply (elements_app [k] r). Qed.

Lemma first_some_spec (p : element -> bool) (g : element -> element) (ks : list node) :
  Forall (fun k => update_first_spec p g [k]
                     (option_map (fun k' => [k']) (update_first_node p (on_element g) k))) ks ->
  update_first_spec p g ks (first_some (update_first_node p (on_element g)) ks).
Proof.
  induction 1 as [|k r Hk _ IH]; simpl; [reflexivity|].
  destruct (update_first_node p (on_element g) k) as [k'|]; simpl in *.
  - destruct Hk as [Hex Hel].
    rewrite (elements_split k r), (elements_split k' r), existsb_app, Hex.
    split; [reflexivity|]. rewrite Hel, replace_first_app, Hex. reflexivity.
  - destruct (first_some (update_first_node p (on_element g)) r) as [r'|]; simpl in *.
    + destruct IH as [Hex Hel].
      rewrite (elements_split k r), (elements_split k r'), existsb_app, Hex, orb_true_r.
      split; [reflexivity|]. rewrite replace_first_app, Hk, Hel. reflexivity.
    + rewrite (elements_split k r), existsb_app, Hk, IH. reflexivity.
Qed.

Lemma elements_nil : elements [] = [].
Proof. reflexivity. Qed.

Lemma update_first_node_spec (p : element -> bool) (g : element -> element) (n : node) :
  update_first_spec p g [n]
    (option_map (fun k' => [k']) (update_first_node p (on_element g) n)).
Proof.
  induction n as [e ks IH] using node_forest_ind.
  apply first_some_spec in IH. cbn [update_first_node].
  destruct (p e) eqn:He.
  - cbn [option_map on_element update_first_spec].
    rewrite !elements_cons. cbn [existsb replace_first]. rewrite He. auto.
  - destruct (first_some (update_first_node p (on_element g)) ks) as [ks'|];
      cbn [option_map update_first_spec] in *.
    + destruct IH as [Hex Hel]. rewrite !elements_cons. cbn [existsb replace_first].
      rewrite He, existsb_app, Hex, Hel, elements_nil, !app_nil_r. auto.
    + rewrite elements_cons. cbn [existsb]. rewrite He, existsb_app, IH. reflexivity.
Qed.

Lemma update_first_elements (p : element -> bool) (g : element -> element) (doc : list node) :
  update_first_spec p g doc (update_first p (on_element g) doc).
Proof.
  apply first_some_spec, Forall_forall. intros k _. apply update_first_node_spec.
Qed.

Lemma modify_first_elements (p : element -> bool) (g : element -> element) (doc : list node) :
  elements (modify_first p (on_element g) doc) = replace_first p g (elements doc).
Proof.
  unfold modify_first. pose proof (update_first_elements p g doc) as H.
  destruct (update_first p (on_element g) doc); simpl in H.
  - apply H.
  - symmetry. apply replace_first_none, H.
Qed.

Lemma update_all_elements (p : element -> bool) (g : element -> element) (doc : list node) :
  elements (update_all p g doc) = map (fun e => if p e then g e else e) (elements doc).
Proof.
  unfold update_all.
  induction doc as [|n r IHr]; [reflexivity|].
  assert (Hn : forall n, elements [update_all_node p g n]
                         = map (fun e => if p e then g e else e) (elements [n])).
  { clear. induction n as [e ks IH] using node_forest_ind.
    simpl update_all_node. rewrite !elements_cons. simpl. f_equal.
    rewrite !app_nil_r. induction IH as [|k ks' Hk _ IHks]; [reflexivity|].
    simpl map. change (?a :: ?l) with ([a] ++ l)%list.
    rewrite !elements_app, map_app, Hk, IHks. reflexivity. }
  simpl map. change (?a :: ?l) with ([a] ++ l)%list.
  rewrite !elements_app, map_app, Hn, IHr. reflexivity.
Qed.


(** ** Objects *)

Section ObjectFacts.
Context {V : Type}.
Implicit Types (o : object V) (k : string) (v : V).

Lemma obj_get_delete_same o k : obj_get (obj_delete o k) k = None.
Proof.
  induction o as [|[k' v'] r IH]; simpl; [reflexivity|].
  destruct (String.eqb_spec k' k); simpl; [exact IH|].
  destruct (String.eqb_spec k' k); [contradiction | exact IH].
Qed.

Lemma obj_get_delete_other o k k' :
  k' <> k -> obj_get (obj_delete o k) k' = obj_get o k'.
Proof.
  intros Hne. induction o as [|[k0 v0] r IH]; simpl; [reflexivity|].
  destruct (String.eqb_spec k0 k) as [->|Hk]; simpl.
  - destruct (String.eqb_spec k k'); [congruence | exact IH].
  - rewrite IH. reflexivity.
Qed.

Lemma obj_get_Some_key o k v : obj_get o k = Some v -> In k (own_keys o).
Proof.
  induction o as [|[k' v'] r IH]; simpl; [discriminate|].
  destruct (String.eqb_spec k' k); [left; assumption | right; auto].
Qed.

Lemma obj_get_None_key o k : obj_get o k = None -> ~ In k (own_keys o).
Proof.
  induction o as [|[k' v'] r IH]; simpl; [tauto|].
  destruct (String.eqb_spec k' k); [discriminate|]. intros H [Heq|Hin]; [congruence|].
  exact (IH H Hin).
Qed.

Lemma own_keys_delete o k :
  own_keys (obj_delete o k) = filter (fun k' => negb (k' =? k)%string) (own_keys o).
Proof.
  induction o as [|[k' v'] r IH]; simpl; [reflexivity|].
  destruct (k' =? k)%string; simpl; rewrite <- IH; reflexivity.
Qed.

Lemma own_keys_set_new o k v :
  obj_get o k = None -> own_keys (obj_set o k v) = (own_keys o ++ [k])%list.
Proof.
  induction o as [|[k' v'] r IH]; simpl; [reflexivity|].
  destruct (k' =? k)%string; [discriminate|]. intros H. simpl. rewrite IH by assumption.
  reflexivity.
Qed.

Lemma obj_get_set_same o k v : obj_get (obj_set o k v) k = Some v.
Proof.
  induction o as [|[k' v'] r IH]; simpl.
  - rewrite String.eqb_refl. reflexivity.
  - destruct (String.eqb_spec k' k) as [->|Hne]; simpl.
    + rewrite String.eqb_refl. reflexivity.
    + destruct (String.eqb_spec k' k); [contradiction | exact IH].
Qed.

Lemma obj_delete_absent o k : obj_get o k = None -> obj_delete o k = o.
Proof.
  induction o as [|[k' v'] r IH]; simpl; [reflexivity|].
  destruct (k' =? k)%string; [discriminate|]. intros H. simpl. rewrite IH by assumption.
  reflexivity.
Qed.

Lemma NoDup_own_keys_delete o k : NoDup (own_keys o) -> NoDup (own_keys (obj_delete o k)).
Proof. rewrite own_keys_delete. apply NoDup_filter. Qed.

Lemma NoDup_own_keys_set_new o k v :
  obj_get o k = None -> NoDup (own_keys o) -> NoDup (own_keys (obj_set o k v)).
Proof.
  intros Hk Hnd. rewrite own_keys_set_new by assumption.
  apply NoDup_app; [assumption | repeat constructor; intros [] | ].
  intros x Hx [<-|[]]. exact (obj_get_None_key _ _ Hk Hx).
Qed.
End ObjectFacts.

Lemma insert_index_perm (n : N) (k : string) (l : list (N * string)) :
  Permutation (map snd (insert_index n k l)) (k :: map snd l).
Proof.
  induction l as [|[m k'] r IH]; simpl; [reflexivity|].
  destruct (n <=? m)%N; simpl; [reflexivity|].
  rewrite IH. apply perm_swap.
Qed.

Lemma partition_keys_perm (ks : list string) :
  Permutation (map snd (fst (partition_keys ks)) ++ snd (partition_keys ks)) ks.
Proof.
  induction ks as [|k r IH]; simpl; [reflexivity|].
  destruct (partition_keys r) as [ix others]. simpl in IH.
  destruct (array_index k); simpl.
  - rewrite insert_index_perm. simpl. constructor. exact IH.
  - rewrite <- Permutation_middle. constructor. exact IH.
Qed.

(** [Object.keys] lists the own keys, each once. *)
Lemma Object_keys_perm {V : Type} (o : object V) :
  Permutation (Object_keys o) (own_keys o).
Proof.
  unfold Object_keys. pose proof (partition_keys_perm (own_keys o)) as H.
  destruct (partition_keys (own_keys o)). exact H.
Qed.



Lemma Object_keys_length {V : Type} (o : object V) :
  length (Object_keys o) = length o.
Proof.
  rewrite (Permutation_length (Object_keys_perm o)). apply length_map.
Qed.

(** ** Changes that relate the elements before and after, one to one *)

Section Frames.
Context {A : Type} (R : A -> A -> Prop).
Hypothesis R_refl : forall x, R x x.

Lemma Forall2_same (l : list A) : Forall2 R l l.
Proof. induction l; constructor; auto. Qed.

Lemma Forall2_replace_first (p : A -> bool) (g : A -> A) (l : list A) :
  (forall x, p x = true -> R x (g x)) -> Forall2 R l (replace_first p g l).
Proof.
  intros Hg. induction l as [|x r IH]; simpl; [constructor|].
  destruct (p x) eqn:Hx; constructor; auto using Forall2_same.
Qed.

Lemma Forall2_map_if (p : A -> bool) (g : A -> A) (l : list A) :
  (forall x, p x = true -> R x (g x)) ->
  Forall2 R l (map (fun x => if p x then g x else x) l).
Proof.
  intros Hg. induction l as [|x r IH]; simpl; constructor; [|exact IH].
  destruct (p x) eqn:Hx; auto.
Qed.

Hypothesis R_trans : forall x y z, R x y -> R y z -> R x z.

Lemma Forall2_chain (l1 l2 l3 : list A) :
  Forall2 R l1 l2 -> Forall2 R l2 l3 -> Forall2 R l1 l3.
Proof.
  intros H. revert l3. induction H; intros l3 H3; inversion H3; subst; constructor; eauto.
Qed.
End Frames.

Lemma class_change_refl (e : element) : class_change e e.
Proof. exists (classList e). destruct e; reflexivity. Qed.

Lemma class_change_trans (x y z : element) :
  class_change x y -> class_change y z -> class_change x z.
Proof. intros [c ->] [c' ->]. exists c'. destruct x; reflexivity. Qed.

Lemma class_change_add (c : string) (e : element) : class_change e (classList_add c e).
Proof.
  unfold classList_add. destruct (has_class c e); [apply class_change_refl|]. eexists; reflexivity.
Qed.

Lemma class_change_remove (c : string) (e : element) : class_change e (classList_remove c e).
Proof. eexists; reflexivity. Qed.

Lemma class_change_ref (e e' : element) : class_change e e' -> ref e' = ref e.
Proof. intros [c ->]. destruct e; reflexivity. Qed.

Lemma class_change_id (e e' : element) : class_change e e' -> el_id e' = el_id e.
Proof. intros [c ->]. destruct e; reflexivity. Qed.

(** ** [switchModule] and [removeModule] *)

Ltac run_monad :=
  cbv beta iota zeta delta
    [bind ret throw update_document get_document set_document get_modules set_modules
     set_currentModuleId emit fresh_ref sendCommand];
  cbn [fst snd document modules currentModuleId next_ref trace].

Lemma switchModule_spec (d : string) (s : state) :
  exists doc',
    switchModule d s = (Ok tt, mkState doc' (modules s) (Some d) (next_ref s) (trace s))
    /\ Forall2 class_change (elements (document s)) (elements doc').
Proof.
  unfold switchModule. run_monad.
  assert (Hbase : Forall2 class_change (elements (document s))
            (elements
               (modify_first (has_id ("module-" ++ d)) (on_element (classList_add "active"))
                  (update_all (has_class "tab-button") (classList_remove "active")
                     (update_all (has_class "tab-content") (classList_remove "active")
                        (document s)))))).
  { rewrite modify_first_elements, !update_all_elements.
    eapply Forall2_chain; [exact class_change_trans | |].
    - eapply Forall2_chain; [exact class_change_trans | |].
      + apply Forall2_map_if; [exact class_change_refl|]. intros; apply class_change_remove.
      + apply Forall2_map_if; [exact class_change_refl|]. intros; apply class_change_remove.
    - apply Forall2_replace_first; [exact class_change_refl|]. intros; apply class_change_add. }
  destruct (obj_get (modules s) d) as [m|]; run_monad.
  - eexists. split; [reflexivity|].
    rewrite modify_first_elements.
    eapply Forall2_chain; [exact class_change_trans | exact Hbase |].
    apply Forall2_replace_first; [exact class_change_refl|]. intros; apply class_change_add.
  - eexists. split; [reflexivity | exact Hbase].
Qed.

Lemma removeModule_absent (d : string) (s : state) :
  obj_get (modules s) d = None -> inherited d = false -> removeModule d s = (Ok tt, s).
Proof. intros H I. unfold removeModule. run_monad. rewrite H, I. reflexivity. Qed.

(** A name that [modules] inherits passes the test of [removeModule]:
    no element goes and no entry, and the first module is shown. *)
Lemma removeModule_inherited (d : string) (s : state) :
  obj_get (modules s) d = None -> inherited d = true ->
  exists doc',
    removeModule d s
    = (Ok tt, mkState doc' (modules s) (hd_error (Object_keys (modules s))) (next_ref s)
                (trace s))
    /\ Forall2 class_change (elements (document s)) (elements doc').
Proof.
  intros H I. unfold removeModule. run_monad. rewrite H, I. run_monad.
  rewrite (obj_delete_absent _ _ H).
  destruct (Object_keys (modules s)) as [|k ks] eqn:Hk.
  - run_monad. eexists. split; [reflexivity|]. apply Forall2_same, class_change_refl.
  - match goal with |- context [switchModule k ?s0] =>
      destruct (switchModule_spec k s0) as (doc' & -> & Hdoc) end.
    cbn [fst snd document modules currentModuleId next_ref trace] in *.
    eexists. split; [reflexivity | exact Hdoc].
Qed.

Lemma removeModule_present (d : string) (s : state) (m : module_entry) :
  obj_get (modules s) d = Some m ->
  exists doc' cur,
    removeModule d s
    = (Ok tt, mkState doc' (obj_delete (modules s) d) cur (next_ref s) (trace s))
    /\ Forall2 class_change
         (elements (remove_ref (tabContent m) (remove_ref (tabButton m) (document s))))
         (elements doc')
    /\ cur = hd_error (Object_keys (obj_delete (modules s) d)).
Proof.
  intros H. unfold removeModule. run_monad. rewrite H. run_monad.
  destruct (Object_keys (obj_delete (modules s) d)) as [|k ks] eqn:Hk.
  - run_monad. do 2 eexists. split; [reflexivity|]. split; [|reflexivity].
    apply Forall2_same, class_change_refl.
  - match goal with |- context [switchModule k ?s0] =>
      destruct (switchModule_spec k s0) as (doc' & -> & Hdoc) end.
    cbn [fst snd document modules currentModuleId next_ref trace] in *.
    do 2 eexists. split; [reflexivity|]. split; [exact Hdoc | reflexivity].
Qed.



(** ** [addModule] *)

Lemma initializeControls_keeps (d : string) (s s' : state) (o : outcome unit) :
  initializeControls d s = (o, s') ->
  modules s' = modules s /\ currentModuleId s' = currentModuleId s /\ trace s' = trace s.
Proof.
  unfold initializeControls. destruct (id_selector d); run_monad; intros [= _ <-]; auto.
Qed.

Lemma initializeChannelControls_keeps (d : string) (s s' : state) (o : outcome unit) :
  initializeChannelControls d s = (o, s') ->
  modules s' = modules s /\ currentModuleId s' = currentModuleId s /\ trace s' = trace s.
Proof.
  unfold initializeChannelControls. run_monad.
  destruct (querySelector (module_panel_of d) (document s)); [|intros [= _ <-]; auto].
  destruct (id_selector d); run_monad; intros [= _ <-]; auto.
Qed.

Lemma addModule_present (c : client) (d p : string) (s : state) (m : module_entry) :
  obj_get (modules s) d = Some m -> addModule c d p s = (Ok tt, s).
Proof. intros H. unfold addModule. run_monad. rewrite H. reflexivity. Qed.

(** What a call of [addModule] does to [modules] and [currentModuleId]:
    nothing, or the registration of the new module, which becomes the
    current one. *)
Lemma addModule_registers (c : client) (d p : string) (s : state) :
  obj_get (modules s) d = None ->
  let s' := snd (addModule c d p s) in
  (modules s' = modules s /\ currentModuleId s' = currentModuleId s)
  \/ (exists b t, modules s' = obj_set (modules s) d (mkModule d p b t)
                  /\ currentModuleId s' = Some d).
Proof.
  intros H. unfold addModule. run_monad. rewrite H.
  destruct (inherited d); [left; split; reflexivity|].
  destruct (getElementById "module-tabs" (document s)) as [container|];
    destruct (querySelector (has_class "tab-header") (document s)) as [header|];
    run_monad; try (left; split; reflexivity);
    (match goal with |- context [switchModule d ?s0] =>
       destruct (switchModule_spec d s0) as (doc' & -> & _) end);
    cbn [fst snd document modules currentModuleId next_ref trace];
    right; do 2 eexists;
    destruct c;
    (match goal with
     | |- context [initializeChannelControls d ?s0] =>
         destruct (initializeChannelControls d s0) as [o s1] eqn:E;
         apply initializeChannelControls_keeps in E
     | |- context [initializeControls d ?s0] =>
         destruct (initializeControls d s0) as [o s1] eqn:E;
         apply initializeControls_keeps in E
     end);
    cbn [modules currentModuleId] in E; destruct E as (Em & Ec & _);
    try (destruct o); cbn [fst snd document modules currentModuleId next_ref trace];
    rewrite ?Em, ?Ec; split; reflexivity.
Qed.

Lemma do_call_NoDup (c : client) (x : call) (s : state) :
  NoDup (own_keys (modules s)) -> NoDup (own_keys (modules (do_call c x s))).
Proof.
  intros Hs. destruct x as [d p|d]; simpl.
  - destruct (obj_get (modules s) d) as [m|] eqn:Hd.
    + rewrite (addModule_present c d p s m Hd). exact Hs.
    + destruct (addModule_registers c d p s Hd) as [[-> _]|(b & t & -> & _)];
        [exact Hs | apply NoDup_own_keys_set_new; assumption].
  - destruct (obj_get (modules s) d) as [m|] eqn:Hd.
    + destruct (removeModule_present d s m Hd) as (doc' & cur & -> & _).
      apply NoDup_own_keys_delete, Hs.
    + destruct (inherited d) eqn:Hi.
      * destruct (removeModule_inherited d s Hd Hi) as (doc' & -> & _). exact Hs.
      * rewrite (removeModule_absent d s Hd Hi). exact Hs.
Qed.

Lemma do_calls_invariant (P : state -> Prop) (c : client) (xs : list call) (s : state) :
  (forall x s, P s -> P (do_call c x s)) -> P s -> P (do_calls c xs s).
Proof.
  intros Hstep. unfold do_calls. revert s.
  induction xs as [|x xs IH]; simpl; intros s Hs; [exact Hs | apply IH, Hstep, Hs].
Qed.

(** C9.  A call of [addModule] with an identifier that [modules]
    already holds returns at once and leaves the whole state as it is:
    the document, the entry, [currentModuleId] and the requests sent.
    After any sequence of calls of [addModule] and [removeModule] no
    identifier is a key of [modules] twice. *)
Theorem one_module_per_identifier
  (c : client) (d p : string) (s : state) (m : module_entry)
  (page : list node) (xs : list call) :
  (obj_get (modules s) d = Some m -> addModule c d p s = (Ok tt, s))
  /\ NoDup (own_keys (modules (do_calls c xs (initial_state page)))).
Proof.
  split; [apply addModule_present|].
  apply (do_calls_invariant (fun s => NoDup (own_keys (modules s)))).
  - intros x s0. apply do_call_NoDup.
  - constructor.
Qed.




(** ** Commands of the pulse-shaping client *)

(** C1.  [setThreshold(deviceId, 17)] sends [set_threshold] with the
    integer parsed from the input of id [thresh-common-<deviceId>], and
    [setThreshold(deviceId, channel)] for a channel from 1 to 16 with the
    integer parsed from the input of id [thresh-<deviceId>-<channel>];
    the [channel] field of the command is the argument.  These are the
    ids of the common input and of the input of that channel in the
    markup of the threshold section. *)
Theorem setThreshold_command (d : string) (channel : Z) (s : state) (input : element) :
  (getElementById ("thresh-common-" ++ d) (document s) = Some input ->
   setThreshold d 17 s
   = (Ok tt, after s (POST_command d "set_threshold"
                        [("channel", JNum (Int 17));
                         ("value", JNum (parseInt (value input)))])))
  /\ (1 <= channel <= 16 ->
      getElementById ("thresh-" ++ d ++ "-" ++ decimal channel) (document s) = Some input ->
      setThreshold d channel s
      = (Ok tt, after s (POST_command d "set_threshold"
                           [("channel", JNum (Int channel));
                            ("value", JNum (parseInt (value input)))])))
  /\ map (fun e => (el_id e, getAttribute "data-channel" e))
       (filter (has_class "threshold-input")
          (elements [Markup_MSCF16.createThresholdSection d]))
     = (map (fun ch => (("thresh-" ++ d ++ "-" ++ decimal ch)%string, Some (decimal ch)))
          (range 1 16)
        ++ [(("thresh-common-" ++ d)%string, None)])%list.
Proof.
  split; [|split].
  - intros H. unfold setThreshold, value_of. run_monad. cbn [Z.eqb Pos.eqb].
    rewrite H. reflexivity.
  - intros Hch H. unfold setThreshold, value_of. run_monad.
    destruct (Z.eqb_spec channel 17) as [->|_]; [lia|].
    rewrite H. reflexivity.
  - reflexivity.
Qed.

Lemma In_range (a b k : Z) : In k (range a b) -> a <= k <= b.
Proof.
  unfold range. intros H. apply in_map_iff in H as (n & <- & Hn).
  apply in_seq in Hn. lia.
Qed.

Lemma parseInt_decimal (k : Z) : 0 <= k <= 16 -> parseInt (decimal k) = Int k.
Proof.
  intros H.
  assert (Hk : In k (range 0 16)).
  { unfold range. apply in_map_iff. exists (Z.to_nat k). split; [lia|]. apply in_seq. lia. }
  vm_compute in Hk.
  repeat (destruct Hk as [<-|Hk]; [reflexivity|]). destruct Hk.
Qed.

Lemma decimal_zero (k : Z) : 0 <= k <= 16 -> decimal k = "0" -> k = 0.
Proof.
  intros H E. pose proof (parseInt_decimal k H) as P. rewrite E in P.
  vm_compute in P. congruence.
Qed.

(** C6.  [setAutomaticPZ] sends [set_automatic_pz]; the select it reads
    offers [0] (All) and the channels 1 to 16; the [channel] parameter
    is [null] exactly when the selected value is [0] and is the
    selected channel number otherwise. *)
Theorem setAutomaticPZ_command (d : string) (s : state) (select : element) :
  map (fun e => (el_id e, options e))
    (filter (has_class "auto-pz-select") (elements [Markup_MSCF16.createAutoPZSection d]))
  = [("auto-pz-" ++ d, "0" :: map decimal (range 1 16))]
  /\ (getElementById ("auto-pz-" ++ d) (document s) = Some select ->
      In (value select) ("0" :: map decimal (range 1 16)) ->
      exists channel,
        setAutomaticPZ d s
        = (Ok tt, after s (POST_command d "set_automatic_pz" [("channel", channel)]))
        /\ (channel = JNull <-> value select = "0")
        /\ (value select <> "0" ->
            exists ch, 1 <= ch <= 16 /\ value select = decimal ch /\ channel = JNum (Int ch))).
Proof.
  split; [reflexivity|].
  intros Hget Hin. unfold setAutomaticPZ, value_of. run_monad. rewrite Hget.
  destruct Hin as [H0|Hin].
  - rewrite <- H0. exists JNull. split; [reflexivity|]. split; [tauto | congruence].
  - apply in_map_iff in Hin as (ch & Hv & Hr). apply In_range in Hr.
    rewrite <- Hv, parseInt_decimal by lia. unfold number_is.
    destruct (Z.eqb_spec ch 0) as [->|_]; [lia|].
    exists (JNum (Int ch)). split; [reflexivity|].
    split; [|intros _; exists ch; auto].
    split; [discriminate|]. intros E. apply decimal_zero in E; lia.
Qed.

(** ** Selectors of identifiers made of name characters *)

Lemma css_name_char_class (c : ascii) :
  css_name_char c = true -> never_in_selector c = false /\ parsed_char c = true.
Proof.
  intros H. split.
  - destruct c as [[] [] [] [] [] [] [] []]; try reflexivity; discriminate H.
  - unfold parsed_char, in_compound. rewrite H. reflexivity.
Qed.

Lemma string_exists_css_name (p : ascii -> bool) (d : string) :
  (forall c, css_name_char c = true -> p c = false) ->
  css_name d = true -> string_exists p d = false.
Proof.
  intros Hp. induction d as [|c r IH]; simpl; [reflexivity|].
  intros H. apply andb_true_iff in H as [Hc Hr]. rewrite (Hp c Hc), IH by assumption.
  reflexivity.
Qed.

Lemma append_one (a r : string) (x : ascii) : ((a ++ String x "") ++ r = a ++ String x r)%string.
Proof. induction a as [|y a IH]; simpl; [reflexivity | rewrite IH; reflexivity]. Qed.

Lemma scan_parts_name (r : string) (k : part) (name : string) (c : compound) :
  css_name r = true -> scan_parts r k name c = close_part k (name ++ r) c.
Proof.
  revert name. induction r as [|x r IH]; intros name; simpl.
  - intros _. replace (name ++ "")%string with name; [reflexivity|].
    induction name as [|y n IHn]; simpl; [reflexivity | rewrite <- IHn; reflexivity].
  - intros H. apply andb_true_iff in H as [Hx Hr]. rewrite Hx, IH, append_one by assumption.
    reflexivity.
Qed.

(** For an identifier of name characters the selectors are id selectors
    for the ids written in the markup. *)
Lemma id_selector_name (d : string) :
  css_name d = true -> id_selector d = Selects (mkCompound d [] []).
Proof.
  intros H. unfold id_selector.
  rewrite (string_exists_css_name (fun c => negb (parsed_char c)) d),
    (string_exists_css_name never_in_selector d); try assumption.
  - rewrite scan_parts_name by assumption. reflexivity.
  - intros c Hc. apply (css_name_char_class c Hc).
  - intros c Hc. destruct (css_name_char_class c Hc) as (_ & ->). reflexivity.
Qed.

Lemma selects_name (prefix d : string) (e : element) :
  selects prefix (mkCompound d [] []) e = has_id (prefix ++ d) e.
Proof. unfold selects, has_id. cbn. rewrite !andb_true_r. reflexivity. Qed.

Lemma update_all_ext (p q : element -> bool) (g : element -> element) (doc : list node) :
  (forall e, p e = q e) -> update_all p g doc = update_all q g doc.
Proof.
  intros H. unfold update_all. apply map_ext_in. intros n _.
  induction n as [e ks IH] using node_forest_ind. cbn [update_all_node]. rewrite H. f_equal.
  induction IH as [|k ks' Hk _ IHks]; [reflexivity|]. cbn [map]. rewrite Hk, IHks. reflexivity.
Qed.

Lemma modify_first_ext (p q : element -> bool) (f : node -> node) (doc : list node) :
  (forall e, p e = q e) -> modify_first p f doc = modify_first q f doc.
Proof.
  intros H. unfold modify_first, update_first.
  assert (E : forall ks, first_some (update_first_node p f) ks
                         = first_some (update_first_node q f) ks).
  { intros ks. induction ks as [|k r IHr]; [reflexivity|]. cbn [first_some].
    assert (Ek : update_first_node p f k = update_first_node q f k).
    { clear IHr. induction k as [e cs IH] using node_forest_ind. cbn [update_first_node].
      rewrite H. destruct (q e); [reflexivity|]. f_equal.
      induction IH as [|c cs' Hc _ IHcs]; [reflexivity|]. cbn [first_some].
      rewrite Hc, IHcs. reflexivity. }
    rewrite Ek, IHr. reflexivity. }
  rewrite E. reflexivity.
Qed.

Section HandlerFacts.
Context {B : Builtins}.

Lemma dispatch_single (type : string) (h : handler) (this : element) (s : state) :
  listeners this = [(type, h)] ->
  dispatchEvent type this s = (Ok tt, snd (run_handler h this s)).
Proof.
  intros H. unfold dispatchEvent. rewrite H. cbn [run_listeners].
  rewrite String.eqb_refl. reflexivity.
Qed.
End HandlerFacts.

(** C3, as the code has it, for a device identifier made of name
    characters (letters, digits, [-] and [_]).  The four mode
    checkboxes of a panel carry [data-mode] [single_mode], [ecl_delay],
    [blr_mode] and [rc_mode], and no listener; [initializeControls] returns
    normally and adds one listener to every element of the document
    that carries the id of one of them, and to no other element, so
    that each checkbox of the panel has this one listener; a change of
    a checkbox with this listener sends the operation [set_] followed
    by its [data-mode] - [set_single_mode], [set_ecl_delay],
    [set_blr_mode], [set_rc_mode] - with the single parameter [enable],
    the state of the checkbox. *)
Theorem mode_checkbox_command {B : Builtins}
  (d : string) (s : state) (this : element) (mode : string) :
  css_name d = true ->
  let ids := ["single-mode-" ++ d; "ecl-delay-" ++ d; "blr-mode-" ++ d; "rc-mode-" ++ d] in
  let attach e :=
    if existsb (String.eqb (el_id e)) ids then addEventListener "change" (H_mode d) e else e in
  let checkboxes l :=
    map (fun e => (el_id e, getAttribute "data-mode" e, listeners e))
      (filter (has_class "mode-checkbox-input") l) in
  checkboxes (elements [Markup_MSCF16.createModulePanel d])
  = [("single-mode-" ++ d, Some "single_mode", []);
     ("ecl-delay-" ++ d, Some "ecl_delay", []);
     ("blr-mode-" ++ d, Some "blr_mode", []);
     ("rc-mode-" ++ d, Some "rc_mode", [])]
  /\ (exists doc',
        initializeControls d s
        = (Ok tt, mkState doc' (modules s) (currentModuleId s) (next_ref s) (trace s))
        /\ elements doc' = map attach (elements (document s)))
  /\ checkboxes (map attach (elements [Markup_MSCF16.createModulePanel d]))
     = [("single-mode-" ++ d, Some "single_mode", [("change", H_mode d)]);
        ("ecl-delay-" ++ d, Some "ecl_delay", [("change", H_mode d)]);
        ("blr-mode-" ++ d, Some "blr_mode", [("change", H_mode d)]);
        ("rc-mode-" ++ d, Some "rc_mode", [("change", H_mode d)])]
  /\ (listeners this = [("change", H_mode d)] ->
      getAttribute "data-mode" this = Some mode ->
      dispatchEvent "change" this s
      = (Ok tt, after s (POST_command d ("set_" ++ mode) [("enable", JBool (checked this))]))).
Proof.
  intros Hd ids attach checkboxes. subst ids attach checkboxes. cbv beta.
  split; [reflexivity|]. split; [|split].
  - unfold initializeControls. rewrite (id_selector_name d Hd). run_monad.
    eexists. split; [reflexivity|]. rewrite update_all_elements. apply map_ext.
    intros e. unfold mode_checkboxes. rewrite !selects_name. unfold has_id. cbn [existsb].
    rewrite orb_false_r, !orb_assoc. reflexivity.
  - unfold elements. cbn. rewrite !String.eqb_refl. reflexivity.
  - intros Hl Hm. rewrite (dispatch_single _ _ _ _ Hl). cbn [run_handler].
    rewrite Hm. reflexivity.
Qed.

(** The claim C3 names [set_single_channel_mode] for the first checkbox:
    on the sample page, checking it sends [set_single_mode], and no
    [set_single_channel_mode] request leaves. *)
Lemma single_mode_checkbox_sends_set_single_mode :
  let s' := snd (user_change (B := sample_builtins) (has_id "single-mode-COM3")
                   (with_checked true) (sample_state MSCF16)) in
  trace s' = [POST_command "COM3" "get_version" [];
              POST_command "COM3" "set_single_mode" [("enable", JBool true)]]
  /\ ~ In (POST_command "COM3" "set_single_channel_mode" [("enable", JBool true)]) (trace s').
Proof.
  split; [vm_compute; reflexivity|].
  vm_compute. intros [H|[H|[]]]; discriminate.
Qed.

(** ** Commands of the high-voltage client *)

(** [initializeChannelControls] when the selector of the ramp speed
    select is ill-formed: the exception leaves the function before the
    loop over the channels, and no listener is attached. *)
Lemma initializeChannelControls_ill_formed (d : string) (s : state) (modulePanel : node) :
  id_selector d = Ill_formed ->
  querySelector (module_panel_of d) (document s) = Some modulePanel ->
  initializeChannelControls d s = (Throw SyntaxError, s).
Proof.
  intros H Hq. unfold initializeChannelControls. run_monad. rewrite Hq, H. reflexivity.
Qed.

Lemma initializeChannelControls_name (d : string) (s : state) (modulePanel : node) :
  css_name d = true ->
  querySelector (module_panel_of d) (document s) = Some modulePanel ->
  initializeChannelControls d s
  = (Ok tt, mkState (modify_first (module_panel_of d)
                       (on_children (module_controls d (mkCompound d [] []))) (document s))
              (modules s) (currentModuleId s) (next_ref s) (trace s)).
Proof.
  intros H Hq. unfold initializeChannelControls. run_monad.
  rewrite Hq, (id_selector_name d H). reflexivity.
Qed.

(** The listeners in the panel of a device with an identifier of name
    characters, once [initializeChannelControls] has run on it. *)
Lemma module_controls_listeners (d : string) :
  map (fun e => (el_id e, getAttribute "data-channel" e, options e, listeners e))
    (filter (fun e => has_class "ntc-combo" e || has_class "ramp-speed-select" e)
       (elements [on_children (module_controls d (mkCompound d [] []))
                    (Markup_MHV4.createModulePanel d)]))
  = (("ramp-speed-" ++ d)%string, None, ["0"; "1"; "2"; "3"], [("change", H_rampSpeed d)])
    :: map (fun ch => ("", Some (decimal ch), ["0"; "1"; "2"; "3"; "4"],
                       [("change", H_ntc d ch)]))
         (range 0 3).
Proof.
  unfold elements, module_controls, listen, selects, modify_first, update_first.
  cbn. rewrite !String.eqb_refl. reflexivity.
Qed.

Section HighVoltageHandlers.
Context {B : Builtins}.

(** What the listener of an NTC select sends. *)
Lemma ntc_listener_command (d : string) (ch : Z) (s : state) (this : element) :
  listeners this = [("change", H_ntc d ch)] ->
  In (value this) ["0"; "1"; "2"; "3"; "4"] ->
  exists ntc,
    dispatchEvent "change" this s
    = (Ok tt, after s (POST_command d "set_temperature_compensation"
                         [("channel", JNum (Int ch)); ("ntc_channel", ntc)]))
    /\ (ntc = JNull <-> value this = "0")
    /\ (value this <> "0" ->
        exists k, 0 <= k <= 3 /\ value this = decimal (k + 1) /\ ntc = JNum (Int k)).
Proof.
  intros Hl Hv. rewrite (dispatch_single _ _ _ _ Hl). cbn [run_handler].
  simpl in Hv.
  destruct Hv as [<-|[<-|[<-|[<-|[<-|[]]]]]]; cbn; eexists;
    (split; [reflexivity|]); (split; [split; (reflexivity || discriminate)|]);
    intros H; try congruence.
  - exists 0. repeat split; lia.
  - exists 1. repeat split; lia.
  - exists 2. repeat split; lia.
  - exists 3. repeat split; lia.
Qed.

(** What the listener of the ramp speed select sends. *)
Lemma ramp_speed_listener_command (d : string) (s : state) (this : element) :
  listeners this = [("change", H_rampSpeed d)] ->
  In (value this) ["0"; "1"; "2"; "3"] ->
  exists k,
    0 <= k <= 3 /\ value this = decimal k
    /\ dispatchEvent "change" this s
       = (Ok tt, after s (POST_command d "set_ramp_speed"
                            [("ramp_speed_index", JNum (Int k))])).
Proof.
  intros Hl Hv. rewrite (dispatch_single _ _ _ _ Hl). cbn [run_handler].
  simpl in Hv.
  destruct Hv as [<-|[<-|[<-|[<-|[]]]]];
    [exists 0 | exists 1 | exists 2 | exists 3]; (split; [lia|]); split; reflexivity.
Qed.

End HighVoltageHandlers.

(** C7, where the code departs from it: the command is sent for a
    module whose identifier is made of name characters, and none is
    sent for one named by the endpoint path of a serial port.  With
    [COM3], choosing NTC1 in the panel of channel 2 sends
    [set_temperature_compensation] with [ntc_channel] 1.  With
    [/dev/ttyUSB0] the text [#ramp-speed-/dev/ttyUSB0] is no selector:
    [initializeChannelControls] throws a [SyntaxError] at the ramp
    speed select, before it reaches the channels; the module is
    registered, no NTC select of its panel has a listener, and the same
    choice sends nothing. *)
Theorem ntc_selector_endpoint_path :
  let ntc2 e := has_class "ntc-combo" e && has_attribute "data-channel" "2" e in
  let choose s := snd (user_change (B := sample_builtins) ntc2 (assign_value "2") s) in
  let r := addModule MHV4 "/dev/ttyUSB0" "/dev/ttyUSB0" (initial_state sample_page) in
  trace (choose (sample_state MHV4))
  = [POST_command "COM3" "set_temperature_compensation"
       [("channel", JNum (Int 2)); ("ntc_channel", JNum (Int 1))]]
  /\ id_selector "/dev/ttyUSB0" = Ill_formed
  /\ fst r = Throw SyntaxError
  /\ own_keys (modules (snd r)) = ["/dev/ttyUSB0"]
  /\ map (fun e => (getAttribute "data-channel" e, value e, listeners e))
       (filter (has_class "ntc-combo") (elements (document (snd r))))
     = [(Some "0", "0", []); (Some "1", "0", []); (Some "2", "0", []); (Some "3", "0", [])]
  /\ map (fun e => (getAttribute "data-channel" e, value e, listeners e))
       (filter (has_class "ntc-combo") (elements (document (choose (snd r)))))
     = [(Some "0", "0", []); (Some "1", "0", []); (Some "2", "2", []); (Some "3", "0", [])]
  /\ trace (choose (snd r)) = [].
Proof. vm_compute. repeat split; reflexivity. Qed.

(** C8, where the code departs from it: the command is sent for a
    module whose identifier is made of name characters, and none is
    sent for one named by the endpoint path of a serial port.  With
    [COM3], choosing the third ramp speed sends [set_ramp_speed] with
    the one parameter [ramp_speed_index] 2.  With [/dev/ttyUSB0] the
    lookup of [#ramp-speed-/dev/ttyUSB0] throws a [SyntaxError] in
    [initializeChannelControls]: the ramp speed select of the panel,
    with its options [0] to [3], has no listener, and the same choice
    sends nothing. *)
Theorem ramp_speed_endpoint_path :
  let choose i s :=
    snd (user_change (B := sample_builtins) (has_id i) (assign_value "2") s) in
  let r := addModule MHV4 "/dev/ttyUSB0" "/dev/ttyUSB0" (initial_state sample_page) in
  trace (choose "ramp-speed-COM3" (sample_state MHV4))
  = [POST_command "COM3" "set_ramp_speed" [("ramp_speed_index", JNum (Int 2))]]
  /\ fst r = Throw SyntaxError
  /\ initializeChannelControls "/dev/ttyUSB0"
       (snd (switchModule "/dev/ttyUSB0" (snd r)))
     = (Throw SyntaxError, snd (switchModule "/dev/ttyUSB0" (snd r)))
  /\ map (fun e => (el_id e, options e, value e, listeners e))
       (filter (has_class "ramp-speed-select") (elements (document (snd r))))
     = [("ramp-speed-/dev/ttyUSB0", ["0"; "1"; "2"; "3"], "1", [])]
  /\ map (fun e => (el_id e, options e, value e, listeners e))
       (filter (has_class "ramp-speed-select")
          (elements (document (choose "ramp-speed-/dev/ttyUSB0" (snd r)))))
     = [("ramp-speed-/dev/ttyUSB0", ["0"; "1"; "2"; "3"], "2", [])]
  /\ trace (choose "ramp-speed-/dev/ttyUSB0" (snd r)) = [].
Proof. vm_compute. repeat split; reflexivity. Qed.

(** ** Lookups by id after a rewriting *)

Lemma find_replace_first_same (i : string) (g : element -> element) (l : list element) :
  (forall e, el_id (g e) = el_id e) ->
  find (has_id i) (replace_first (has_id i) g l) = option_map g (find (has_id i) l).
Proof.
  intros Hg. induction l as [|e r IH]; simpl; [reflexivity|].
  destruct (has_id i e) eqn:He; simpl.
  - unfold has_id in *. rewrite Hg, He. reflexivity.
  - rewrite He. exact IH.
Qed.

Lemma find_replace_first_other (i j : string) (g : element -> element) (l : list element) :
  (forall e, el_id (g e) = el_id e) -> i <> j ->
  find (has_id j) (replace_first (has_id i) g l) = find (has_id j) l.
Proof.
  intros Hg Hij. induction l as [|e r IH]; simpl; [reflexivity|].
  destruct (has_id i e) eqn:He; simpl.
  - unfold has_id in *. rewrite Hg. apply String.eqb_eq in He.
    destruct (String.eqb_spec (el_id e) j); [congruence | reflexivity].
  - rewrite IH. reflexivity.
Qed.

Lemma with_textContent_id (t : string) (e : element) : el_id (with_textContent t e) = el_id e.
Proof. destruct e; reflexivity. Qed.

Lemma with_textContent_twice (t t' : string) (e : element) :
  with_textContent t' (with_textContent t e) = with_textContent t' e.
Proof. destruct e; reflexivity. Qed.

Lemma write_texts_find (us : list (string * string)) (l : list element) (i : string) :
  NoDup (map fst us) ->
  find (has_id i) (write_texts us l)
  = match obj_get us i with
    | Some t => option_map (with_textContent t) (find (has_id i) l)
    | None => find (has_id i) l
    end.
Proof.
  unfold write_texts. revert l.
  induction us as [|[j t] us IH]; intros l Hnd; simpl; [reflexivity|].
  inversion Hnd as [|? ? Hj Hnd']; subst. rewrite IH by assumption.
  destruct (String.eqb_spec j i) as [->|Hne].
  - rewrite find_replace_first_same by apply with_textContent_id.
    destruct (obj_get us i) as [t'|] eqn:Hget; [|reflexivity].
    exfalso. apply Hj. eapply obj_get_Some_key, Hget.
  - rewrite find_replace_first_other by (auto using with_textContent_id). reflexivity.
Qed.

Lemma write_texts_frame (us : list (string * string)) (l : list element) :
  Forall2 (fun e e' => e' = e \/ exists t, In (el_id e, t) us /\ e' = with_textContent t e)
    l (write_texts us l).
Proof.
  unfold write_texts. revert l.
  induction us as [|[j t] us IH]; intros l; simpl.
  - apply Forall2_same. auto.
  - specialize (IH (replace_first (has_id j) (with_textContent t) l)).
    revert IH.
    generalize (fold_left
                  (fun l0 '(i, t0) => replace_first (has_id i) (with_textContent t0) l0) us
                  (replace_first (has_id j) (with_textContent t) l)).
    induction l as [|e r IHr]; simpl; intros l' H.
    + inversion H; constructor.
    + destruct (has_id j e) eqn:He; inversion H as [|? e' ? r' He' Hr]; subst; constructor.
      * apply String.eqb_eq in He.
        destruct He' as [->|(t' & Hin & ->)]; right.
        -- exists t. split; [left; congruence | reflexivity].
        -- rewrite with_textContent_id in Hin. exists t'.
           split; [right; exact Hin | apply with_textContent_twice].
      * clear -Hr. revert Hr. apply Forall2_impl.
        intros a b [->|(t' & Hin & ->)]; [left; reflexivity|].
        right. exists t'. split; [right; exact Hin | reflexivity].
      * destruct He' as [->|(t' & Hin & ->)]; [left; reflexivity|].
        right. exists t'. split; [right; exact Hin | reflexivity].
      * apply IHr. exact Hr.
Qed.

(** ** Readings of the high-voltage client *)

Lemma string_app_inv_head (d a b : string) : (d ++ a = d ++ b)%string -> a = b.
Proof.
  induction d as [|c d IH]; simpl; intros H; [exact H|].
  injection H as H. exact (IH H).
Qed.

Lemma modify_first_no_match (p : element -> bool) (g : element -> element) (doc : list node) :
  find p (elements doc) = None -> modify_first p (on_element g) doc = doc.
Proof.
  intros H. unfold modify_first. pose proof (update_first_elements p g doc) as S.
  destruct (update_first p (on_element g) doc); [|reflexivity].
  destruct S as [Hex _]. apply existsb_exists in Hex as (x & Hx & Hpx).
  eapply find_none in H; [|exact Hx]. congruence.
Qed.

Section Readings.
Context {B : Builtins}.

Lemma show_ok (i : string) (v : jsval) (n : nat) (s : state) :
  absent_or_number v ->
  MHV4_events.show i v n s
  = (Ok tt, mkState (shown i v n (document s)) (modules s) (currentModuleId s)
              (next_ref s) (trace s)).
Proof.
  intros [->|[x ->]]; unfold MHV4_events.show, shown; [destruct s; reflexivity|].
  run_monad. destruct (getElementById i (document s)) eqn:E; [reflexivity|].
  rewrite getElementById_elements in E.
  rewrite modify_first_no_match by exact E. destruct s; reflexivity.
Qed.

Lemma shown_elements (i : string) (v : jsval) (n : nat) (doc : list node) :
  elements (shown i v n doc)
  = write_texts (match v with JNum x => [(i, Number_toFixed x n)] | _ => [] end)
      (elements doc).
Proof.
  unfold shown, write_texts.
  destruct v as [| | |x|]; simpl; try reflexivity. apply modify_first_elements.
Qed.

Lemma write_texts_app (a b : list (string * string)) (l : list element) :
  write_texts (a ++ b) l = write_texts b (write_texts a l).
Proof. apply fold_left_app. Qed.

(** [updateModuleReadings] writes the texts that the readings call for. *)
Lemma updateModuleReadings_run (d : string) (readings : object jsval) (s : state) :
  (forall key i n, In (key, i, n) (displays d) -> absent_or_number (field readings key)) ->
  exists doc',
    MHV4_events.updateModuleReadings d readings s
    = (Ok tt, mkState doc' (modules s) (currentModuleId s) (next_ref s) (trace s))
    /\ elements doc'
       = write_texts (displayed_of readings (displays d)) (elements (document s)).
Proof.
  intros H. unfold MHV4_events.updateModuleReadings, for_each.
  change (range 0 3) with [0; 1; 2; 3]. cbn [fold_right].
  change (decimal 0) with "0". change (decimal 1) with "1".
  change (decimal 2) with "2". change (decimal 3) with "3".
  cbn [append]. run_monad.
  repeat (rewrite show_ok by (eapply H; vm_compute; tauto);
          cbn [fst snd document modules currentModuleId next_ref trace]).
  eexists. split; [reflexivity|].
  rewrite !shown_elements, <- !write_texts_app.
  f_equal. unfold displayed_of, displays.
  change (range 0 3) with [0; 1; 2; 3]. cbn [flat_map app].
  change (decimal 0) with "0". change (decimal 1) with "1".
  change (decimal 2) with "2". change (decimal 3) with "3".
  cbn [append]. rewrite <- ?app_assoc, ?app_nil_r. reflexivity.
Qed.

End Readings.

Section Displayed.
Context {B : Builtins}.
Implicit Types (slots : list (string * string * nat)) (readings : object jsval).

Lemma displayed_of_In readings slots (i t : string) :
  In (i, t) (displayed_of readings slots) ->
  exists key n x,
    In (key, i, n) slots /\ field readings key = JNum x /\ t = Number_toFixed x n.
Proof.
  induction slots as [|[[key j] n] r IH]; simpl; [intros []|].
  intros H. apply in_app_or in H as [H|H].
  - destruct (field readings key) as [| | |x|] eqn:E; simpl in H; try tauto.
    destruct H as [[= <- <-]|[]]. exists key, n, x. auto.
  - destruct (IH H) as (key' & n' & x & Hin & Hx & Ht). exists key', n', x. auto.
Qed.

Lemma displayed_of_keys readings slots (i : string) :
  In i (map fst (displayed_of readings slots)) -> In i (map slot_id slots).
Proof.
  intros H. apply in_map_iff in H as ([j t] & <- & Hin).
  apply displayed_of_In in Hin as (key & n & x & Hin & _).
  apply in_map_iff. exists (key, j, n). auto.
Qed.

Lemma displayed_of_NoDup readings slots :
  NoDup (map slot_id slots) -> NoDup (map fst (displayed_of readings slots)).
Proof.
  induction slots as [|[[key j] n] r IH]; simpl; intros H; [constructor|].
  inversion H as [|? ? Hj Hr]; subst. rewrite map_app.
  destruct (field readings key); simpl; auto.
  constructor; [|auto]. intros Hin. apply Hj. apply displayed_of_keys in Hin. exact Hin.
Qed.

Lemma displayed_of_get readings slots (key i : string) (n : nat) :
  NoDup (map slot_id slots) -> In (key, i, n) slots ->
  obj_get (displayed_of readings slots) i
  = match field readings key with
    | JNum x => Some (Number_toFixed x n)
    | _ => None
    end.
Proof.
  induction slots as [|[[key' j] n'] r IH]; simpl; [intros _ []|].
  intros Hnd Hin. inversion Hnd as [|? ? Hj Hr]; subst.
  assert (Hskip : forall us, j <> i ->
            obj_get (match field readings key' with
                     | JNum x => [(j, Number_toFixed x n')]
                     | _ => []
                     end ++ us)%list i = obj_get us i).
  { intros us Hne. destruct (field readings key'); simpl; try reflexivity.
    destruct (String.eqb_spec j i); [contradiction | reflexivity]. }
  destruct Hin as [[= -> -> ->]|Hin].
  - assert (Hnone : obj_get (displayed_of readings r) i = None).
    { destruct (obj_get (displayed_of readings r) i) eqn:E; [|reflexivity].
      exfalso. apply Hj. eapply displayed_of_keys, obj_get_Some_key, E. }
    destruct (field readings key); simpl; rewrite ?String.eqb_refl; auto.
  - rewrite Hskip; [apply IH; assumption|].
    intros ->. apply Hj. apply in_map_iff. exists (key, i, n). auto.
Qed.
End Displayed.

Lemma displays_NoDup (d : string) : NoDup (map slot_id (displays d)).
Proof.
  unfold displays. change (range 0 3) with [0; 1; 2; 3]. cbn [flat_map app map slot_id fst snd].
  change (decimal 0) with "0". change (decimal 1) with "1".
  change (decimal 2) with "2". change (decimal 3) with "3".
  repeat (constructor;
          [ cbn [In]; intros H;
            repeat (destruct H as [H|H];
                    [ cbn [append] in H;
                      first [ discriminate H
                            | injection H as H; apply string_app_inv_head in H; discriminate H ]
                    | ]);
            exact H
          | ]).
  constructor.
Qed.

Lemma displays_In (d key i : string) (n : nat) :
  In (key, i, n) (displays d) <->
  exists ch, 0 <= ch <= 3
    /\ ((key, i, n) = ("voltage_" ++ decimal ch, "voltage-" ++ d ++ "-" ++ decimal ch, 1%nat)
        \/ (key, i, n) = ("current_" ++ decimal ch, "current-" ++ d ++ "-" ++ decimal ch, 3%nat)).
Proof.
  unfold displays. rewrite in_flat_map. split.
  - intros (ch & Hr & [H|[H|[]]]); apply In_range in Hr; exists ch; auto.
  - intros (ch & Hr & H). exists ch. split.
    + unfold range. apply in_map_iff. exists (Z.to_nat ch). split; [lia|]. apply in_seq. lia.
    + destruct H as [H|H]; rewrite H; cbn [In]; auto.
Qed.

(** C5.  On a [readings_update] event whose fields [voltage_<ch>] and
    [current_<ch>], for the channels 0 to 3, are numbers where present:
    the handler returns normally and touches only the document; for
    each channel 0 to 3, the element found under the id of the voltage
    display gets the text [toFixed(1)] of [voltage_<ch>] when the field
    is present and is left as it is when the field is absent, and the
    same holds for the current display with [toFixed(3)]; every element
    of the document is left as it is unless it carries the id of a
    display of a channel 0 to 3 whose field is present, and then only
    its text changes.  Fields of other channels are not read: two
    readings that agree on the eight fields have the same effect. *)
Theorem readings_update_displays {B : Builtins}
  (d : string) (readings readings' : object jsval) (s : state) :
  ((forall ch, 0 <= ch <= 3 ->
      field readings' ("voltage_" ++ decimal ch) = field readings ("voltage_" ++ decimal ch)
      /\ field readings' ("current_" ++ decimal ch) = field readings ("current_" ++ decimal ch)) ->
   on_event MHV4 (readings_update d readings') s = on_event MHV4 (readings_update d readings) s)
  /\ ((forall ch, 0 <= ch <= 3 ->
         absent_or_number (field readings ("voltage_" ++ decimal ch))
         /\ absent_or_number (field readings ("current_" ++ decimal ch))) ->
      let r := on_event MHV4 (readings_update d readings) s in
      fst r = Ok tt
      /\ modules (snd r) = modules s
      /\ currentModuleId (snd r) = currentModuleId s
      /\ trace (snd r) = trace s
      /\ (forall ch, 0 <= ch <= 3 ->
            getElementById ("voltage-" ++ d ++ "-" ++ decimal ch) (document (snd r))
            = match field readings ("voltage_" ++ decimal ch) with
              | JNum x =>
                  option_map (with_textContent (Number_toFixed x 1))
                    (getElementById ("voltage-" ++ d ++ "-" ++ decimal ch) (document s))
              | _ => getElementById ("voltage-" ++ d ++ "-" ++ decimal ch) (document s)
              end
            /\ getElementById ("current-" ++ d ++ "-" ++ decimal ch) (document (snd r))
               = match field readings ("current_" ++ decimal ch) with
                 | JNum x =>
                     option_map (with_textContent (Number_toFixed x 3))
                       (getElementById ("current-" ++ d ++ "-" ++ decimal ch) (document s))
                 | _ => getElementById ("current-" ++ d ++ "-" ++ decimal ch) (document s)
                 end)
      /\ Forall2
           (fun e e' =>
              e' = e
              \/ exists ch x, 0 <= ch <= 3
                   /\ ((el_id e = "voltage-" ++ d ++ "-" ++ decimal ch
                        /\ field readings ("voltage_" ++ decimal ch) = JNum x
                        /\ e' = with_textContent (Number_toFixed x 1) e)
                       \/ (el_id e = "current-" ++ d ++ "-" ++ decimal ch
                           /\ field readings ("current_" ++ decimal ch) = JNum x
                           /\ e' = with_textContent (Number_toFixed x 3) e)))
           (elements (document s)) (elements (document (snd r)))).
Proof.
  split.
  - intros H. cbn [on_event]. unfold MHV4_events.updateModuleReadings.
    change (range 0 3) with [0; 1; 2; 3]. unfold for_each. cbn [fold_right].
    destruct (H 0 ltac:(lia)) as [-> ->]. destruct (H 1 ltac:(lia)) as [-> ->].
    destruct (H 2 ltac:(lia)) as [-> ->]. destruct (H 3 ltac:(lia)) as [-> ->].
    reflexivity.
  - intros H r. subst r. cbn [on_event].
    destruct (updateModuleReadings_run d readings s) as (doc' & -> & Hdoc).
    { intros key i n Hin. apply displays_In in Hin as (ch & Hch & [[= -> -> ->]|[= -> -> ->]]);
        apply (H ch Hch). }
    cbn [fst snd document modules currentModuleId trace].
    repeat (split; [reflexivity|]). split.
    + intros ch Hch. rewrite !getElementById_elements, Hdoc.
      rewrite !write_texts_find by apply displayed_of_NoDup, displays_NoDup.
      rewrite (displayed_of_get readings (displays d) ("voltage_" ++ decimal ch) _ 1%nat);
        [|apply displays_NoDup | apply displays_In; exists ch; auto].
      rewrite (displayed_of_get readings (displays d) ("current_" ++ decimal ch) _ 3%nat);
        [|apply displays_NoDup | apply displays_In; exists ch; auto].
      split.
      * destruct (field readings ("voltage_" ++ decimal ch)); reflexivity.
      * destruct (field readings ("current_" ++ decimal ch)); reflexivity.
    + rewrite Hdoc. eapply Forall2_impl; [|apply write_texts_frame].
      intros e e' [->|(t & Hin & ->)]; [left; reflexivity|]. right.
      apply displayed_of_In in Hin as (key & n & x & Hin & Hx & ->).
      apply displays_In in Hin as (ch & Hch & [[= -> Hid ->]|[= -> Hid ->]]);
        exists ch, x; (split; [exact Hch|]); [left|right]; auto.
Qed.

(** ** Initial values of the pulse-shaping client *)

Lemma eqb_false_sym (a b : string) : a <> b -> (b =? a)%string = false.
Proof. intros H. apply String.eqb_neq. congruence. Qed.

Section InitialValues.
Context {B : Builtins}.

Lemma set_input_spec (i : string) (v : jsval) (s : state) :
  exists doc',
    set_input i v s
    = (Ok tt, mkState doc' (modules s) (currentModuleId s) (next_ref s) (trace s))
    /\ elements doc' = replace_first (has_id i) (set_value_of v) (elements (document s)).
Proof.
  unfold set_input. run_monad. eexists. split; [reflexivity|]. apply modify_first_elements.
Qed.

Lemma set_check_spec (i : string) (v : jsval) (s : state) :
  exists doc',
    set_check i v s
    = (Ok tt, mkState doc' (modules s) (currentModuleId s) (next_ref s) (trace s))
    /\ elements doc'
       = replace_first (has_id i) (with_checked (ToBoolean v)) (elements (document s)).
Proof.
  unfold set_check. run_monad. eexists. split; [reflexivity|]. apply modify_first_elements.
Qed.

Lemma set_text_spec (i : string) (v : jsval) (s : state) :
  (getElementById i (document s) = None /\ set_text i v s = (Throw TypeError, s))
  \/ exists doc',
       set_text i v s
       = (Ok tt, mkState doc' (modules s) (currentModuleId s) (next_ref s) (trace s))
       /\ elements doc'
          = replace_first (has_id i) (with_textContent (ToTextContent v))
              (elements (document s)).
Proof.
  unfold set_text. run_monad.
  pose proof (update_first_elements (has_id i) (with_textContent (ToTextContent v))
                (document s)) as H.
  destruct (update_first (has_id i) (on_element (with_textContent (ToTextContent v)))
              (document s)) as [doc'|]; simpl in H.
  - right. exists doc'. split; [reflexivity | apply H].
  - left. split; [|reflexivity]. rewrite getElementById_elements.
    destruct (find (has_id i) (elements (document s))) eqn:E; [|reflexivity].
    apply find_some in E as [Hin Hp].
    assert (existsb (has_id i) (elements (document s)) = true)
      by (apply existsb_exists; eauto). congruence.
Qed.
End InitialValues.

Section InitialValuesRun.
Context {B : Builtins}.

Ltac table_hit := cbn [obj_get String.eqb Ascii.eqb Bool.eqb write_fields fold_left].

Ltac one_input :=
  table_hit;
  match goal with
  | |- context [set_input ?i ?v ?s] =>
      destruct (set_input_spec i v s) as (? & -> & ?)
  | |- context [set_check ?i ?v ?s] =>
      destruct (set_check_spec i v s) as (? & -> & ?)
  end;
  eexists _, (Ok tt); split; [reflexivity|]; split; [eassumption | auto].

(** [updateInitialValues] writes the fields that the event names, if
    the panel of the device is in the document. *)
Lemma updateInitialValues_run (d : string) (data : object jsval) (s : state) :
  exists doc' o,
    MSCF16_events.updateInitialValues d data s
    = (o, mkState doc' (modules s) (currentModuleId s) (next_ref s) (trace s))
    /\ elements doc'
       = match querySelector (device_tab_of d) (document s) with
         | None => elements (document s)
         | Some _ => write_fields (named_fields d data) (elements (document s))
         end
    /\ (o = Ok tt
        \/ (o = Throw TypeError /\ field data "type" = JStr "version"
            /\ getElementById ("version-" ++ d) (document s) = None)).
Proof.
  unfold MSCF16_events.updateInitialValues. run_monad.
  destruct (querySelector (device_tab_of d) (document s)) as [panel|].
  2: { exists (document s), (Ok tt). destruct s; auto. }
  unfold named_fields.
  destruct (field data "type") as [| | | |type] eqn:Htype;
    try (exists (document s), (Ok tt); destruct s; cbn; auto; fail).
  cbn [obj_get].
  destruct (String.eqb_spec type "version") as [->|Hne].
  { table_hit.
    destruct (set_text_spec ("version-" ++ d) (field data "value") s)
      as [[Hnone ->]|(doc' & -> & Hel)].
    - exists (document s), (Throw TypeError). split; [destruct s; reflexivity|].
      split; [|auto].
      rewrite getElementById_elements in Hnone. symmetry. apply replace_first_none.
      destruct (existsb (has_id ("version-" ++ d)) (elements (document s))) eqn:E;
        [|reflexivity].
      apply existsb_exists in E as (x & Hx & Hp).
      eapply find_none in Hnone; [|exact Hx]. congruence.
    - exists doc', (Ok tt). auto. }
  rewrite (eqb_false_sym _ _ Hne). clear Hne.
  repeat
    match goal with
    | |- context [String.eqb type ?k] =>
        destruct (String.eqb_spec type k) as [->|Hne];
        [ first
            [ one_input
            | (* multiplicity *)
              table_hit; run_monad;
              match goal with
              | |- context [set_input ?i ?v s] =>
                  destruct (set_input_spec i v s) as (doc1 & -> & Hel1)
              end;
              cbn [fst snd document modules currentModuleId next_ref trace];
              match goal with
              | |- context [set_input ?i ?v ?s1] =>
                  destruct (set_input_spec i v s1) as (doc2 & -> & Hel2)
              end;
              cbn [fst snd document modules currentModuleId next_ref trace] in *;
              exists doc2, (Ok tt); rewrite Hel2, Hel1; auto ]
        | rewrite (eqb_false_sym _ _ Hne); clear Hne ]
    end.
  exists (document s), (Ok tt). destruct s; auto.
Qed.
End InitialValuesRun.

Lemma string_length_append (a b : string) :
  String.length (a ++ b) = (String.length a + String.length b)%nat.
Proof. induction a as [|c a IH]; simpl; [reflexivity | rewrite IH; reflexivity]. Qed.

(** The id of the input of a member is not the id of the common input. *)
Lemma member_common_distinct (p d k : string) :
  (String.length k < 6)%nat -> (p ++ d ++ "-" ++ k)%string <> (p ++ "common-" ++ d)%string.
Proof.
  intros Hk H. apply string_app_inv_head in H. apply (f_equal String.length) in H.
  rewrite !string_length_append in H. simpl in H. lia.
Qed.

Lemma decimal_short (k : Z) : 0 <= k <= 16 -> (String.length (decimal k) < 6)%nat.
Proof.
  intros H.
  assert (Hk : In k (range 0 16)).
  { unfold range. apply in_map_iff. exists (Z.to_nat k). split; [lia|]. apply in_seq. lia. }
  vm_compute in Hk.
  repeat (destruct Hk as [<-|Hk]; [vm_compute; lia|]). destruct Hk.
Qed.

Lemma Forall2_compose {A : Type} (R1 R2 : A -> A -> Prop) (a b c : list A) :
  Forall2 R1 a b -> Forall2 R2 b c -> Forall2 (fun x z => exists y, R1 x y /\ R2 y z) a c.
Proof.
  intros H. revert c. induction H; intros c Hc; inversion Hc; subst; constructor; eauto.
Qed.

Lemma write_fields_frame (us : list (string * (element -> element))) (l : list element) :
  Forall2 (fun e e' => e' = e \/ In (el_id e) (map fst us)) l (write_fields us l).
Proof.
  unfold write_fields. revert l.
  induction us as [|[i g] us IH]; intros l; simpl.
  - apply Forall2_same. auto.
  - eapply Forall2_impl; [|eapply Forall2_compose; [|apply IH]].
    2: { apply (Forall2_replace_first (fun e e' => e' = e \/ (el_id e = i /\ e' = g e))).
         - auto.
         - intros x Hx. right. split; [apply String.eqb_eq, Hx | reflexivity]. }
    simpl. intros e e' (y & [->|[Hi ->]] & [->|Hin]); auto.
Qed.

Lemma named_fields_count {B : Builtins} (d : string) (data : object jsval) :
  (length (named_fields d data) <= 2)%nat
  /\ (field data "type" <> JStr "multiplicity" -> (length (named_fields d data) <= 1)%nat).
Proof.
  unfold named_fields.
  destruct (field data "type") as [| | | |type]; try (simpl; auto; fail).
  cbn [obj_get].
  repeat
    match goal with
    | |- context [String.eqb ?k type] =>
        destruct (String.eqb_spec k type) as [<-|Hne];
        [ (split; [simpl; lia | intros H; simpl; first [lia | congruence]])
        | clear Hne ]
    end.
  simpl. auto.
Qed.

Lemma named_fields_unlisted {B : Builtins} (d : string) (data : object jsval) (type : string) :
  field data "type" = JStr type -> ~ In type initial_value_types -> named_fields d data = [].
Proof.
  intros H Hnot. unfold named_fields. rewrite H. cbn [obj_get].
  repeat
    match goal with
    | |- context [String.eqb ?k type] =>
        destruct (String.eqb_spec k type) as [E|_];
        [ exfalso; apply Hnot; rewrite <- E; vm_compute; tauto | ]
    end.
  reflexivity.
Qed.

(** C4, as the code has it.  An [initial_values] event changes nothing
    but the document.  If the panel of the device is in the document,
    the elements change as by writing, for each field that the type
    of the event names, the first element that carries its id; without
    the panel nothing changes.  So every element stays as it is unless
    it carries the id of a named field.  The type [threshold] names the
    input of the channel of the event and [threshold_common] the common
    input, and likewise for [pz], [shaping_time] and [gain]; the id of
    the input of a channel 1 to 16 or of a group differs from the id of
    the common input.  A type names at most one field, except
    [multiplicity], which names the two inputs [mult-hi] and [mult-lo];
    a type without a case names none. *)
Theorem initial_values_fields {B : Builtins}
  (d : string) (data : object jsval) (s : state) (k : Z) (type : string) :
  let r := on_event MSCF16 (initial_values d data) s in
  let names := map fst (named_fields d data) in
  let member prefix key := [prefix ++ d ++ "-" ++ ToString (field data key)] in
  (modules (snd r) = modules s /\ currentModuleId (snd r) = currentModuleId s
   /\ trace (snd r) = trace s)
  /\ elements (document (snd r))
     = match querySelector (device_tab_of d) (document s) with
       | None => elements (document s)
       | Some _ => write_fields (named_fields d data) (elements (document s))
       end
  /\ Forall2 (fun e e' => e' = e \/ In (el_id e) names)
       (elements (document s)) (elements (document (snd r)))
  /\ (field data "type" = JStr "threshold" -> names = member "thresh-" "channel")
  /\ (field data "type" = JStr "threshold_common" -> names = ["thresh-common-" ++ d])
  /\ (field data "type" = JStr "pz" -> names = member "pz-" "channel")
  /\ (field data "type" = JStr "pz_common" -> names = ["pz-common-" ++ d])
  /\ (field data "type" = JStr "shaping_time" -> names = member "shaping-" "group")
  /\ (field data "type" = JStr "shaping_time_common" -> names = ["shaping-common-" ++ d])
  /\ (field data "type" = JStr "gain" -> names = member "gain-" "group")
  /\ (field data "type" = JStr "gain_common" -> names = ["gain-common-" ++ d])
  /\ (field data "type" = JStr "multiplicity" -> names = ["mult-hi-" ++ d; "mult-lo-" ++ d])
  /\ (field data "type" <> JStr "multiplicity" -> (length names <= 1)%nat)
  /\ (field data "type" = JStr type -> ~ In type initial_value_types -> names = [])
  /\ (1 <= k <= 16 ->
      "thresh-" ++ d ++ "-" ++ decimal k <> "thresh-common-" ++ d
      /\ "pz-" ++ d ++ "-" ++ decimal k <> "pz-common-" ++ d
      /\ "shaping-" ++ d ++ "-" ++ decimal k <> "shaping-common-" ++ d
      /\ "gain-" ++ d ++ "-" ++ decimal k <> "gain-common-" ++ d).
Proof.
  intros r names member. subst r names member. cbn [on_event].
  destruct (updateInitialValues_run d data s) as (doc' & o & -> & Hel & _).
  destruct (named_fields_count d data) as (_ & Hone).
  cbn [fst snd document modules currentModuleId trace].
  split; [auto|]. split; [exact Hel|]. split.
  { rewrite Hel. destruct (querySelector (device_tab_of d) (document s)).
    - apply write_fields_frame.
    - apply Forall2_same. auto. }
  repeat (split; [intros H; unfold named_fields; rewrite H; reflexivity|]).
  split; [rewrite length_map; exact Hone|].
  split; [intros H Hnot; rewrite (named_fields_unlisted d data type H Hnot); reflexivity|].
  intros Hk. assert (Hs : (String.length (decimal k) < 6)%nat) by (apply decimal_short; lia).
  repeat split.
  - apply (member_common_distinct "thresh-" d _ Hs).
  - apply (member_common_distinct "pz-" d _ Hs).
  - apply (member_common_distinct "shaping-" d _ Hs).
  - apply (member_common_distinct "gain-" d _ Hs).
Qed.

(** The claim C4 has every event change exactly one field: on the
    sample page a [multiplicity] event changes two, and a [threshold]
    event for a device without panel changes none. *)
Lemma multiplicity_event_writes_two_fields :
  let s := sample_state MSCF16 in
  let after_event data :=
    snd (on_event (B := sample_builtins) MSCF16 (initial_values "COM3" data) s) in
  changed_fields (elements (document s))
    (elements (document (after_event [("type", JStr "multiplicity");
                                      ("hi", JNum (Int 7)); ("lo", JNum (Int 3))])))
  = ["mult-hi-COM3"; "mult-lo-COM3"]
  /\ changed_fields (elements (document s))
       (elements (document (after_event [("type", JStr "threshold");
                                         ("channel", JNum (Int 5)); ("value", JNum (Int 200))])))
     = ["thresh-COM3-5"]
  /\ changed_fields (elements (document s))
       (elements (document
          (snd (on_event (B := sample_builtins) MSCF16
                  (initial_values "COM9" [("type", JStr "threshold");
                                          ("channel", JNum (Int 5)); ("value", JNum (Int 200))])
                  s))))
     = [].
Proof. repeat split; vm_compute; reflexivity. Qed.

(** ** The theorems at work on the sample page *)

Lemma setThreshold_command_witness :
  exists input,
    getElementById "thresh-COM3-5" (document (sample_state MSCF16)) = Some input
    /\ value input = "128"
    /\ setThreshold "COM3" 5 (sample_state MSCF16)
       = (Ok tt, after (sample_state MSCF16)
                   (POST_command "COM3" "set_threshold"
                      [("channel", JNum (Int 5)); ("value", JNum (parseInt (value input)))])).
Proof.
  eexists. split; [vm_compute; reflexivity|]. split; [reflexivity|].
  apply (proj1 (proj2 (setThreshold_command "COM3" 5 (sample_state MSCF16) _))).
  - lia.
  - vm_compute. reflexivity.
Defined.


Lemma mode_checkbox_command_witness :
  let this := mkElement CHECKBOX "single-mode-COM3" ["mode-checkbox-input"]
                [("data-mode", "single_mode")] "" true "" []
                [("change", H_mode "COM3")] None in
  css_name "COM3" = true
  /\ dispatchEvent (B := sample_builtins) "change" this (sample_state MSCF16)
     = (Ok tt, after (sample_state MSCF16)
                 (POST_command "COM3" "set_single_mode" [("enable", JBool true)])).
Proof.
  intros this. split; [reflexivity|].
  apply (proj2 (proj2 (proj2 (mode_checkbox_command (B := sample_builtins) "COM3"
                                (sample_state MSCF16) this "single_mode" eq_refl))));
    reflexivity.
Defined.

Lemma initial_values_fields_witness :
  let data := [("type", JStr "threshold"); ("channel", JNum (Int 5));
               ("value", JNum (Int 200))] in
  map fst (named_fields (B := sample_builtins) "COM3" data) = ["thresh-COM3-5"]
  /\ "thresh-COM3-5" <> "thresh-common-COM3"
  /\ map fst (named_fields (B := sample_builtins) "COM3" [("type", JStr "reset")]) = [].
Proof.
  intros data.
  destruct (initial_values_fields (B := sample_builtins) "COM3" data (sample_state MSCF16)
              5 "threshold")
    as (_ & _ & _ & Hthreshold & _ & _ & _ & _ & _ & _ & _ & _ & _ & _ & Hdiff).
  destruct (initial_values_fields (B := sample_builtins) "COM3" [("type", JStr "reset")]
              (sample_state MSCF16) 5 "reset")
    as (_ & _ & _ & _ & _ & _ & _ & _ & _ & _ & _ & _ & _ & Hnone & _).
  split; [|split].
  - apply Hthreshold. reflexivity.
  - apply Hdiff. lia.
  - apply Hnone; [reflexivity|]. vm_compute. intuition discriminate.
Defined.

Lemma readings_update_displays_witness :
  let readings := [("voltage_0", JNum (Real (2469 # 20))); ("current_2", JNum (Int 5))] in
  let s' := snd (on_event (B := sample_builtins) MHV4 (readings_update "COM3" readings)
                   (sample_state MHV4)) in
  option_map textContent (getElementById "voltage-COM3-0" (document s')) = Some "123.5"
  /\ option_map textContent (getElementById "current-COM3-2" (document s')) = Some "5.000"
  /\ option_map textContent (getElementById "voltage-COM3-2" (document s')) = Some "000.0".
Proof.
  intros readings s'. subst s'.
  destruct (readings_update_displays (B := sample_builtins) "COM3" readings readings
              (sample_state MHV4)) as [_ H].
  destruct H as (_ & _ & _ & _ & Hshow & _).
  { intros ch Hch.
    assert (Hc : ch = 0 \/ ch = 1 \/ ch = 2 \/ ch = 3) by lia.
    destruct Hc as [-> | [-> | [-> | ->]]]; split; vm_compute; eauto. }
  cbv zeta in Hshow.
  destruct (Hshow 0 ltac:(lia)) as [V0 _]. destruct (Hshow 2 ltac:(lia)) as [V2 C2].
  change ("voltage-" ++ "COM3" ++ "-" ++ decimal 0) with "voltage-COM3-0" in V0.
  change ("voltage-" ++ "COM3" ++ "-" ++ decimal 2) with "voltage-COM3-2" in V2.
  change ("current-" ++ "COM3" ++ "-" ++ decimal 2) with "current-COM3-2" in C2.
  rewrite V0, V2, C2. repeat split; vm_compute; reflexivity.
Defined.

Lemma setAutomaticPZ_command_witness :
  setAutomaticPZ "COM3" (sample_state MSCF16)
  = (Ok tt, after (sample_state MSCF16)
              (POST_command "COM3" "set_automatic_pz" [("channel", JNull)])).
Proof.
  eassert (E : getElementById "auto-pz-COM3" (document (sample_state MSCF16)) = Some _)
    by (vm_compute; reflexivity).
  destruct (proj2 (setAutomaticPZ_command "COM3" (sample_state MSCF16) _) E)
    as (channel & -> & Hnull & _).
  - left. reflexivity.
  - rewrite (proj2 Hnull eq_refl). reflexivity.
Defined.

Lemma one_module_per_identifier_witness :
  obj_get (modules (sample_state MHV4)) "COM3" = Some (mkModule "COM3" "COM3" 1 2)
  /\ addModule MHV4 "COM3" "COM3" (sample_state MHV4) = (Ok tt, sample_state MHV4).
Proof.
  assert (H : obj_get (modules (sample_state MHV4)) "COM3"
              = Some (mkModule "COM3" "COM3" 1 2)) by (vm_compute; reflexivity).
  split; [exact H|].
  exact (proj1 (one_module_per_identifier MHV4 "COM3" "COM3" (sample_state MHV4) _ [] []) H).
Defined.


(** ** Runs on the sample page *)

Example parseInt_values :
  map parseInt ["12"; " -7x"; ""; "0x1f"; "1e3"; "abc"; "+08"]
  = [Int 12; Int (-7); NaN; Int 31; Int 1; NaN; Int 8].
Proof. reflexivity. Qed.

Example parseFloat_exact_values :
  map parseFloat_exact ["12"; "1.5"; "-0.25"; "1e3"; "abc"; ".5"; "28.5"]
  = [Int 12; Real (3 # 2); Real (-1 # 4); Int 1000; NaN; Real (1 # 2); Real (57 # 2)].
Proof. vm_compute. reflexivity. Qed.

Example Object_keys_order :
  Object_keys [("COM3", 1); ("10", 2); ("/dev/ttyUSB0", 3); ("2", 4); ("02", 5)]
  = ["2"; "10"; "COM3"; "/dev/ttyUSB0"; "02"].
Proof. reflexivity. Qed.

(** The panel of a new module, its tab and the request for the version. *)
Example addModule_on_sample_page :
  let s := sample_state MSCF16 in
  modules s = [("COM3", mkModule "COM3" "COM3" 1 2)]
  /\ currentModuleId s = Some "COM3"
  /\ trace s = [POST_command "COM3" "get_version" []]
  /\ map textContent (filter (has_class "tab-button") (elements (document s))) = ["Device 1"]
  /\ length (filter (has_class "threshold-input") (elements (document s))) = 17%nat.
Proof. vm_compute. repeat split; reflexivity. Qed.

(** With the endpoint path of a Linux host the selectors of
    [initializeControls] are ill-formed: the module is registered and
    shown, no listener is attached and no version is requested. *)
Example addModule_endpoint_path :
  let r := addModule MSCF16 "/dev/ttyUSB0" "/dev/ttyUSB0" (initial_state sample_page) in
  fst r = Throw SyntaxError
  /\ own_keys (modules (snd r)) = ["/dev/ttyUSB0"]
  /\ currentModuleId (snd r) = Some "/dev/ttyUSB0"
  /\ trace (snd r) = []
  /\ filter (fun e => negb (length (listeners e) =? 0)%nat)
       (filter (has_class "mode-checkbox-input") (elements (document (snd r)))) = [].
Proof. vm_compute. repeat split; reflexivity. Qed.

(** The user picks NTC1 for channel 2, then 100 V/s, then Off. *)
Example high_voltage_selectors :
  let ntc2 e := has_class "ntc-combo" e && has_attribute "data-channel" "2" e in
  let run := (user_change (B := sample_builtins) ntc2 (assign_value "2") ;;
              user_change (B := sample_builtins) (has_id "ramp-speed-COM3") (assign_value "2") ;;
              user_change (B := sample_builtins) ntc2 (assign_value "0")) in
  trace (snd (run (sample_state MHV4)))
  = [ POST_command "COM3" "set_temperature_compensation"
        [("channel", JNum (Int 2)); ("ntc_channel", JNum (Int 1))];
      POST_command "COM3" "set_ramp_speed" [("ramp_speed_index", JNum (Int 2))];
      POST_command "COM3" "set_temperature_compensation"
        [("channel", JNum (Int 2)); ("ntc_channel", JNull)] ].
Proof. vm_compute. reflexivity. Qed.

(** The user picks CH05 for the automatic PZ and presses Set, then
    applies the common threshold. *)
Example pulse_shaping_buttons :
  let run := (update_document
                (modify_first (has_id "auto-pz-COM3") (on_element (assign_value "5"))) ;;
              user_click (B := sample_builtins) (has_class "auto-pz-btn") ;;
              user_click (B := sample_builtins) (has_class "common-threshold-btn")) in
  trace (snd (run (sample_state MSCF16)))
  = [ POST_command "COM3" "get_version" [];
      POST_command "COM3" "set_automatic_pz" [("channel", JNum (Int 5))];
      POST_command "COM3" "set_threshold"
        [("channel", JNum (Int 17)); ("value", JNum (Int 128))] ].
Proof. vm_compute. reflexivity. Qed.

(** Two modules; the current one goes: the other becomes current. *)
Example device_disconnected_switches :
  let s := do_calls MHV4 [Add "COM3" "COM3"; Add "COM4" "COM4"] (initial_state sample_page) in
  let s' := snd (on_event (B := sample_builtins) MHV4 (device_disconnected "COM4") s) in
  currentModuleId s = Some "COM4"
  /\ own_keys (modules s') = ["COM3"]
  /\ currentModuleId s' = Some "COM3"
  /\ map (fun e => (textContent e, classList e))
       (filter (has_class "tab-button") (elements (document s')))
     = [("Module 1", ["tab-button"; "active"])]
  /\ getElementById "module-COM4" (document s') = None.
Proof. vm_compute. repeat split; reflexivity. Qed.

(** Above 2^53 [parseInt] gives the nearest Number, a tie going to the
    even neighbour. *)
Example parseInt_rounds_to_a_Number :
  map parseInt ["9007199254740992"; "9007199254740993"; "9007199254740995";
                "-9007199254740993"; "0x20000000000001"]
  = [Int 9007199254740992; Int 9007199254740992; Int 9007199254740996;
     Int (-9007199254740992); Int 9007199254740992].
Proof. vm_compute. reflexivity. Qed.

(** How the identifier is read in [#ramp-speed-<deviceId>]. *)
Example id_selector_values :
  map id_selector ["COM3"; "a.b"; "a#b"; "/dev/ttyUSB0"; "/dev/cu.usbserial-1410";
                   "a."; "a.1"; "a b"; "a:b"; "a/*b"]
  = [Selects (mkCompound "COM3" [] []); Selects (mkCompound "a" [] ["b"]);
     Selects (mkCompound "a" ["b"] []); Ill_formed; Ill_formed; Ill_formed; Ill_formed;
     Unparsed; Unparsed; Unparsed].
Proof. vm_compute. reflexivity. Qed.

(** A module named [a.b]: [#single-mode-a.b] asks for the id
    [single-mode-a] and the class [b], which no element has.
    [addModule] returns normally, no mode checkbox gets a listener, and
    the version is asked for. *)
Example addModule_dotted_identifier_MSCF16 :
  let r := addModule MSCF16 "a.b" "a.b" (initial_state sample_page) in
  fst r = Ok tt
  /\ map (fun e => (el_id e, listeners e))
       (filter (has_class "mode-checkbox-input") (elements (document (snd r))))
     = [("single-mode-a.b", []); ("ecl-delay-a.b", []); ("blr-mode-a.b", []);
        ("rc-mode-a.b", [])]
  /\ trace (snd r) = [POST_command "a.b" "get_version" []].
Proof. vm_compute. repeat split; reflexivity. Qed.

(** In the high-voltage client the same identifier leaves the ramp
    speed select without a listener, and the controls of the channels
    get theirs. *)
Example addModule_dotted_identifier_MHV4 :
  let r := addModule MHV4 "a.b" "a.b" (initial_state sample_page) in
  fst r = Ok tt
  /\ map (fun e => (el_id e, listeners e))
       (filter (has_class "ramp-speed-select") (elements (document (snd r))))
     = [("ramp-speed-a.b", [])]
  /\ map (fun e => (getAttribute "data-channel" e, listeners e))
       (filter (has_class "ntc-combo") (elements (document (snd r))))
     = map (fun ch => (Some (decimal ch), [("change", H_ntc "a.b" ch)])) (range 0 3).
Proof. vm_compute. repeat split; reflexivity. Qed.

(** A name that [modules] inherits is taken for a module that is
    there: [addModule] returns at once. *)
Example addModule_inherited_name :
  addModule MHV4 "constructor" "constructor" (initial_state sample_page)
  = (Ok tt, initial_state sample_page).
Proof. reflexivity. Qed.

(** * Further properties of the scripts *)

(** ** What a handler of a control does *)




Lemma set_buttons_panel (d : string) :
  set_buttons (Markup_MSCF16.createModulePanel d)
  = (map (fun ch => (("thresh-" ++ d ++ "-" ++ decimal ch)%string, H_setThreshold d ch))
       (range 1 16)
     ++ [(("thresh-common-" ++ d)%string, H_setThreshold d 17)]
     ++ map (fun ch => (("pz-" ++ d ++ "-" ++ decimal ch)%string, H_setPZ d ch)) (range 1 16)
     ++ [(("pz-common-" ++ d)%string, H_setPZ d 17)]
     ++ map (fun g => (("shaping-" ++ d ++ "-" ++ decimal g)%string, H_setShapingTime d g))
          (range 1 4)
     ++ [(("shaping-common-" ++ d)%string, H_setShapingTime d 5)]
     ++ map (fun g => (("gain-" ++ d ++ "-" ++ decimal g)%string, H_setGain d g)) (range 1 4)
     ++ [(("gain-common-" ++ d)%string, H_setGain d 5)]
     ++ [ (("coincidence-" ++ d)%string, H_setCoincidenceWindow d);
          (("shaper-offset-" ++ d)%string, H_setShaperOffset d);
          (("threshold-offset-" ++ d)%string, H_setThresholdOffset d);
          (("blr-threshold-" ++ d)%string, H_setBLRThreshold d);
          (("mult-hi-" ++ d)%string, H_setMultiplicity d);
          (("mult-lo-" ++ d)%string, H_setMultiplicity d) ])%list.
Proof. reflexivity. Qed.

Lemma set_buttons_all (d : string) :
  map fst (set_buttons (Markup_MSCF16.createModulePanel d))
  = map el_id (filter is_number_input (elements [Markup_MSCF16.createModulePanel d])).
Proof. reflexivity. Qed.

Lemma set_button_run {B : Builtins} (d i : string) (h : handler) (this input : element)
  (s : state) :
  In (i, h) (set_buttons (Markup_MSCF16.createModulePanel d)) ->
  getElementById i (document s) = Some input ->
  (exists command params key,
     run_handler h this s = (Ok tt, after s (POST_command d command params))
     /\ In (key, JNum (parseInt (value input))) params)
  \/ (h = H_setMultiplicity d /\ run_handler h this s = (Throw TypeError, s)).
Proof.
  intros Hin Hget. rewrite set_buttons_panel in Hin.
  repeat (apply in_app_or in Hin as [Hin|Hin]);
    first [ apply in_map_iff in Hin as (k & [= <- <-] & Hk); apply In_range in Hk
          | cbn [In] in Hin; repeat (destruct Hin as [[= <- <-]|Hin]); try (destruct Hin) ].
  all: cbn [run_handler];
    unfold setThreshold, setPZ, setShapingTime, setGain, setCoincidenceWindow,
      setShaperOffset, setThresholdOffset, setBLRThreshold, setMultiplicity, value_of;
    run_monad.
  all: try (destruct (Z.eqb_spec k 17); [lia|]); try (destruct (Z.eqb_spec k 5); [lia|]);
    cbn [Z.eqb Pos.eqb]; cbn [append] in *; rewrite ?Hget.
  all: try (left; do 3 eexists; split; [reflexivity | cbn [In]; eauto]; fail).
  all: match goal with
       | |- context [getElementById ?j (document ?s0)] =>
           destruct (getElementById j (document s0)) as [other|]
       end;
    [ run_monad; rewrite ?Hget;
      first [ left; do 3 eexists; split; [reflexivity | cbn [In]; eauto]
            | match goal with
              | |- context [getElementById ?j (document ?s0)] =>
                  destruct (getElementById j (document s0));
                  [ left; do 3 eexists; split; [reflexivity | cbn [In]; eauto]
                  | right; split; reflexivity ]
              end ]
    | right; split; reflexivity ].
Qed.

(** X2.  Every number input of the panel of a pulse-shaping device has
    a Set button, and whenever the document holds an element under the
    id of such an input, the handler of its button sends a command to
    the device with the integer parsed from the value of that element
    as a parameter.  Only the button of the multiplicity borders, which
    reads two inputs, can fail, when the other input is missing. *)
Theorem set_button_sends_its_input {B : Builtins} (d : string) :
  map fst (set_buttons (Markup_MSCF16.createModulePanel d))
  = map el_id (filter is_number_input (elements [Markup_MSCF16.createModulePanel d]))
  /\ forall (i : string) (h : handler) (this input : element) (s : state),
       In (i, h) (set_buttons (Markup_MSCF16.createModulePanel d)) ->
       getElementById i (document s) = Some input ->
       (exists command params key,
          run_handler h this s = (Ok tt, after s (POST_command d command params))
          /\ In (key, JNum (parseInt (value input))) params)
       \/ (h = H_setMultiplicity d /\ run_handler h this s = (Throw TypeError, s)).
Proof.
  split; [reflexivity|]. intros i h this input s. apply set_button_run.
Qed.

Lemma range_In (a b k : Z) : a <= k <= b -> In k (range a b).
Proof.
  intros H. unfold range. apply in_map_iff. exists (Z.to_nat (k - a)). split; [lia|].
  apply in_seq. lia.
Qed.

(** The numeral of a small integer is accepted by a number input and
    reads back as the integer. *)
Lemma small_integer_numeral (v : Z) :
  0 <= v <= 255 -> valid_float (decimal v) = true /\ parseInt (decimal v) = Int v.
Proof.
  intros H.
  assert (Hall : forallb (fun k => valid_float (decimal k)
                                   && match parseInt (decimal k) with
                                      | Int z => z =? k
                                      | _ => false
                                      end) (range 0 255) = true)
    by (vm_compute; reflexivity).
  rewrite forallb_forall in Hall. specialize (Hall v (range_In 0 255 v H)).
  apply andb_true_iff in Hall as [Hv Hp]. split; [exact Hv|].
  destruct (parseInt (decimal v)); try discriminate. apply Z.eqb_eq in Hp. congruence.
Qed.

Lemma set_value_of_id {B : Builtins} (v : jsval) (e : element) :
  el_id (set_value_of v e) = el_id e.
Proof.
  unfold set_value_of, assign_value. destruct e as [k i c a x ch t o l r].
  destruct k; reflexivity.
Qed.

Lemma set_value_of_small {B : Builtins} (v : Z) (e : element) :
  0 <= v <= 255 -> tag e = NUMBER_INPUT -> value (set_value_of (JNum (Int v)) e) = decimal v.
Proof.
  intros Hv Ht. unfold set_value_of, assign_value. rewrite Ht.
  cbn [ToDOMString ToString Number_toString].
  replace (Z.abs v <=? 2 ^ 53) with true by (symmetry; apply Z.leb_le; lia).
  rewrite (proj1 (small_integer_numeral v Hv)). destruct e; reflexivity.
Qed.

(** X3.  Round trip of a setting of a pulse-shaping device: when an
    [initial_values] event names a number input of the panel and
    carries an integer from 0 to 255, and the document holds the panel
    and the input, then after the event the Set button of that input
    sends this very integer to the device. *)
Theorem initial_value_round_trip {B : Builtins}
  (d i : string) (h : handler) (data : object jsval) (v : Z)
  (this input : element) (panel : node) (s : state) :
  In (i, h) (set_buttons (Markup_MSCF16.createModulePanel d)) ->
  h <> H_setMultiplicity d ->
  named_fields d data = [(i, set_value_of (JNum (Int v)))] ->
  0 <= v <= 255 ->
  querySelector (device_tab_of d) (document s) = Some panel ->
  getElementById i (document s) = Some input ->
  tag input = NUMBER_INPUT ->
  let s' := snd (on_event MSCF16 (initial_values d data) s) in
  exists command params key,
    run_handler h this s' = (Ok tt, after s' (POST_command d command params))
    /\ In (key, JNum (Int v)) params.
Proof.
  intros Hin Hh Hnamed Hv Hpanel Hget Htag s'. subst s'. cbn [on_event].
  destruct (updateInitialValues_run d data s) as (doc' & o & -> & Hel & _).
  rewrite Hpanel, Hnamed in Hel. cbn [write_fields fold_left] in Hel.
  cbn [snd].
  assert (Hget' : getElementById i doc' = Some (set_value_of (JNum (Int v)) input)).
  { rewrite getElementById_elements, Hel, find_replace_first_same
      by (intros; apply set_value_of_id).
    rewrite <- getElementById_elements, Hget. reflexivity. }
  destruct (set_button_run d i h this _
              (mkState doc' (modules s) (currentModuleId s) (next_ref s) (trace s))
              Hin Hget')
    as [(command & params & key & Hrun & Hpar)|[Hm _]]; [|contradiction].
  exists command, params, key. split; [exact Hrun|].
  rewrite set_value_of_small, (proj2 (small_integer_numeral v Hv)) in Hpar by assumption.
  exact Hpar.
Qed.

(** ** The place of a rewriting in the document *)

Lemma find_append {A : Type} (q : A -> bool) (l1 l2 : list A) :
  find q (l1 ++ l2)%list = match find q l1 with Some x => Some x | None => find q l2 end.
Proof.
  induction l1 as [|x r IH]; simpl; [reflexivity|]. destruct (q x); [reflexivity | exact IH].
Qed.

Lemma querySelector_cons (p : element -> bool) (k : node) (r : list node) :
  querySelector p (k :: r)
  = match querySelector p [k] with Some n => Some n | None => querySelector p r end.
Proof.
  unfold querySelector, nodes. cbn [flat_map]. rewrite app_nil_r. apply find_append.
Qed.

Lemma querySelector_node (p : element -> bool) (e : element) (ks : list node) :
  querySelector p [Node e ks]
  = if p e then Some (Node e ks) else querySelector p ks.
Proof.
  unfold querySelector, nodes. cbn [flat_map subtree]. rewrite app_nil_r.
  cbn [find node_element]. reflexivity.
Qed.

Lemma querySelector_none_elements (p : element -> bool) (doc : list node) :
  querySelector p doc = None -> existsb p (elements doc) = false.
Proof.
  intros H. pose proof (querySelector_elements p doc) as E. rewrite H in E. simpl in E.
  destruct (existsb p (elements doc)) eqn:X; [|reflexivity].
  apply existsb_exists in X as (x & Hx & Hp).
  symmetry in E. eapply find_none in E; [|exact Hx]. congruence.
Qed.

Lemma rewrites_at_forest (p : element -> bool) (f : node -> node) (ks : list node) :
  Forall (fun k => rewrites_at p f [k]) ks -> rewrites_at p f ks.
Proof.
  induction 1 as [|k r Hk _ IH]; [reflexivity|].
  unfold rewrites_at in *. rewrite querySelector_cons.
  unfold update_first in *. cbn [first_some] in *.
  destruct (querySelector p [k]) as [n|] eqn:Qk.
  - destruct Hk as (a & b & doc' & Hel & Ha & Hup & Hel' & Hq).
    destruct (update_first_node p f k) as [k'|]; [|discriminate].
    injection Hup as <-.
    exists a, (b ++ elements r)%list, (k' :: r).
    rewrite (elements_split k r), (elements_split k' r), Hel, Hel', <- !app_assoc.
    repeat split; try assumption.
    intros Hp. rewrite querySelector_cons, (Hq Hp). reflexivity.
  - destruct (update_first_node p f k) as [k'|]; [discriminate|].
    destruct (querySelector p r) as [n|] eqn:Qr.
    + destruct IH as (a & b & r' & Hel & Ha & Hup & Hel' & Hq).
      rewrite Hup. cbn [option_map].
      exists (elements [k] ++ a)%list, b, (k :: r').
      rewrite (elements_split k r), (elements_split k r'), Hel, Hel', <- !app_assoc.
      repeat split; try assumption.
      * rewrite existsb_app, Ha, (querySelector_none_elements _ _ Qk). reflexivity.
      * intros Hp. rewrite querySelector_cons, Qk. apply Hq, Hp.
    + rewrite IH. reflexivity.
Qed.

Lemma rewrites_at_node (p : element -> bool) (f : node -> node) (n : node) :
  rewrites_at p f [n].
Proof.
  induction n as [e ks IH] using node_forest_ind.
  apply rewrites_at_forest in IH.
  unfold rewrites_at in *. rewrite querySelector_node.
  unfold update_first in *. cbn [first_some update_first_node].
  destruct (p e) eqn:He.
  - exists [], [], [f (Node e ks)]. cbn [app]. rewrite !app_nil_r.
    repeat split; try reflexivity.
    intros Hp. destruct (f (Node e ks)) as [e' ks'] eqn:Ef. rewrite querySelector_node.
    cbn [node_element] in Hp. rewrite Hp. reflexivity.
  - destruct (querySelector p ks) as [n|] eqn:Qk.
    + destruct IH as (a & b & ks' & Hel & Ha & Hup & Hel' & Hq).
      rewrite Hup. cbn [option_map].
      exists (e :: a), b, [Node e ks'].
      rewrite !elements_cons, elements_nil, !app_nil_r, Hel, Hel'.
      repeat split; try reflexivity.
      * cbn [existsb]. rewrite He, Ha. reflexivity.
      * intros Hp. rewrite querySelector_node, He. apply Hq, Hp.
    + rewrite IH. reflexivity.
Qed.

Lemma update_first_place (p : element -> bool) (f : node -> node) (doc : list node) :
  rewrites_at p f doc.
Proof. apply rewrites_at_forest, Forall_forall. intros k _. apply rewrites_at_node. Qed.

Lemma modify_first_found (p : element -> bool) (f : node -> node) (doc : list node) (n : node) :
  querySelector p doc = Some n ->
  exists a b,
    elements doc = (a ++ elements [n] ++ b)%list
    /\ existsb p a = false
    /\ elements (modify_first p f doc) = (a ++ elements [f n] ++ b)%list
    /\ (p (node_element (f n)) = true -> querySelector p (modify_first p f doc) = Some (f n)).
Proof.
  intros Q. pose proof (update_first_place p f doc) as H. unfold rewrites_at in H.
  rewrite Q in H. destruct H as (a & b & doc' & Hel & Ha & Hup & Hel' & Hq).
  exists a, b. unfold modify_first. rewrite Hup. auto.
Qed.

Lemma modify_first_not_found (p : element -> bool) (f : node -> node) (doc : list node) :
  querySelector p doc = None -> modify_first p f doc = doc.
Proof.
  intros Q. pose proof (update_first_place p f doc) as H. unfold rewrites_at in H.
  rewrite Q in H. unfold modify_first. rewrite H. reflexivity.
Qed.

(** ** Readings that cannot be shown *)

Lemma getElementById_None (i : string) (doc : list node) :
  getElementById i doc = None <-> ~ In i (map el_id (elements doc)).
Proof.
  rewrite getElementById_elements. split.
  - intros H Hin. apply in_map_iff in Hin as (e & <- & He).
    eapply find_none in H; [|exact He]. unfold has_id in H. rewrite String.eqb_refl in H.
    discriminate.
  - intros H. destruct (find (has_id i) (elements doc)) as [e|] eqn:E; [|reflexivity].
    apply find_some in E as [He Hi]. exfalso. apply H, in_map_iff. exists e.
    split; [apply String.eqb_eq, Hi | exact He].
Qed.

Lemma map_el_id_replace_first (p : element -> bool) (g : element -> element)
  (l : list element) :
  (forall e, el_id (g e) = el_id e) ->
  map el_id (replace_first p g l) = map el_id l.
Proof.
  intros Hg. induction l as [|e r IH]; simpl; [reflexivity|].
  destruct (p e); simpl; [rewrite Hg | rewrite IH]; reflexivity.
Qed.

Section ReadingsFailure.
Context {B : Builtins}.

Lemma show_absent_display (i : string) (v : jsval) (n : nat) (s : state) :
  getElementById i (document s) = None -> MHV4_events.show i v n s = (Ok tt, s).
Proof.
  intros H. unfold MHV4_events.show. destruct v; run_monad; rewrite ?H; reflexivity.
Qed.

Lemma fills_show (readings : object jsval) (key i : string) (n : nat) :
  fills readings [(key, i, n)] (MHV4_events.show i (field readings key) n).
Proof.
  intros s. unfold unusable, slot_id. cbn [fst snd].
  destruct (getElementById i (document s)) as [e|] eqn:G.
  - assert (Hin : In i (map el_id (elements (document s)))).
    { destruct (getElementById_None i (document s)) as [_ H].
      destruct (in_dec string_dec i (map el_id (elements (document s)))) as [Y|N];
        [exact Y | rewrite (H N) in G; discriminate]. }
    unfold MHV4_events.show.
    destruct (field readings key) as [| |b|x|t] eqn:F; run_monad; rewrite ?G; run_monad;
      repeat (split; [reflexivity|]).
    all: try (split; [rewrite modify_first_elements; apply map_el_id_replace_first;
                      intros; apply with_textContent_id|]).
    all: first
           [ left; split; [reflexivity|]; constructor; [|constructor];
             cbn [fst snd]; rewrite F; intros [H _]; apply H;
             first [left; reflexivity | right; eauto]
           | right; split; [reflexivity|]; constructor; cbn [fst snd]; rewrite F;
             split; [|exact Hin]; intros [H|[x0 H]]; discriminate ].
  - rewrite show_absent_display by exact G. cbn [fst snd].
    repeat (split; [reflexivity|]). left. split; [reflexivity|].
    constructor; [|constructor]. intros [_ H]. apply getElementById_None in G. contradiction.
Qed.

Lemma fills_ret (readings : object jsval) : fills readings [] (ret tt).
Proof.
  intros s. cbn. repeat (split; [reflexivity|]). left. split; [reflexivity | constructor].
Qed.

Lemma unusable_same_ids (readings : object jsval) (doc doc' : list node)
  (slot : string * string * nat) :
  map el_id (elements doc') = map el_id (elements doc) ->
  unusable readings doc' slot <-> unusable readings doc slot.
Proof. intros H. unfold unusable. rewrite H. reflexivity. Qed.

Lemma fills_bind (readings : object jsval) (a b : list (string * string * nat))
  (m k : M unit) :
  fills readings a m -> fills readings b k -> fills readings (a ++ b) (m ;; k).
Proof.
  intros Hm Hk s. specialize (Hm s). unfold bind.
  destruct (m s) as [[[]|e] s1]; cbn [fst snd] in *.
  - destruct Hm as (M1 & M2 & M3 & M4 & M5 & [[_ Ha]|[Hf _]]); [|discriminate].
    specialize (Hk s1). destruct (k s1) as [o s2]; cbn [fst snd] in *.
    destruct Hk as (K1 & K2 & K3 & K4 & K5 & K6).
    rewrite K1, K2, K3, K4, K5. repeat (split; [assumption|]).
    destruct K6 as [[-> Hb]|[-> Hb]]; [left | right]; (split; [reflexivity|]).
    + apply Forall_app. split; [exact Ha|].
      revert Hb. apply Forall_impl. intros slot H U. apply H.
      apply (unusable_same_ids readings _ _ slot M5). exact U.
    + apply Exists_app. right. revert Hb. apply Exists_impl. intros slot U.
      apply (unusable_same_ids readings _ _ slot M5). exact U.
  - destruct Hm as (M1 & M2 & M3 & M4 & M5 & [[Hf _]|[Hf Ha]]); [discriminate|].
    repeat (split; [assumption|]). right. split; [exact Hf|].
    apply Exists_app. left. exact Ha.
Qed.

Lemma fills_updateModuleReadings (d : string) (readings : object jsval) :
  fills readings (displays d) (MHV4_events.updateModuleReadings d readings).
Proof.
  unfold MHV4_events.updateModuleReadings, for_each, displays.
  change (range 0 3) with [0; 1; 2; 3]. cbn [fold_right flat_map].
  repeat (apply fills_bind;
          [apply (fills_bind readings [_] [_]); apply fills_show|]).
  apply fills_ret.
Qed.

End ReadingsFailure.

(** X4.  Readings for a device none of whose displays is in the
    document are ignored, whatever their fields hold: the handler of
    [readings_update] returns normally and the state stays as it is. *)
Theorem readings_for_absent_displays {B : Builtins}
  (d : string) (readings : object jsval) (s : state) :
  (forall ch, 0 <= ch <= 3 ->
     getElementById ("voltage-" ++ d ++ "-" ++ decimal ch) (document s) = None
     /\ getElementById ("current-" ++ d ++ "-" ++ decimal ch) (document s) = None) ->
  on_event MHV4 (readings_update d readings) s = (Ok tt, s).
Proof.
  intros H. cbn [on_event]. unfold MHV4_events.updateModuleReadings, for_each.
  change (range 0 3) with [0; 1; 2; 3]. cbn [fold_right]. unfold bind.
  destruct (H 0 ltac:(lia)) as [V0 C0]. destruct (H 1 ltac:(lia)) as [V1 C1].
  destruct (H 2 ltac:(lia)) as [V2 C2]. destruct (H 3 ltac:(lia)) as [V3 C3].
  rewrite !show_absent_display by assumption. reflexivity.
Qed.

(** X5.  The handler of [readings_update] touches nothing but the
    document, where every element keeps its id, and it either returns
    normally or throws a [TypeError]; it throws exactly when, for one
    of the eight displays of the device, the field of the readings is
    there without being a number (it is [null], a string or a boolean)
    while the document holds the display. *)
Theorem readings_update_throws {B : Builtins}
  (d : string) (readings : object jsval) (s : state) :
  let r := on_event MHV4 (readings_update d readings) s in
  modules (snd r) = modules s
  /\ currentModuleId (snd r) = currentModuleId s
  /\ trace (snd r) = trace s
  /\ map el_id (elements (document (snd r))) = map el_id (elements (document s))
  /\ (fst r = Ok tt \/ fst r = Throw TypeError)
  /\ (fst r = Throw TypeError <->
      exists key i n,
        In (key, i, n) (displays d)
        /\ ~ absent_or_number (field readings key)
        /\ getElementById i (document s) <> None).
Proof.
  intros r. subst r. cbn [on_event].
  destruct (fills_updateModuleReadings d readings s) as (M1 & M2 & _ & M4 & M5 & M6).
  repeat (split; [assumption|]). split; [destruct M6 as [[-> _]|[-> _]]; auto|].
  split.
  - intros Hthrow. destruct M6 as [[Hok _]|[_ Hex]]; [congruence|].
    apply Exists_exists in Hex as ([[key i] n] & Hin & Hno & Hid).
    exists key, i, n. split; [exact Hin|]. split; [exact Hno|].
    intros Hnone. apply getElementById_None in Hnone. contradiction.
  - intros (key & i & n & Hin & Hno & Hid).
    destruct M6 as [[_ Hall]|[Hthrow _]]; [|exact Hthrow].
    rewrite Forall_forall in Hall. exfalso. apply (Hall _ Hin). split; [exact Hno|].
    unfold slot_id. cbn [fst snd].
    destruct (in_dec string_dec i (map el_id (elements (document s)))) as [Y|N]; [exact Y|].
    apply getElementById_None in N. contradiction.
Qed.

(** ** The tab that is shown *)

Lemma has_class_remove_same (c : string) (e : element) :
  has_class c (classList_remove c e) = false.
Proof.
  unfold has_class, classList_remove. destruct e as [k i cl a v ch t o l r]. cbn.
  induction cl as [|x cl IH]; [reflexivity|]. cbn.
  destruct (String.eqb_spec x c) as [->|Hne]; cbn; [exact IH|].
  rewrite IH. destruct (String.eqb_spec c x); [congruence | reflexivity].
Qed.

Lemma has_class_remove_other (c c' : string) (e : element) :
  c' <> c -> has_class c' (classList_remove c e) = has_class c' e.
Proof.
  intros Hne. unfold has_class, classList_remove. destruct e as [k i cl a v ch t o l r]. cbn.
  induction cl as [|x cl IH]; [reflexivity|]. cbn.
  destruct (String.eqb_spec x c) as [->|Hx]; cbn; rewrite IH; [|reflexivity].
  destruct (String.eqb_spec c' c); [contradiction | reflexivity].
Qed.

Lemma has_class_add_same (c : string) (e : element) : has_class c (classList_add c e) = true.
Proof.
  unfold classList_add. destruct (has_class c e) eqn:H; [exact H|].
  unfold has_class. destruct e as [k i cl a v ch t o l r]. cbn.
  rewrite existsb_app. cbn. rewrite String.eqb_refl, orb_true_r. reflexivity.
Qed.

Lemma Forall_replace_first {A : Type} (P Q : A -> Prop) (p : A -> bool) (g : A -> A)
  (l : list A) :
  (forall x, P x -> Q x) -> (forall x, p x = true -> Q (g x)) ->
  Forall P l -> Forall Q (replace_first p g l).
Proof.
  intros HPQ Hg. induction 1 as [|x r Hx Hr IH]; simpl; [constructor|].
  destruct (p x) eqn:E; constructor; auto.
  revert Hr. apply Forall_impl. exact HPQ.
Qed.

Lemma find_replace_first_kept {A : Type} (p q : A -> bool) (g : A -> A) (l : list A) (x : A) :
  (forall y, p (g y) = p y) -> find p l = Some x ->
  find p (replace_first q g l) = Some x \/ find p (replace_first q g l) = Some (g x).
Proof.
  intros Hg. induction l as [|y r IH]; simpl; [discriminate|].
  destruct (q y) eqn:Q; simpl.
  - rewrite Hg. destruct (p y); [intros [= ->]; auto | auto].
  - destruct (p y); [intros [= ->]; auto | exact IH].
Qed.

Lemma classList_add_id (c : string) (e : element) : el_id (classList_add c e) = el_id e.
Proof. apply class_change_id, class_change_add. Qed.

Lemma classList_add_keeps (c c' : string) (e : element) :
  has_class c' e = true -> has_class c' (classList_add c e) = true.
Proof.
  intros H. unfold classList_add. destruct (has_class c e); [exact H|].
  unfold has_class in *. destruct e as [k i cl a v ch t o l r]. cbn in *.
  rewrite existsb_app, H. reflexivity.
Qed.

Lemma find_map_id (i : string) (f : element -> element) (l : list element) (x : element) :
  (forall y, el_id (f y) = el_id y) ->
  find (has_id i) l = Some x -> find (has_id i) (map f l) = Some (f x).
Proof.
  intros Hf. induction l as [|y r IH]; simpl; [discriminate|].
  unfold has_id in *. rewrite Hf. destruct (el_id y =? i)%string.
  - intros [= ->]. reflexivity.
  - exact IH.
Qed.

(** X6.  After [switchModule(deviceId)] the tab of that device, and no
    other, is shown: an element of class [tab-content] or [tab-button]
    that has the class [active] carries the id [module-<deviceId>] or
    is the tab button of the device; the element found under the id
    [module-<deviceId>], if there is one, has the class [active]; and
    the device is the current one.  Nothing else of the state changes,
    and no element changes but in its classes. *)
Theorem switchModule_shows_one_tab (d : string) (s : state) :
  let s' := snd (switchModule d s) in
  fst (switchModule d s) = Ok tt
  /\ currentModuleId s' = Some d
  /\ modules s' = modules s /\ trace s' = trace s /\ next_ref s' = next_ref s
  /\ Forall2 class_change (elements (document s)) (elements (document s'))
  /\ (forall e, In e (elements (document s')) ->
        has_class "active" e = true ->
        has_class "tab-content" e || has_class "tab-button" e = true ->
        el_id e = "module-" ++ d
        \/ exists m, obj_get (modules s) d = Some m /\ ref e = Some (tabButton m))
  /\ (forall e, getElementById ("module-" ++ d) (document s) = Some e ->
        exists e', getElementById ("module-" ++ d) (document s') = Some e'
                   /\ has_class "active" e' = true).
Proof.
  intros s'. subst s'.
  destruct (switchModule_spec d s) as (doc' & E & Hcc). rewrite E. cbn [fst snd].
  repeat (split; [reflexivity|]). split; [exact Hcc|].
  clear Hcc. revert E. unfold switchModule. run_monad.
  set (l := elements (document s)).
  set (doc2 := update_all (has_class "tab-button") (classList_remove "active")
                 (update_all (has_class "tab-content") (classList_remove "active")
                    (document s))).
  set (doc3 := modify_first (has_id ("module-" ++ d)) (on_element (classList_add "active"))
                 doc2).
  assert (H2 : Forall (fun e => has_class "tab-content" e || has_class "tab-button" e = true ->
                                has_class "active" e = false) (elements doc2)).
  { unfold doc2. rewrite !update_all_elements, map_map. apply Forall_forall.
    intros e He. apply in_map_iff in He as (x & <- & _).
    destruct (has_class "tab-content" x) eqn:C.
    - assert (C' : has_class "tab-content" (classList_remove "active" x) = true)
        by (rewrite has_class_remove_other; [exact C | discriminate]).
      destruct (has_class "tab-button" (classList_remove "active" x));
        intros _; apply has_class_remove_same.
    - destruct (has_class "tab-button" x) eqn:T.
      + intros _. apply has_class_remove_same.
      + rewrite C, T. discriminate. }
  assert (H3 : Forall (fun e => has_class "active" e = true ->
                                has_class "tab-content" e || has_class "tab-button" e = true ->
                                el_id e = "module-" ++ d) (elements doc3)).
  { unfold doc3. rewrite modify_first_elements.
    revert H2. apply Forall_replace_first.
    - intros x Hx Ha Ht. rewrite (Hx Ht) in Ha. discriminate.
    - intros x Hx _ _. rewrite classList_add_id. apply String.eqb_eq, Hx. }
  assert (G3 : forall e, getElementById ("module-" ++ d) (document s) = Some e ->
               exists e', getElementById ("module-" ++ d) doc3 = Some e'
                          /\ has_class "active" e' = true).
  { intros e He. unfold doc3, doc2.
    rewrite getElementById_elements, modify_first_elements,
      find_replace_first_same by apply classList_add_id.
    rewrite getElementById_elements in He.
    rewrite !update_all_elements, map_map.
    erewrite find_map_id; [| |exact He].
    - cbn [option_map]. eexists. split; [reflexivity | apply has_class_add_same].
    - intros y. destruct (has_class "tab-content" y);
        [|destruct (has_class "tab-button" y); [|reflexivity]];
        repeat match goal with
               | |- context [if ?c then _ else _] => destruct c
               end;
        repeat (rewrite (class_change_id _ _ (class_change_remove _ _))); reflexivity. }
  destruct (obj_get (modules s) d) as [m|]; run_monad; intros [= <-].
  - split.
    + intros e He. rewrite modify_first_elements in He. revert e He.
      apply (proj1 (Forall_forall
                      (fun e => has_class "active" e = true ->
                                has_class "tab-content" e || has_class "tab-button" e = true ->
                                el_id e = "module-" ++ d
                                \/ exists m0, Some m = Some m0 /\ ref e = Some (tabButton m0))
                      _)).
      revert H3. apply Forall_replace_first.
      * intros x Hx Ha Ht. left. apply Hx; assumption.
      * intros x Hx _ _. right. exists m. split; [reflexivity|].
        rewrite (class_change_ref _ _ (class_change_add _ _)).
        unfold has_ref in Hx. destruct (ref x) as [r|]; [|discriminate].
        apply Nat.eqb_eq in Hx. congruence.
    + intros e He. destruct (G3 e He) as (e' & Ge' & Ha).
      rewrite getElementById_elements, modify_first_elements.
      rewrite getElementById_elements in Ge'.
      destruct (find_replace_first_kept (has_id ("module-" ++ d)) (has_ref (tabButton m))
                  (classList_add "active") (elements doc3) e') as [-> | ->].
      * intros y. unfold has_id. rewrite classList_add_id. reflexivity.
      * exact Ge'.
      * eauto.
      * eexists. split; [reflexivity | apply has_class_add_same].
  - split.
    + intros e He Ha Ht. left. rewrite Forall_forall in H3. apply H3; assumption.
    + exact G3.
Qed.

(** ** Growth of the document *)

Section Grown.
Context (R : element -> element -> Prop).
Hypothesis R_refl : forall x, R x x.

Lemma grown_same (l : list element) : grown R l l.
Proof. induction l; constructor; auto. Qed.


Lemma grown_app (a a' b b' : list element) :
  grown R a a' -> grown R b b' -> grown R (a ++ b) (a' ++ b').
Proof. induction 1; simpl; intros Hb; try constructor; auto. Qed.

Lemma grown_nil_l (l : list element) : grown R [] l.
Proof. induction l; constructor; auto. Qed.

Lemma grown_app_new_r (l x : list element) : grown R l (l ++ x).
Proof.
  rewrite <- (app_nil_r l) at 1. apply grown_app; [apply grown_same | apply grown_nil_l].
Qed.

Lemma grown_app_new_l (l x : list element) : grown R l (x ++ l).
Proof. induction x; simpl; [apply grown_same | constructor; assumption]. Qed.

Hypothesis R_trans : forall x y z, R x y -> R y z -> R x z.

Lemma grown_trans (a b c : list element) : grown R a b -> grown R b c -> grown R a c.
Proof.
  intros Hab Hbc. revert a Hab.
  induction Hbc as [|e e' l l' He Hl IH|x l l' Hl IH]; intros a Hab.
  - exact Hab.
  - inversion Hab; subst; constructor; eauto.
  - constructor. apply IH, Hab.
Qed.

Lemma grown_In (l l' : list element) (e : element) :
  grown R l l' -> In e l -> exists e', In e' l' /\ R e e'.
Proof.
  induction 1 as [|x x' l l' Hx Hl IH|x l l' Hl IH]; simpl.
  - intros [].
  - intros [<-|Hin]; [eauto|]. destruct (IH Hin) as (e' & ? & ?). eauto.
  - intros Hin. destruct (IH Hin) as (e' & ? & ?). eauto.
Qed.

(** A change of the children of the first element that [q] matches. *)
Lemma modify_first_children_grown (q : element -> bool) (g : list node -> list node)
  (doc : list node) :
  (forall ks, grown R (elements ks) (elements (g ks))) ->
  grown R (elements doc) (elements (modify_first q (on_children g) doc)).
Proof.
  intros Hg. destruct (querySelector q doc) as [[e ks]|] eqn:Q.
  - destruct (modify_first_found q (on_children g) doc _ Q) as (a & b & -> & _ & -> & _).
    cbn [on_children]. rewrite !elements_cons, elements_nil, !app_nil_r.
    apply grown_app; [apply grown_same|]. simpl. constructor; [apply R_refl|].
    apply grown_app; [apply Hg | apply grown_same].
  - rewrite modify_first_not_found by exact Q. apply grown_same.
Qed.


End Grown.


(** The new children are in the document when the query finds the
    element. *)
Lemma modify_first_children_new (q : element -> bool) (g : list node -> list node)
  (doc : list node) (n : node) (x : element) :
  querySelector q doc = Some n ->
  In x (elements (g (node_children n))) ->
  In x (elements (modify_first q (on_children g) doc)).
Proof.
  intros Q Hx. destruct n as [e ks].
  destruct (modify_first_found q (on_children g) doc _ Q) as (a & b & _ & _ & -> & _).
  cbn [on_children node_children] in *. rewrite elements_cons, elements_nil, app_nil_r.
  apply in_or_app. right. right. apply in_or_app. left. exact Hx.
Qed.

Lemma querySelector_found (q : element -> bool) (doc : list node) :
  (exists e, In e (elements doc) /\ q e = true) <-> querySelector q doc <> None.
Proof.
  pose proof (querySelector_elements q doc) as E. split.
  - intros (e & He & Hq) Hnone. rewrite Hnone in E. simpl in E. symmetry in E.
    eapply find_none in E; [|exact He]. congruence.
  - intros H. destruct (querySelector q doc) as [n|]; [|contradiction]. simpl in E.
    symmetry in E. apply find_some in E. eauto.
Qed.

Lemma restyled_refl (e : element) : restyled e e.
Proof. exists (classList e), (listeners e). destruct e; reflexivity. Qed.



Lemma addEventListener_restyled (t : string) (h : handler) (e : element) :
  restyled e (addEventListener t h e).
Proof. exists (classList e), (listeners e ++ [(t, h)])%list. destruct e; reflexivity. Qed.

Lemma reactivated_refl (e : element) : reactivated e e.
Proof. split; [apply class_change_refl | reflexivity]. Qed.

Lemma reactivated_trans (x y z : element) :
  reactivated x y -> reactivated y z -> reactivated x z.
Proof.
  intros [C1 H1] [C2 H2]. split; [eapply class_change_trans; eassumption|].
  intros k Hk. rewrite H2, H1 by assumption. reflexivity.
Qed.

Lemma has_class_add_other (c c' : string) (e : element) :
  c' <> c -> has_class c' (classList_add c e) = has_class c' e.
Proof.
  intros Hne. unfold classList_add. destruct (has_class c e); [reflexivity|].
  unfold has_class. destruct e as [k i cl a v ch t o l r]. cbn.
  rewrite existsb_app. cbn. destruct (String.eqb_spec c' c); [contradiction|].
  rewrite !orb_false_r. reflexivity.
Qed.

Lemma reactivated_remove (e : element) : reactivated e (classList_remove "active" e).
Proof.
  split; [apply class_change_remove|]. intros k Hk. apply has_class_remove_other, Hk.
Qed.

Lemma reactivated_add (e : element) : reactivated e (classList_add "active" e).
Proof.
  split; [apply class_change_add|]. intros k Hk. apply has_class_add_other, Hk.
Qed.

Lemma switchModule_reactivates (d : string) (s : state) :
  exists doc',
    switchModule d s = (Ok tt, mkState doc' (modules s) (Some d) (next_ref s) (trace s))
    /\ Forall2 reactivated (elements (document s)) (elements doc').
Proof.
  unfold switchModule. run_monad.
  assert (Hbase : Forall2 reactivated (elements (document s))
            (elements
               (modify_first (has_id ("module-" ++ d)) (on_element (classList_add "active"))
                  (update_all (has_class "tab-button") (classList_remove "active")
                     (update_all (has_class "tab-content") (classList_remove "active")
                        (document s)))))).
  { rewrite modify_first_elements, !update_all_elements.
    eapply Forall2_chain; [exact reactivated_trans | |].
    - eapply Forall2_chain; [exact reactivated_trans | |].
      + apply Forall2_map_if; [exact reactivated_refl|]. intros; apply reactivated_remove.
      + apply Forall2_map_if; [exact reactivated_refl|]. intros; apply reactivated_remove.
    - apply Forall2_replace_first; [exact reactivated_refl|]. intros; apply reactivated_add. }
  destruct (obj_get (modules s) d) as [m|]; run_monad.
  - eexists. split; [reflexivity|].
    rewrite modify_first_elements.
    eapply Forall2_chain; [exact reactivated_trans | exact Hbase |].
    apply Forall2_replace_first; [exact reactivated_refl|]. intros; apply reactivated_add.
  - eexists. split; [reflexivity | exact Hbase].
Qed.

(** ** A new module *)

Lemma append_child_grown (ks : list node) (n : node) :
  grown eq (elements ks) (elements (ks ++ [n])).
Proof. rewrite elements_app. apply grown_app_new_r. reflexivity. Qed.

Lemma prepend_child_grown (ks : list node) (n : node) :
  grown eq (elements ks) (elements (n :: ks)).
Proof. rewrite (elements_split n ks). apply grown_app_new_l. reflexivity. Qed.

Lemma grown_eq_In (l l' : list element) (e : element) : grown eq l l' -> In e l -> In e l'.
Proof. intros G H. destruct (grown_In eq l l' e G H) as (e' & ? & <-). assumption. Qed.

Lemma grown_eq_trans (a b c : list element) : grown eq a b -> grown eq b c -> grown eq a c.
Proof. apply grown_trans. intros; congruence. Qed.

Lemma getElementById_In (i : string) (doc : list node) (e : element) :
  getElementById i doc = Some e -> In e (elements doc) /\ el_id e = i.
Proof.
  rewrite getElementById_elements. intros H. apply find_some in H as [Hin Hid].
  split; [exact Hin | apply String.eqb_eq, Hid].
Qed.

(** [addModule] up to the initialisation of the controls, when the
    identifier is new and the page has the container of the tabs. *)
Lemma addModule_run (c : client) (d p : string) (s : state) (container : element) :
  obj_get (modules s) d = None ->
  inherited d = false ->
  getElementById "module-tabs" (document s) = Some container ->
  exists doc3 doc4 b,
    (next_ref s <= b)%nat
    /\ grown eq (elements (document s)) (elements doc3)
    /\ (forall x, In x (elements [createModulePanel c d]) -> In x (elements doc3))
    /\ Forall2 reactivated (elements doc3) (elements doc4)
    /\ addModule c d p s
       = match c with
         | MHV4 => initializeChannelControls d
         | MSCF16 => initializeControls d ;; sendCommand d "get_version" []
         end (mkState doc4 (obj_set (modules s) d (mkModule d p b (S b))) (Some d)
                (S (S b)) (trace s)).
Proof.
  intros H I G. unfold addModule. run_monad. rewrite H, I, G.
  assert (Hcontainer : forall doc, grown eq (elements (document s)) (elements doc) ->
            querySelector (has_id "module-tabs") doc <> None).
  { intros doc Hg. apply querySelector_found. exists container.
    apply getElementById_In in G as [Hin Hid].
    split; [eapply grown_eq_In; eassumption | apply String.eqb_eq, Hid]. }
  destruct (querySelector (has_class "tab-header") (document s)) as [header|] eqn:Q; run_monad;
    match goal with
    | |- context [switchModule d ?s0] =>
        destruct (switchModule_reactivates d s0) as (doc4 & -> & Hre);
        cbn [fst snd document modules currentModuleId next_ref trace] in *;
        match type of Hre with
        | Forall2 _ (elements ?doc3) _ =>
            exists doc3, doc4;
            assert (Hg : grown eq (elements (document s)) (elements doc3))
        end
    end.
  - eapply grown_eq_trans; apply modify_first_children_grown;
      try reflexivity; intros; apply append_child_grown.
  - exists (next_ref s). split; [lia|]. split; [exact Hg|]. split; [|split; [exact Hre|]].
    + intros x Hx.
      match goal with
      | |- In x (elements (modify_first _ _ ?doc2)) =>
          assert (Hg2 : grown eq (elements (document s)) (elements doc2))
            by (apply modify_first_children_grown; try reflexivity;
                intros; apply append_child_grown);
          destruct (querySelector (has_id "module-tabs") doc2) as [n|] eqn:Qc;
            [|exfalso; exact (Hcontainer _ Hg2 Qc)]
      end.
      eapply modify_first_children_new; [exact Qc|].
      rewrite elements_app. apply in_or_app. right.
      rewrite elements_cons, elements_nil, app_nil_r. right. exact Hx.
    + destruct c; reflexivity.
  - eapply grown_eq_trans; [eapply grown_eq_trans|];
      apply modify_first_children_grown;
      try reflexivity; intros; first [apply append_child_grown | apply prepend_child_grown].
  - exists (S (next_ref s)). split; [lia|]. split; [exact Hg|]. split; [|split; [exact Hre|]].
    + intros x Hx.
      match goal with
      | |- In x (elements (modify_first _ _ ?doc2)) =>
          assert (Hg2 : grown eq (elements (document s)) (elements doc2))
            by (eapply grown_eq_trans; apply modify_first_children_grown;
                try reflexivity; intros;
                first [apply append_child_grown | apply prepend_child_grown]);
          destruct (querySelector (has_id "module-tabs") doc2) as [n|] eqn:Qc;
            [|exfalso; exact (Hcontainer _ Hg2 Qc)]
      end.
      eapply modify_first_children_new; [exact Qc|].
      rewrite elements_app. apply in_or_app. right.
      rewrite elements_cons, elements_nil, app_nil_r. right. exact Hx.
    + destruct c; reflexivity.
Qed.





Lemma initializeControls_run (d : string) (s : state) :
  exists doc',
    Forall2 restyled (elements (document s)) (elements doc')
    /\ initializeControls d s
       = (selector_outcome d,
          mkState doc' (modules s) (currentModuleId s) (next_ref s) (trace s)).
Proof.
  unfold initializeControls, selector_outcome. destruct (id_selector d); run_monad.
  - eexists. split; [|reflexivity]. rewrite update_all_elements.
    apply Forall2_map_if; [exact restyled_refl|]. intros; apply addEventListener_restyled.
  - exists (document s). split; [apply Forall2_same, restyled_refl|]. destruct s; reflexivity.
  - exists (document s). split; [apply Forall2_same, restyled_refl|]. destruct s; reflexivity.
Qed.





(** X8.  [addModule] with a new identifier, none that [modules]
    inherits from [Object.prototype], on a page without the container
    of the tabs throws a [TypeError] and registers nothing:
    [modules], [currentModuleId] and the requests stay as they are,
    and no element of the page is lost or changed. *)
Theorem addModule_without_container (c : client) (d p : string) (s : state) :
  obj_get (modules s) d = None ->
  inherited d = false ->
  getElementById "module-tabs" (document s) = None ->
  let r := addModule c d p s in
  fst r = Throw TypeError
  /\ modules (snd r) = modules s
  /\ currentModuleId (snd r) = currentModuleId s
  /\ trace (snd r) = trace s
  /\ grown eq (elements (document s)) (elements (document (snd r))).
Proof.
  intros H I G r. subst r. unfold addModule. run_monad. rewrite H, I, G.
  destruct (querySelector (has_class "tab-header") (document s)); run_monad;
    repeat (split; [reflexivity|]).
  - apply modify_first_children_grown; [reflexivity|]. intros; apply append_child_grown.
  - apply grown_same. reflexivity.
Qed.

(** ** The entries of [modules] *)

Lemma obj_get_set_other {V : Type} (o : object V) (k k' : string) (v : V) :
  k' <> k -> obj_get (obj_set o k v) k' = obj_get o k'.
Proof.
  intros Hne. induction o as [|[k0 v0] r IH]; simpl.
  - destruct (String.eqb_spec k k'); [congruence | reflexivity].
  - destruct (String.eqb_spec k0 k) as [->|Hk]; simpl.
    + destruct (String.eqb_spec k k'); [congruence | reflexivity].
    + rewrite IH. reflexivity.
Qed.

Lemma obj_get_delete_Some {V : Type} (o : object V) (k k' : string) (v : V) :
  obj_get (obj_delete o k) k' = Some v -> k' <> k /\ obj_get o k' = Some v.
Proof.
  intros H. destruct (String.eqb_spec k' k) as [->|Hne].
  - rewrite obj_get_delete_same in H. discriminate.
  - rewrite obj_get_delete_other in H by assumption. auto.
Qed.

Lemma addModule_entries (c : client) (d p : string) (s : state) :
  let s' := snd (addModule c d p s) in
  (modules s' = modules s /\ (next_ref s <= next_ref s')%nat)
  \/ (exists b,
        obj_get (modules s) d = None /\ (next_ref s <= b)%nat
        /\ modules s' = obj_set (modules s) d (mkModule d p b (S b))
        /\ next_ref s' = S (S b)).
Proof.
  intros s'. subst s'.
  destruct (obj_get (modules s) d) as [m|] eqn:H.
  { rewrite (addModule_present c d p s m H). left. split; [reflexivity | cbn [snd]; lia]. }
  destruct (inherited d) eqn:I.
  { left. unfold addModule. run_monad. rewrite H, I. split; [reflexivity | cbn [snd]; lia]. }
  destruct (getElementById "module-tabs" (document s)) as [container|] eqn:G.
  - right. destruct (addModule_run c d p s container H I G)
      as (doc3 & doc4 & b & Hb & _ & _ & _ & ->).
    exists b. split; [reflexivity|]. split; [exact Hb|].
    destruct c.
    + match goal with
      | |- context [initializeChannelControls d ?s0] =>
          destruct (initializeChannelControls d s0) as [o s1] eqn:E
      end.
      unfold initializeChannelControls in E. revert E. run_monad.
      destruct (querySelector (module_panel_of d) doc4); [destruct (id_selector d)|];
        run_monad; intros [= _ <-]; split; reflexivity.
    + run_monad.
      match goal with
      | |- context [initializeControls d ?s0] =>
          destruct (initializeControls_run d s0) as (doc5 & _ & ->)
      end.
      destruct (selector_outcome d) as [[]|]; split; reflexivity.
  - left. unfold addModule. run_monad. rewrite H, I, G.
    destruct (querySelector (has_class "tab-header") (document s)); run_monad;
      split; first [reflexivity | cbn [snd next_ref]; lia].
Qed.

Lemma do_call_entries_ok (c : client) (x : call) (s : state) :
  entries_ok s -> entries_ok (do_call c x s).
Proof.
  intros [Hown Hsep]. destruct x as [d p|d]; cbn [do_call].
  - destruct (addModule_entries c d p s) as [[Hm Hn]|(b & Hd & Hb & Hm & Hn)];
      unfold entries_ok; rewrite Hm.
    + split; [|exact Hsep]. intros k m Hk. destruct (Hown k m Hk). split; [assumption | lia].
    + rewrite Hn. split.
      * intros k m. destruct (String.eqb_spec k d) as [->|Hne].
        -- rewrite obj_get_set_same. intros [= <-]. cbn. split; [reflexivity | lia].
        -- rewrite obj_get_set_other by exact Hne. intros Hk.
           destruct (Hown k m Hk). split; [assumption | lia].
      * intros k k' m m' Hkk.
        destruct (String.eqb_spec k d) as [->|Hk]; destruct (String.eqb_spec k' d) as [->|Hk'];
          rewrite ?obj_get_set_same, ?obj_get_set_other by assumption.
        -- contradiction.
        -- intros [= <-] Hg'. destruct (Hown k' m' Hg'). cbn. lia.
        -- intros Hg [= <-]. destruct (Hown k m Hg). cbn. lia.
        -- apply Hsep, Hkk.
  - destruct (obj_get (modules s) d) as [m|] eqn:Hd.
    + destruct (removeModule_present d s m Hd) as (doc' & cur & -> & _).
      unfold entries_ok. cbn [snd modules next_ref]. split.
      * intros k m0 Hk. apply obj_get_delete_Some in Hk as [_ Hk]. apply Hown, Hk.
      * intros k k' m0 m' Hkk Hk Hk'.
        apply obj_get_delete_Some in Hk as [_ Hk]. apply obj_get_delete_Some in Hk' as [_ Hk'].
        eapply Hsep; eassumption.
    + destruct (inherited d) eqn:I.
      * destruct (removeModule_inherited d s Hd I) as (doc' & -> & _).
        split; assumption.
      * rewrite (removeModule_absent d s Hd I). split; assumption.
Qed.

(** X9.  After any sequence of calls of [addModule] and [removeModule]
    on a freshly loaded page, every entry of [modules] is stored under
    its own [deviceId], its tab button and its tab content are two
    elements, and no two modules share a tab button or a tab content. *)
Theorem modules_have_their_own_tabs (c : client) (page : list node) (xs : list call) :
  let s := do_calls c xs (initial_state page) in
  (forall k m, obj_get (modules s) k = Some m ->
     deviceId m = k /\ tabButton m <> tabContent m)
  /\ (forall k k' m m', k <> k' ->
        obj_get (modules s) k = Some m -> obj_get (modules s) k' = Some m' ->
        tabButton m <> tabButton m' /\ tabButton m <> tabContent m'
        /\ tabContent m <> tabButton m' /\ tabContent m <> tabContent m').
Proof.
  intros s.
  assert (H : entries_ok s).
  { apply do_calls_invariant; [apply do_call_entries_ok|].
    split; [intros k m|intros k k' m m' _]; discriminate. }
  destruct H as [Hown Hsep]. split.
  - intros k m Hk. destruct (Hown k m Hk). split; [assumption | lia].
  - intros k k' m m' Hkk Hk Hk'.
    destruct (Hown k m Hk) as [_ ?]. destruct (Hown k' m' Hk') as [_ ?].
    destruct (Hsep k k' m m' Hkk Hk Hk'); repeat split; lia.
Qed.

(** ** Events that fail *)

Lemma getElementById_querySelector_None (i : string) (doc : list node) :
  getElementById i doc = None -> querySelector (has_id i) doc = None.
Proof. unfold getElementById. destruct (querySelector (has_id i) doc); [discriminate | auto]. Qed.

Lemma update_first_not_found (p : element -> bool) (f : node -> node) (doc : list node) :
  querySelector p doc = None -> update_first p f doc = None.
Proof.
  intros Q. pose proof (update_first_place p f doc) as H. unfold rewrites_at in H.
  rewrite Q in H. exact H.
Qed.

Lemma set_text_absent {B : Builtins} (i : string) (v : jsval) (s : state) :
  getElementById i (document s) = None -> set_text i v s = (Throw TypeError, s).
Proof.
  intros H. unfold set_text. run_monad.
  rewrite update_first_not_found by (apply getElementById_querySelector_None, H).
  reflexivity.
Qed.

(** X10.  An [initial_values] event of the pulse-shaping client throws
    in one case only: the panel of the device is in the document, the
    event is of type [version], and no element has the id
    [version-<deviceId>]; what it throws is a [TypeError], and the
    state is then as before.  Every other event returns normally. *)
Theorem initial_values_throws {B : Builtins} (d : string) (data : object jsval) (s : state) :
  let r := on_event MSCF16 (initial_values d data) s in
  (fst r = Ok tt \/ r = (Throw TypeError, s))
  /\ (r = (Throw TypeError, s) <->
      querySelector (device_tab_of d) (document s) <> None
      /\ field data "type" = JStr "version"
      /\ getElementById ("version-" ++ d) (document s) = None).
Proof.
  intros r. subst r. cbn [on_event].
  assert (Hthrow : querySelector (device_tab_of d) (document s) <> None ->
                   field data "type" = JStr "version" ->
                   getElementById ("version-" ++ d) (document s) = None ->
                   MSCF16_events.updateInitialValues d data s = (Throw TypeError, s)).
  { intros Hq Ht Hv. unfold MSCF16_events.updateInitialValues. run_monad.
    destruct (querySelector (device_tab_of d) (document s)); [|contradiction].
    rewrite Ht. cbn [String.eqb Ascii.eqb Bool.eqb]. apply set_text_absent, Hv. }
  assert (Hpanel : querySelector (device_tab_of d) (document s) = None ->
                   MSCF16_events.updateInitialValues d data s = (Ok tt, s)).
  { intros Hq. unfold MSCF16_events.updateInitialValues. run_monad. rewrite Hq. reflexivity. }
  destruct (updateInitialValues_run d data s) as (doc' & o & E & _ & [->|(-> & Ht & Hv)]).
  - rewrite E. cbn [fst]. split; [left; reflexivity|]. split; [discriminate|].
    intros (Hq & Ht & Hv). rewrite (Hthrow Hq Ht Hv) in E. discriminate.
  - destruct (querySelector (device_tab_of d) (document s)) as [n|] eqn:Hq.
    + rewrite Hthrow by (congruence || assumption).
      split; [right; reflexivity|]. split; [intros _; repeat split; congruence | reflexivity].
    + rewrite Hpanel in E by reflexivity. discriminate.
Qed.

(** ** The module shown after a removal *)

Lemma partition_keys_plain (ks : list string) :
  Forall (fun k => array_index k = None) ks -> partition_keys ks = ([], ks).
Proof.
  induction 1 as [|k r Hk _ IH]; simpl; [reflexivity|]. rewrite IH, Hk. reflexivity.
Qed.

Lemma Object_keys_plain {V : Type} (o : object V) :
  Forall (fun k => array_index k = None) (own_keys o) -> Object_keys o = own_keys o.
Proof. intros H. unfold Object_keys. rewrite partition_keys_plain by exact H. reflexivity. Qed.

(** X11.  When no identifier of [modules] is the numeral of an array
    index, [removeModule] makes current the remaining module that was
    added first; [currentModuleId] is [null] if none remains. *)
Theorem removeModule_shows_oldest (d : string) (s : state) (m : module_entry) :
  obj_get (modules s) d = Some m ->
  Forall (fun k => array_index k = None) (own_keys (modules s)) ->
  currentModuleId (snd (removeModule d s))
  = hd_error (filter (fun k => negb (k =? d)%string) (own_keys (modules s))).
Proof.
  intros H Hplain. destruct (removeModule_present d s m H) as (doc' & cur & -> & _ & ->).
  cbn [snd currentModuleId]. rewrite Object_keys_plain; rewrite own_keys_delete.
  - reflexivity.
  - apply Forall_forall. intros k Hk. apply filter_In in Hk as [Hk _].
    rewrite Forall_forall in Hplain. apply Hplain, Hk.
Qed.

(** ** Initial values of the high-voltage client *)

Lemma querySelector_holds (p : element -> bool) (doc : list node) (n : node) :
  querySelector p doc = Some n -> p (node_element n) = true.
Proof. unfold querySelector. intros H. apply find_some in H as [_ H]. exact H. Qed.

Lemma modify_first_query (p : element -> bool) (f : node -> node) (doc : list node) (n : node) :
  querySelector p doc = Some n -> p (node_element (f n)) = true ->
  querySelector p (modify_first p f doc) = Some (f n).
Proof.
  intros Q Hp. destruct (modify_first_found p f doc n Q) as (a & b & _ & _ & _ & H). auto.
Qed.

Lemma on_children_element (g : list node -> list node) (n : node) :
  node_element (on_children g n) = node_element n.
Proof. destruct n; reflexivity. Qed.

Lemma on_children_children (g : list node -> list node) (n : node) :
  node_children (on_children g n) = g (node_children n).
Proof. destruct n; reflexivity. Qed.

Lemma on_element_element (g : element -> element) (n : node) :
  node_element (on_element g n) = g (node_element n).
Proof. destruct n; reflexivity. Qed.

Lemma set_value_of_classes {B : Builtins} (v : jsval) (e : element) :
  classList (set_value_of v e) = classList e.
Proof.
  unfold set_value_of, assign_value. destruct e as [k i c a x ch t o l r].
  destruct k; reflexivity.
Qed.

Lemma set_value_of_number_input {B : Builtins} (v : jsval) (e : element) :
  tag e = NUMBER_INPUT ->
  value (set_value_of v e) = if valid_float (ToDOMString v) then ToDOMString v else "".
Proof.
  intros Ht. unfold set_value_of, assign_value. rewrite Ht. destruct e; reflexivity.
Qed.

(** What a handler of a channel reads after [put] has written there. *)
Lemma channel_input_after_put {B : Builtins}
  (d : string) (ch : Z) (cls : string) (v : jsval) (s : state) (n cp input : node) :
  querySelector (module_panel_of d) (document s) = Some n ->
  querySelector (channel_panel_of (decimal ch)) (node_children n) = Some cp ->
  querySelector (has_class cls) (node_children cp) = Some input ->
  channel_input d ch (has_class cls)
    (snd (MHV4_events.put d (channel_panel_of (decimal ch)) cls v s))
  = (Ok (value (set_value_of v (node_element input))),
     snd (MHV4_events.put d (channel_panel_of (decimal ch)) cls v s)).
Proof.
  intros Qn Qc Qi. unfold MHV4_events.put, MHV4_events.in_channel, channel_input. run_monad.
  erewrite modify_first_query; [|exact Qn|].
  2: { rewrite on_children_element. eapply querySelector_holds, Qn. }
  rewrite on_children_children.
  erewrite modify_first_query; [|exact Qc|].
  2: { rewrite on_children_element. eapply querySelector_holds, Qc. }
  rewrite on_children_children.
  erewrite modify_first_query; [|exact Qi|].
  2: { rewrite on_element_element. unfold has_class. rewrite set_value_of_classes.
       apply (querySelector_holds _ _ _ Qi). }
  rewrite on_element_element. reflexivity.
Qed.

(** X12.  Round trip of a setting of a high-voltage channel: after an
    [initial_values] event of type [voltage_preset], [voltage_limit] or
    [current_limit] for a channel 0 to 3 whose panel and input are in the
    document, with a value that the number input accepts, the Set
    button of that input sends the command of the setting for this
    channel with the number read back from that value. *)
Theorem channel_setting_round_trip {B : Builtins}
  (d type cls command key : string) (h : handler) (data : object jsval) (ch : Z)
  (this : element) (n cp input : node) (s : state) :
  In (type, cls, h, command, key)
    [ ("voltage_preset", "voltage-preset-input", H_setVoltage d ch, "set_voltage", "voltage");
      ("voltage_limit", "voltage-limit-input", H_setVoltageLimit d ch,
       "set_voltage_limit", "voltage_limit");
      ("current_limit", "current-limit-input", H_setCurrentLimit d ch,
       "set_current_limit", "current_limit") ] ->
  field data "type" = JStr type ->
  0 <= ch <= 3 ->
  field data "channel" = JNum (Int ch) ->
  querySelector (module_panel_of d) (document s) = Some n ->
  querySelector (channel_panel_of (decimal ch)) (node_children n) = Some cp ->
  querySelector (has_class cls) (node_children cp) = Some input ->
  tag (node_element input) = NUMBER_INPUT ->
  valid_float (ToDOMString (field data "value")) = true ->
  let s' := snd (on_event MHV4 (initial_values d data) s) in
  run_handler h this s'
  = (Ok tt, after s' (POST_command d command
                        [("channel", JNum (Int ch));
                         (key, JNum (parseFloat (ToDOMString (field data "value"))))])).
Proof.
  intros Hin T Hch C Qn Qc Qi Htag Hvalid s'.
  pose proof (channel_input_after_put d ch cls (field data "value") s n cp input Qn Qc Qi)
    as Hread.
  rewrite set_value_of_number_input, Hvalid in Hread by exact Htag.
  assert (Es : s' = snd (MHV4_events.put d (channel_panel_of (decimal ch)) cls
                           (field data "value") s)
               /\ run_handler h this
                  = (v <- channel_input d ch (has_class cls) ;;
                     sendCommand d command
                       [("channel", JNum (Int ch)); (key, JNum (parseFloat v))])).
  { subst s'. clear Hread Qi. cbn [In] in Hin.
    destruct Hin as [E|[E|[E|[]]]]; injection E as <- <- <- <- <-;
      (split; [|reflexivity]);
      cbn [on_event]; unfold MHV4_events.updateInitialValues; run_monad;
      rewrite Qn, T, C; cbn [ToString Number_toString];
      replace (Z.abs ch <=? 2 ^ 53) with true by (symmetry; apply Z.leb_le; lia);
      rewrite Qc; reflexivity. }
  destruct Es as [-> ->]. unfold bind at 1. rewrite Hread. reflexivity.
Qed.

(** ** Where the initial values of the high-voltage client go *)




Section HighVoltageInitialValues.
Context {B : Builtins}.


End HighVoltageInitialValues.






Section ChangesWithin.
Context (p : element -> bool) (R : element -> element -> Prop).
Hypothesis R_refl : forall x, R x x.



Hypothesis R_trans : forall x y z, R x y -> R y z -> R x z.


End ChangesWithin.

Section StaysInPanel.
Context {B : Builtins}.












End StaysInPanel.

(** ** Controls of a high-voltage module with an identifier of name characters *)

(** X13.  The NTC selects of a high-voltage module whose identifier is
    made of name characters.  [initializeChannelControls] returns
    normally when the panel of the device is in the document, and
    changes the document only by what it attaches in that panel; in
    the panel as [createModulePanel] makes it, the NTC select of each
    channel 0 to 3 offers the values [0] to [4] and gets one listener,
    made for that channel; a change of a select with this listener
    sends [set_temperature_compensation] for the channel, with
    [ntc_channel] [null] exactly when the value is [0], and the value
    minus one otherwise. *)
Theorem ntc_selector_command_for_names {B : Builtins}
  (d : string) (ch : Z) (s : state) (panel : node) (this : element) :
  css_name d = true ->
  (querySelector (module_panel_of d) (document s) = Some panel ->
   initializeChannelControls d s
   = (Ok tt, mkState (modify_first (module_panel_of d)
                        (on_children (module_controls d (mkCompound d [] []))) (document s))
               (modules s) (currentModuleId s) (next_ref s) (trace s)))
  /\ map (fun e => (getAttribute "data-channel" e, options e, listeners e))
       (filter (has_class "ntc-combo")
          (elements [on_children (module_controls d (mkCompound d [] []))
                       (Markup_MHV4.createModulePanel d)]))
     = map (fun k => (Some (decimal k), ["0"; "1"; "2"; "3"; "4"], [("change", H_ntc d k)]))
         (range 0 3)
  /\ (listeners this = [("change", H_ntc d ch)] ->
      In (value this) ["0"; "1"; "2"; "3"; "4"] ->
      exists ntc,
        dispatchEvent "change" this s
        = (Ok tt, after s (POST_command d "set_temperature_compensation"
                             [("channel", JNum (Int ch)); ("ntc_channel", ntc)]))
        /\ (ntc = JNull <-> value this = "0")
        /\ (value this <> "0" ->
            exists k, 0 <= k <= 3 /\ value this = decimal (k + 1) /\ ntc = JNum (Int k))).
Proof.
  intros Hd. split; [|split].
  - intros Hq. exact (initializeChannelControls_name d s panel Hd Hq).
  - unfold elements, module_controls, listen, selects, modify_first, update_first.
    cbn. rewrite !String.eqb_refl. reflexivity.
  - apply ntc_listener_command.
Qed.

(** X14.  The ramp speed select of a high-voltage module whose
    identifier is made of name characters: in the panel as
    [createModulePanel] makes it, after [initializeChannelControls],
    the select of id [ramp-speed-<deviceId>] offers the values [0] to
    [3] and has one listener; a change of a select with this listener
    sends [set_ramp_speed] with the one parameter [ramp_speed_index],
    the integer of the chosen value, and no channel. *)
Theorem ramp_speed_command_for_names {B : Builtins}
  (d : string) (s : state) (panel : node) (this : element) :
  css_name d = true ->
  (querySelector (module_panel_of d) (document s) = Some panel ->
   initializeChannelControls d s
   = (Ok tt, mkState (modify_first (module_panel_of d)
                        (on_children (module_controls d (mkCompound d [] []))) (document s))
               (modules s) (currentModuleId s) (next_ref s) (trace s)))
  /\ map (fun e => (el_id e, options e, listeners e))
       (filter (has_class "ramp-speed-select")
          (elements [on_children (module_controls d (mkCompound d [] []))
                       (Markup_MHV4.createModulePanel d)]))
     = [(("ramp-speed-" ++ d)%string, ["0"; "1"; "2"; "3"], [("change", H_rampSpeed d)])]
  /\ (listeners this = [("change", H_rampSpeed d)] ->
      In (value this) ["0"; "1"; "2"; "3"] ->
      exists k,
        0 <= k <= 3 /\ value this = decimal k
        /\ dispatchEvent "change" this s
           = (Ok tt, after s (POST_command d "set_ramp_speed"
                                [("ramp_speed_index", JNum (Int k))]))).
Proof.
  intros Hd. split; [|split].
  - intros Hq. exact (initializeChannelControls_name d s panel Hd Hq).
  - unfold elements, module_controls, listen, selects, modify_first, update_first.
    cbn. rewrite !String.eqb_refl. reflexivity.
  - apply ramp_speed_listener_command.
Qed.

(** X15.  A module named by the endpoint path of a serial port, such
    as [/dev/ttyUSB0] or [/dev/cu.usbserial-1410]: an identifier made
    of name characters, [.] and [/] that holds a [/] makes
    [#ramp-speed-<deviceId>] an ill-formed selector.  For every
    identifier with an ill-formed selector, [initializeControls] of the
    pulse-shaping client throws a [SyntaxError] and leaves the state as
    it is, and so does [initializeChannelControls] whenever the panel
    of the device is in the document: no listener is attached. *)
Theorem ill_formed_selector_throws (d : string) (s : state) :
  (string_exists (fun c => negb (css_name_char c || (c =? ".") || (c =? "/"))%char) d = false ->
   string_exists (fun c => (c =? "/")%char) d = true ->
   id_selector d = Ill_formed)
  /\ (id_selector d = Ill_formed ->
      initializeControls d s = (Throw SyntaxError, s)
      /\ (querySelector (module_panel_of d) (document s) <> None ->
          initializeChannelControls d s = (Throw SyntaxError, s))).
Proof.
  split.
  - intros Hall Hs. unfold id_selector.
    replace (string_exists (fun c => negb (parsed_char c)) d) with false.
    + replace (string_exists never_in_selector d) with true; [reflexivity|].
      symmetry. clear Hall. induction d as [|c r IH]; [discriminate|].
      cbn [string_exists] in *. apply orb_true_iff in Hs as [Hc|Hr].
      * apply Ascii.eqb_eq in Hc. subst c. reflexivity.
      * rewrite (IH Hr). apply orb_true_r.
    + symmetry. clear Hs. induction d as [|c r IH]; [reflexivity|].
      cbn [string_exists] in *. apply orb_false_iff in Hall as [Hc Hr].
      rewrite (IH Hr), orb_false_r. apply negb_false_iff in Hc. apply negb_false_iff.
      unfold parsed_char, in_compound.
      destruct (css_name_char c); [reflexivity|]. destruct (c =? ".")%char; [reflexivity|].
      cbn [orb] in Hc |- *. apply Ascii.eqb_eq in Hc. subst c. reflexivity.
  - intros H. split.
    + unfold initializeControls. rewrite H. reflexivity.
    + intros Hq. destruct (querySelector (module_panel_of d) (document s)) as [n|] eqn:Q;
        [|contradiction].
      exact (initializeChannelControls_ill_formed d s n H Q).
Qed.

(** ** The further properties at work on the sample page *)


Lemma set_button_sends_its_input_witness :
  let this := E BUTTON [] "" [] in
  exists input,
    getElementById "thresh-COM3-5" (document (sample_state MSCF16)) = Some input
    /\ ((exists command params key,
           run_handler (B := sample_builtins) (H_setThreshold "COM3" 5) this
             (sample_state MSCF16)
           = (Ok tt, after (sample_state MSCF16) (POST_command "COM3" command params))
           /\ In (key, JNum (parseInt (value input))) params)
        \/ (H_setThreshold "COM3" 5 = H_setMultiplicity "COM3"
            /\ run_handler (B := sample_builtins) (H_setThreshold "COM3" 5) this
                 (sample_state MSCF16)
               = (Throw TypeError, sample_state MSCF16))).
Proof.
  intros this. eexists. split; [vm_compute; reflexivity|].
  apply (proj2 (set_button_sends_its_input (B := sample_builtins) "COM3")
           "thresh-COM3-5" (H_setThreshold "COM3" 5) this _ (sample_state MSCF16)).
  - vm_compute. repeat first [left; reflexivity | right].
  - vm_compute. reflexivity.
Defined.

Lemma initial_value_round_trip_witness :
  let data := [("type", JStr "threshold"); ("channel", JNum (Int 5));
               ("value", JNum (Int 200))] in
  let this := E BUTTON [] "" [] in
  let s' := snd (on_event (B := sample_builtins) MSCF16 (initial_values "COM3" data)
                   (sample_state MSCF16)) in
  exists command params key,
    run_handler (B := sample_builtins) (H_setThreshold "COM3" 5) this s'
    = (Ok tt, after s' (POST_command "COM3" command params))
    /\ In (key, JNum (Int 200)) params.
Proof.
  intros data this.
  eapply (initial_value_round_trip (B := sample_builtins) "COM3" "thresh-COM3-5"
            (H_setThreshold "COM3" 5) data 200 this).
  - vm_compute. repeat first [left; reflexivity | right].
  - discriminate.
  - vm_compute. reflexivity.
  - lia.
  - vm_compute. reflexivity.
  - vm_compute. reflexivity.
  - reflexivity.
Defined.

Lemma readings_for_absent_displays_witness :
  on_event (B := sample_builtins) MHV4 (readings_update "COM9" [("voltage_0", JNull)])
    (sample_state MHV4)
  = (Ok tt, sample_state MHV4).
Proof.
  apply (readings_for_absent_displays (B := sample_builtins)).
  intros ch Hch.
  assert (Hc : ch = 0 \/ ch = 1 \/ ch = 2 \/ ch = 3) by lia.
  destruct Hc as [-> | [-> | [-> | ->]]]; split; vm_compute; reflexivity.
Defined.

Lemma readings_update_throws_witness :
  fst (on_event (B := sample_builtins) MHV4 (readings_update "COM3" [("voltage_0", JNull)])
         (sample_state MHV4))
  = Throw TypeError.
Proof.
  destruct (readings_update_throws (B := sample_builtins) "COM3" [("voltage_0", JNull)]
              (sample_state MHV4)) as (_ & _ & _ & _ & _ & H).
  apply H. exists "voltage_0", "voltage-COM3-0", 1%nat. split; [|split].
  - left. reflexivity.
  - intros [H0|[x H0]]; discriminate.
  - vm_compute. discriminate.
Defined.

Lemma switchModule_shows_one_tab_witness :
  exists e e',
    getElementById "module-COM3" (document (sample_state MHV4)) = Some e
    /\ getElementById "module-COM3" (document (snd (switchModule "COM3" (sample_state MHV4))))
       = Some e'
    /\ has_class "active" e' = true.
Proof.
  eassert (H : getElementById "module-COM3" (document (sample_state MHV4)) = Some _)
    by (vm_compute; reflexivity).
  destruct (switchModule_shows_one_tab "COM3" (sample_state MHV4))
    as (_ & _ & _ & _ & _ & _ & _ & Hshown).
  destruct (Hshown _ H) as (e' & He' & Hactive).
  eexists _, e'. split; [exact H|]. split; assumption.
Defined.


Lemma addModule_without_container_witness :
  fst (addModule MHV4 "COM3" "COM3" (initial_state [])) = Throw TypeError
  /\ modules (snd (addModule MHV4 "COM3" "COM3" (initial_state []))) = [].
Proof.
  destruct (addModule_without_container MHV4 "COM3" "COM3" (initial_state []) eq_refl eq_refl
              eq_refl) as (H1 & H2 & _).
  split; assumption.
Defined.

Lemma modules_have_their_own_tabs_witness :
  let s := do_calls MHV4 [Add "COM3" "COM3"; Add "COM4" "COM4"] (initial_state sample_page) in
  exists m,
    obj_get (modules s) "COM4" = Some m
    /\ deviceId m = "COM4" /\ tabButton m <> tabContent m.
Proof.
  intros s.
  eassert (H : obj_get (modules s) "COM4" = Some _) by (vm_compute; reflexivity).
  eexists. split; [exact H|].
  exact (proj1 (modules_have_their_own_tabs MHV4 sample_page
                  [Add "COM3" "COM3"; Add "COM4" "COM4"]) "COM4" _ H).
Defined.

Lemma initial_values_throws_witness :
  let s := initial_state [Node (E DIV ["device-tab"] "" [("data-device-id", "COM3")]) []] in
  on_event (B := sample_builtins) MSCF16
    (initial_values "COM3" [("type", JStr "version"); ("value", JStr "1.0")]) s
  = (Throw TypeError, s).
Proof.
  intros s.
  apply (proj2 (initial_values_throws (B := sample_builtins) "COM3"
                  [("type", JStr "version"); ("value", JStr "1.0")] s)).
  split; [vm_compute; discriminate|]. split; reflexivity.
Defined.

Lemma removeModule_shows_oldest_witness :
  let s := do_calls MHV4 [Add "COM3" "COM3"; Add "COM4" "COM4"; Add "COM5" "COM5"]
             (initial_state sample_page) in
  currentModuleId s = Some "COM5"
  /\ currentModuleId (snd (removeModule "COM5" s)) = Some "COM3".
Proof.
  intros s. split; [vm_compute; reflexivity|].
  eassert (H : obj_get (modules s) "COM5" = Some _) by (vm_compute; reflexivity).
  assert (K : own_keys (modules s) = ["COM3"; "COM4"; "COM5"]) by (vm_compute; reflexivity).
  rewrite (removeModule_shows_oldest "COM5" s _ H).
  - rewrite K. reflexivity.
  - rewrite K. repeat (constructor; [reflexivity|]). constructor.
Defined.

Lemma channel_setting_round_trip_witness :
  let data := [("type", JStr "voltage_preset"); ("channel", JNum (Int 2));
               ("value", JNum (Int 100))] in
  let this := E BUTTON ["set-voltage-btn"] "" [] in
  let s' := snd (on_event (B := sample_builtins) MHV4 (initial_values "COM3" data)
                   (sample_state MHV4)) in
  run_handler (B := sample_builtins) (H_setVoltage "COM3" 2) this s'
  = (Ok tt, after s' (POST_command "COM3" "set_voltage"
                        [("channel", JNum (Int 2)); ("voltage", JNum (Int 100))])).
Proof.
  intros data this.
  eapply (channel_setting_round_trip (B := sample_builtins) "COM3" "voltage_preset"
            "voltage-preset-input" "set_voltage" "voltage" (H_setVoltage "COM3" 2) data 2 this).
  - left. reflexivity.
  - reflexivity.
  - lia.
  - reflexivity.
  - vm_compute. reflexivity.
  - vm_compute. reflexivity.
  - vm_compute. reflexivity.
  - reflexivity.
  - vm_compute. reflexivity.
Defined.

Lemma ntc_selector_command_for_names_witness :
  let this := mkElement SELECT "" ["ntc-combo"] [("data-channel", "2")] "2" false ""
                ["0"; "1"; "2"; "3"; "4"] [("change", H_ntc "COM3" 2)] None in
  css_name "COM3" = true
  /\ exists ntc,
       dispatchEvent (B := sample_builtins) "change" this (sample_state MHV4)
       = (Ok tt, after (sample_state MHV4)
                   (POST_command "COM3" "set_temperature_compensation"
                      [("channel", JNum (Int 2)); ("ntc_channel", ntc)]))
       /\ (ntc = JNull <-> value this = "0").
Proof.
  intros this. split; [reflexivity|].
  destruct (proj2 (proj2 (ntc_selector_command_for_names (B := sample_builtins) "COM3" 2
                            (sample_state MHV4) (Node this []) this eq_refl)))
    as (ntc & Hrun & Hnull & _).
  - reflexivity.
  - cbn. auto.
  - exists ntc. split; assumption.
Defined.

Lemma ramp_speed_command_for_names_witness :
  let this := mkElement SELECT "ramp-speed-COM3" ["ramp-speed-select"] [] "3" false ""
                ["0"; "1"; "2"; "3"] [("change", H_rampSpeed "COM3")] None in
  css_name "COM3" = true
  /\ exists k,
       0 <= k <= 3 /\ value this = decimal k
       /\ dispatchEvent (B := sample_builtins) "change" this (sample_state MHV4)
          = (Ok tt, after (sample_state MHV4)
                      (POST_command "COM3" "set_ramp_speed"
                         [("ramp_speed_index", JNum (Int k))])).
Proof.
  intros this. split; [reflexivity|].
  apply (proj2 (proj2 (ramp_speed_command_for_names (B := sample_builtins) "COM3"
                         (sample_state MHV4) (Node this []) this eq_refl))).
  - reflexivity.
  - cbn. auto.
Defined.

Lemma ill_formed_selector_throws_witness :
  id_selector "/dev/cu.usbserial-1410" = Ill_formed
  /\ initializeControls "/dev/cu.usbserial-1410" (sample_state MSCF16)
     = (Throw SyntaxError, sample_state MSCF16).
Proof.
  assert (H : id_selector "/dev/cu.usbserial-1410" = Ill_formed).
  { apply (proj1 (ill_formed_selector_throws "/dev/cu.usbserial-1410" (sample_state MSCF16)));
      reflexivity. }
  split; [exact H|].
  exact (proj1 (proj2 (ill_formed_selector_throws "/dev/cu.usbserial-1410"
                         (sample_state MSCF16)) H)).
Defined.
